(** * The simulation core of the survival game: frame scheduler, wave
    director, input adapter and the per-frame orchestrator.

    Numbers of the program are JavaScript numbers.  Times in seconds or
    milliseconds are modelled as exact rationals ([Q]); counters that
    only ever hold integers (wave number, population cap, enemy count)
    are modelled as [Z].  Objects are records, and a method is a function
    from the state before the call to the state after it, together with
    what the call returns.  A registered callback is modelled by the
    event that invokes it; [Math.random()], [Date.now()] and the
    timestamps of the animation frames are arguments. *)

From Stdlib Require Import ZArith QArith Qminmax Qround Lqa Lia List Bool.
From stdpp Require Import base gmap strings.
Import ListNotations.

Close Scope Q_scope.
Open Scope Z_scope.

(** ** Frame scheduler: [GameLoopController] *)

Module GameLoopController.

(** What the scheduler does during one host callback, in order. *)
Inductive call :=
| UpdateCallback (deltaTime : Q)
| RenderCallback (deltaTime : Q)
| RequestAnimationFrame.

Record t := { lastTime : Q }.

(** [start]: resets [lastTime] and requests the first frame. *)
Definition start (_ : t) : t * list call :=
  ({| lastTime := 0%Q |}, [RequestAnimationFrame]).

(** [Math.min((currentTime - this.lastTime) / 1000, 0.02)] *)
Definition deltaTime (currentTime : Q) (s : t) : Q :=
  Qmin ((currentTime - lastTime s) / 1000) (2 # 100).

Definition gameLoop (currentTime : Q) (s : t) : t * list call :=
  let dt := deltaTime currentTime s in
  ({| lastTime := currentTime |},
   [UpdateCallback dt; RenderCallback dt; RequestAnimationFrame]).

(** The value the specification asks for. *)
Definition clamp (x lo hi : Q) : Q := Qmax lo (Qmin x hi).

End GameLoopController.

(** ** Wave director: [WaveManager] *)

Inductive BossType := necromancer | vampire_lord | ancient_golem.

(** [{ x, y }] *)
Definition Pos : Type := Q * Q.

(** The values that the successive calls of [Math.random()] return during
    one call into the wave director. *)
Definition Rand : Type := nat -> Q.

(** [new BossEnemy(x, y, bossType, wave)]; [bossType] is [None] when the
    array lookup that selects it yields [undefined]. *)
Record BossEnemy := {
  boss_x : Q;
  boss_y : Q;
  boss_type : option BossType;
  boss_wave : Z
}.

(** What the wave director uses and this repository does not define:
    [Math.cos], [Math.sin], [Math.PI], and the enemies built by
    [EnemyFactory.createRandomEnemy(x, y, wave)], a factory that draws its
    own random numbers. *)
Class MathEnv := {
  Math_cos : Q -> Q;
  Math_sin : Q -> Q;
  Math_PI : Q;
  RegularEnemy : Type;
  EnemyFactory_createRandomEnemy : Q -> Q -> Z -> Rand -> RegularEnemy
}.

Module WaveManager.
Section WaveDirector.

Context {env : MathEnv}.

Inductive Enemy :=
| Boss (b : BossEnemy)
| Regular (e : RegularEnemy).

Definition isBoss (e : Enemy) : bool :=
  match e with Boss _ => true | Regular _ => false end.

(** Invocations of the two registered callbacks. *)
Inductive WaveEvent :=
| OnBossWarning
| OnBossSpawn (boss : BossEnemy).

Record t := {
  currentWave : Z;
  spawnTimer : Q;
  spawnInterval : Q;
  waveStartTime : Q;
  maxActiveEnemies : Z;
  bossSpawned : bool;
  bossDefeated : bool;
  bossWarningTriggered : bool;
  timeUntilBoss : Q
}.

(** Fields that are initialised and never assigned again. *)
Definition waveDuration : Q := 30.
Definition maxEnemiesCap : Z := 80.
Definition bossSpawnInterval : Z := 5.
Definition bossWarningTime : Q := 5.

Definition init : t := {|
  currentWave := 1;
  spawnTimer := 0;
  spawnInterval := 2;
  waveStartTime := 0;
  maxActiveEnemies := 25;
  bossSpawned := false;
  bossDefeated := false;
  bossWarningTriggered := false;
  timeUntilBoss := 0
|}.

Definition set_spawnTimer (v : Q) (s : t) : t :=
  {| currentWave := currentWave s; spawnTimer := v;
     spawnInterval := spawnInterval s; waveStartTime := waveStartTime s;
     maxActiveEnemies := maxActiveEnemies s; bossSpawned := bossSpawned s;
     bossDefeated := bossDefeated s;
     bossWarningTriggered := bossWarningTriggered s;
     timeUntilBoss := timeUntilBoss s |}.

Definition set_waveStartTime (v : Q) (s : t) : t :=
  {| currentWave := currentWave s; spawnTimer := spawnTimer s;
     spawnInterval := spawnInterval s; waveStartTime := v;
     maxActiveEnemies := maxActiveEnemies s; bossSpawned := bossSpawned s;
     bossDefeated := bossDefeated s;
     bossWarningTriggered := bossWarningTriggered s;
     timeUntilBoss := timeUntilBoss s |}.

Definition set_bossSpawned (v : bool) (s : t) : t :=
  {| currentWave := currentWave s; spawnTimer := spawnTimer s;
     spawnInterval := spawnInterval s; waveStartTime := waveStartTime s;
     maxActiveEnemies := maxActiveEnemies s; bossSpawned := v;
     bossDefeated := bossDefeated s;
     bossWarningTriggered := bossWarningTriggered s;
     timeUntilBoss := timeUntilBoss s |}.

Definition set_bossDefeated (v : bool) (s : t) : t :=
  {| currentWave := currentWave s; spawnTimer := spawnTimer s;
     spawnInterval := spawnInterval s; waveStartTime := waveStartTime s;
     maxActiveEnemies := maxActiveEnemies s; bossSpawned := bossSpawned s;
     bossDefeated := v;
     bossWarningTriggered := bossWarningTriggered s;
     timeUntilBoss := timeUntilBoss s |}.

Definition set_bossWarningTriggered (v : bool) (s : t)
  : t :=
  {| currentWave := currentWave s; spawnTimer := spawnTimer s;
     spawnInterval := spawnInterval s; waveStartTime := waveStartTime s;
     maxActiveEnemies := maxActiveEnemies s; bossSpawned := bossSpawned s;
     bossDefeated := bossDefeated s;
     bossWarningTriggered := v;
     timeUntilBoss := timeUntilBoss s |}.

Definition set_timeUntilBoss (v : Q) (s : t) : t :=
  {| currentWave := currentWave s; spawnTimer := spawnTimer s;
     spawnInterval := spawnInterval s; waveStartTime := waveStartTime s;
     maxActiveEnemies := maxActiveEnemies s; bossSpawned := bossSpawned s;
     bossDefeated := bossDefeated s;
     bossWarningTriggered := bossWarningTriggered s;
     timeUntilBoss := v |}.

(** [this.currentWave % this.bossSpawnInterval === 0]; the remainder of
    JavaScript takes the sign of the dividend, as [Z.rem] does. *)
Definition isBossWave (s : t) : bool :=
  Z.rem (currentWave s) bossSpawnInterval =? 0.

Definition isBossActive (s : t) : bool :=
  isBossWave s && bossSpawned s && negb (bossDefeated s).

Definition onBossDefeated (s : t) : t :=
  set_bossDefeated true s.

Definition getTimeUntilBoss (s : t) : Q :=
  if negb (isBossWave s) || bossSpawned s then 0%Q
  else Qmax 0 (bossWarningTime - waveStartTime s).

Definition getCurrentWave (s : t) : Z := currentWave s.

Definition update (deltaTime : Q) (s : t)
  : t * list WaveEvent :=
  let s := set_waveStartTime (waveStartTime s + deltaTime)%Q s in
  let s := set_spawnTimer (spawnTimer s + deltaTime)%Q s in
  if isBossWave s && negb (bossSpawned s) then
    let s := set_timeUntilBoss
               (Qmax 0 (bossWarningTime - waveStartTime s)) s in
    if Qle_bool (bossWarningTime - 5) (waveStartTime s)
       && negb (bossWarningTriggered s)
    then (set_bossWarningTriggered true s, [OnBossWarning])
    else (s, [])
  else (s, []).

Definition advanceWave (s : t) : t :=
  {| currentWave := currentWave s + 1;
     spawnTimer := spawnTimer s;
     spawnInterval := Qmax 1 (spawnInterval s * (97 # 100));
     waveStartTime := 0;
     maxActiveEnemies := Z.min maxEnemiesCap (maxActiveEnemies s + 5);
     bossSpawned := false;
     bossDefeated := false;
     bossWarningTriggered := false;
     timeUntilBoss := 0 |}.

Definition reset (s : t) : t :=
  {| currentWave := 1;
     spawnTimer := 0;
     spawnInterval := 2;
     waveStartTime := 0;
     maxActiveEnemies := 25;
     bossSpawned := false;
     bossDefeated := false;
     bossWarningTriggered := false;
     timeUntilBoss := 0 |}.

(** [arr[i]] for a number [i] that holds an integer: [undefined] out of
    range. *)
Definition js_index {A} (arr : list A) (i : Z) : option A :=
  if i <? 0 then None else nth_error arr (Z.to_nat i).

Definition bossTypes : list BossType :=
  [necromancer; vampire_lord; ancient_golem].

(** [Math.floor((wave / bossSpawnInterval) - 1) % bossTypes.length] *)
Definition bossIndex (wave : Z) : Z :=
  Z.rem (Qfloor (inject_Z wave / inject_Z bossSpawnInterval - 1)%Q)
        (Z.of_nat (length bossTypes)).

(** The position on one of the four edges of the canvas, [margin]
    outside it; [edge] is [Math.floor(Math.random() * 4)] and [r] the
    next random number. *)
Definition edgePosition (margin canvasWidth canvasHeight : Q)
    (edge : Z) (r : Q) : Pos :=
  (match edge with
   | 0%Z => (r * canvasWidth, - margin)
   | 1%Z => (canvasWidth + margin, r * canvasHeight)
   | 2%Z => (r * canvasWidth, canvasHeight + margin)
   | 3%Z => (- margin, r * canvasHeight)
   | _ => (canvasWidth / 2, - margin)
   end)%Q.

(** The position on a ring around the player, at a distance between
    [near] and [near + 200]. *)
Definition ringPosition (near : Q) (p : Pos) (rnd : Rand) : Pos :=
  (let angle := rnd 0%nat * Math_PI * 2 in
   let distance := near + rnd 1%nat * 200 in
   (fst p + Math_cos angle * distance,
    snd p + Math_sin angle * distance))%Q.

Definition spawnBoss (canvasWidth canvasHeight : Q)
    (playerPos : option Pos) (rnd : Rand) (s : t) : BossEnemy :=
  let bossType := js_index bossTypes (bossIndex (currentWave s)) in
  let margin := 200%Q in
  let xy :=
    match playerPos with
    | Some p => ringPosition 400 p rnd
    | None =>
        edgePosition margin canvasWidth canvasHeight
          (Qfloor (rnd 0%nat * 4)%Q) (rnd 1%nat)
    end in
  {| boss_x := fst xy; boss_y := snd xy;
     boss_type := bossType; boss_wave := currentWave s |}.

(** The debug method that spawns a boss of a given type, whatever the
    wave. *)
Definition spawnSpecificBoss (canvasWidth canvasHeight : Q)
    (bossType : BossType) (playerPos : option Pos) (rnd : Rand) (s : t)
  : BossEnemy :=
  let margin := 200%Q in
  let xy :=
    match playerPos with
    | Some p => ringPosition 400 p rnd
    | None =>
        edgePosition margin canvasWidth canvasHeight
          (Qfloor (rnd 0%nat * 4)%Q) (rnd 1%nat)
    end in
  {| boss_x := fst xy; boss_y := snd xy;
     boss_type := Some bossType; boss_wave := currentWave s |}.

Definition getSpawnPosition (canvasWidth canvasHeight : Q)
    (playerPos : option Pos) (rnd : Rand) : Pos :=
  let margin := 50%Q in
  match playerPos with
  | Some p => ringPosition 300 p rnd
  | None =>
      edgePosition margin canvasWidth canvasHeight
        (Qfloor (rnd 0%nat * 4)%Q) (rnd 1%nat)
  end.

Definition createRandomEnemy (canvasWidth canvasHeight : Q)
    (playerPos : option Pos) (rnd : Rand) (s : t)
  : RegularEnemy :=
  let pos := getSpawnPosition canvasWidth canvasHeight playerPos rnd in
  EnemyFactory_createRandomEnemy (fst pos) (snd pos) (currentWave s)
    (fun n => rnd (2 + n)%nat).

Definition spawnEnemies (canvasWidth canvasHeight : Q)
    (currentEnemyCount : Z) (playerPos : option Pos) (rnd : Rand)
    (s : t) : list Enemy * t * list WaveEvent :=
  if isBossWave s then
    let '(enemies, s, events) :=
      if negb (bossSpawned s) && Qle_bool bossWarningTime (waveStartTime s)
      then
        let boss := spawnBoss canvasWidth canvasHeight playerPos rnd s in
        ([Boss boss], set_bossSpawned true s, [OnBossSpawn boss])
      else ([], s, []) in
    if bossSpawned s && negb (bossDefeated s) then (enemies, s, events)
    else if bossDefeated s then
      if Qle_bool waveDuration (waveStartTime s)
      then (enemies, advanceWave s, events)
      else (enemies, s, events)
    else (enemies, s, events)
  else
    let s := if Qle_bool waveDuration (waveStartTime s)
             then advanceWave s else s in
    if Qle_bool (spawnInterval s) (spawnTimer s)
       && (currentEnemyCount <? maxActiveEnemies s)
    then
      let enemy :=
        createRandomEnemy canvasWidth canvasHeight playerPos rnd s in
      ([Regular enemy], set_spawnTimer 0 s, [])
    else ([], s, []).

(** *** Calls into the wave director *)

Inductive op :=
| Update (deltaTime : Q)
| SpawnEnemies (canvasWidth canvasHeight : Q) (currentEnemyCount : Z)
    (playerPos : option Pos) (rnd : Rand)
| OnBossDefeated
| Reset.

(** One call: the enemies it returns and the state it leaves. *)
Definition step (o : op) (s : t) : list Enemy * t :=
  match o with
  | Update dt => ([], fst (update dt s))
  | SpawnEnemies w h c p r => fst (spawnEnemies w h c p r s)
  | OnBossDefeated => ([], onBossDefeated s)
  | Reset => ([], reset s)
  end.

Fixpoint run (ops : list op) (s : t) : list Enemy * t :=
  match ops with
  | [] => ([], s)
  | o :: ops =>
      let '(es, s1) := step o s in
      let '(es', s2) := run ops s1 in
      (es ++ es', s2)
  end.

(** The callers of [onBossDefeated] are not in the sources; by the
    specification the call marks the wave of the active boss as cleared,
    so a defeat is reported while a boss is active only. *)
Definition allowed (o : op) (s : t) : Prop :=
  match o with
  | OnBossDefeated => isBossActive s = true
  | _ => True
  end.

(** Every call of [ops] is allowed in the state it is made in. *)
Fixpoint allowedAll (ops : list op) (s : t) : Prop :=
  match ops with
  | [] => True
  | o :: ops => allowed o s /\ allowedAll ops (snd (step o s))
  end.

Inductive reachable : t -> Prop :=
| reachable_init : reachable init
| reachable_step o s :
    reachable s -> allowed o s -> reachable (snd (step o s)).

(** The states reached through any calls, whether a boss is active when
    a defeat is reported or not. *)
Inductive reachableByCalls : t -> Prop :=
| reachableByCalls_init : reachableByCalls init
| reachableByCalls_step o s :
    reachableByCalls s -> reachableByCalls (snd (step o s)).



(** *** The wave director and the bosses it has put into play *)

Definition bossesOf (es : list Enemy) : list BossEnemy :=
  omap (fun e => match e with Boss b => Some b | Regular _ => None end) es.

(** [liveBosses]: the bosses returned by [spawnEnemies] that have not
    died; [spawnedBosses]: all bosses returned by [spawnEnemies] since
    the last reset; [summonedBosses]: the bosses made by the debug method
    [spawnSpecificBoss] that have not died. *)
Record session := {
  director : t;
  liveBosses : list BossEnemy;
  spawnedBosses : list BossEnemy;
  summonedBosses : list BossEnemy
}.

Definition newSession : session :=
  {| director := init; liveBosses := []; spawnedBosses := [];
     summonedBosses := [] |}.

(** All the bosses that are alive. *)
Definition bossesAlive (ss : session) : list BossEnemy :=
  liveBosses ss ++ summonedBosses ss.

Inductive sessionEvent :=
| Call (o : op)
| BossDies (i : nat) (reported : bool)
| DebugSummon (canvasWidth canvasHeight : Q) (bossType : BossType)
    (playerPos : option Pos) (rnd : Rand)
| SummonedBossDies (i : nat).

(** The death of the [i]-th live boss removes it and, when it is
    reported, calls [onBossDefeated]; a reset clears the registry
    together with the director; a debug summon adds its boss to the
    registry and leaves the director as it is. *)
Definition sessionStep (e : sessionEvent) (ss : session)
  : option session :=
  match e with
  | Call OnBossDefeated => None
  | Call Reset =>
      Some {| director := reset (director ss);
              liveBosses := []; spawnedBosses := [];
              summonedBosses := [] |}
  | Call o =>
      let '(es, d) := step o (director ss) in
      Some {| director := d;
              liveBosses := liveBosses ss ++ bossesOf es;
              spawnedBosses := spawnedBosses ss ++ bossesOf es;
              summonedBosses := summonedBosses ss |}
  | BossDies i reported =>
      match liveBosses ss !! i with
      | None => None
      | Some _ =>
          Some {| director := if reported then onBossDefeated (director ss)
                              else director ss;
                  liveBosses := delete i (liveBosses ss);
                  spawnedBosses := spawnedBosses ss;
                  summonedBosses := summonedBosses ss |}
      end
  | DebugSummon w h ty p r =>
      Some {| director := director ss;
              liveBosses := liveBosses ss;
              spawnedBosses := spawnedBosses ss;
              summonedBosses :=
                summonedBosses ss
                  ++ [spawnSpecificBoss w h ty p r (director ss)] |}
  | SummonedBossDies i =>
      match summonedBosses ss !! i with
      | None => None
      | Some _ =>
          Some {| director := director ss;
                  liveBosses := liveBosses ss;
                  spawnedBosses := spawnedBosses ss;
                  summonedBosses := delete i (summonedBosses ss) |}
      end
  end.

Inductive sessionReachable : session -> Prop :=
| sessionReachable_new : sessionReachable newSession
| sessionReachable_step e ss ss' :
    sessionReachable ss -> sessionStep e ss = Some ss' ->
    sessionReachable ss'.

Fixpoint sessionRun (es : list sessionEvent) (ss : session)
  : option session :=
  match es with
  | [] => Some ss
  | e :: es =>
      match sessionStep e ss with
      | Some ss' => sessionRun es ss'
      | None => None
      end
  end.

(** The number of bosses of wave [w] in [bs]. *)
Definition bossesOfWave (w : Z) (bs : list BossEnemy) : nat :=
  length (List.filter (fun b => boss_wave b =? w) bs).

(** *** Invariants *)

(** The invariant of the reachable states. *)
Definition wave_inv (s : t) : Prop :=
  1 <= currentWave s /\
  (1 <= spawnInterval s)%Q /\ (spawnInterval s <= 2)%Q /\
  25 <= maxActiveEnemies s <= maxEnemiesCap /\
  (bossSpawned s = true -> isBossWave s = true) /\
  (bossDefeated s = true -> bossSpawned s = true).

(** What a wave advance escalates. *)
Definition escalation (s : t) : Z * Q * Z :=
  (currentWave s, spawnInterval s, maxActiveEnemies s).


(** The invariant of the reachable sessions. *)
Definition session_inv (ss : session) : Prop :=
  let s := director ss in
  reachable s /\
  Forall (fun b => boss_wave b <= currentWave s) (spawnedBosses ss) /\
  (bossSpawned s = false ->
     Forall (fun b => boss_wave b < currentWave s) (spawnedBosses ss)) /\
  (bossSpawned s = true ->
     bossesOfWave (currentWave s) (spawnedBosses ss) = 1%nat) /\
  (forall w, (bossesOfWave w (spawnedBosses ss) <= 1)%nat) /\
  (length (liveBosses ss) <= 1)%nat /\
  (liveBosses ss <> [] -> isBossActive s = true).

(** The session after a call that returns no boss and leaves the
    director in [d]. *)
Definition afterCall (d : t) (ss : session) : session :=
  {| director := d; liveBosses := liveBosses ss ++ [];
     spawnedBosses := spawnedBosses ss ++ [];
     summonedBosses := summonedBosses ss |}.

End WaveDirector.
End WaveManager.

(** An instance of the collaborators, for running the model. *)
Definition plainMath : MathEnv := {|
  Math_cos := fun _ => 1%Q;
  Math_sin := fun _ => 0%Q;
  Math_PI := (355 # 113)%Q;
  RegularEnemy := Q * Q * Z;
  EnemyFactory_createRandomEnemy := fun x y w _ => (x, y, w)
|}.

(** [Math.random()] returning one half every time. *)
Definition halves : Rand := fun _ => (1 # 2)%Q.

Module WaveRuns.
Import WaveManager.

(** A wave that lasts its thirty seconds, then the call of
    [spawnEnemies] that ends it, with [n] enemies alive. *)
Definition normalWave (n : Z) : list op :=
  [Update 30; SpawnEnemies 800 600 n None halves].

(** A boss wave: the boss is spawned, its defeat is reported, and the
    next call of [spawnEnemies] ends the wave. *)
Definition bossWave (n : Z) : list op :=
  [Update 30; SpawnEnemies 800 600 n None halves; OnBossDefeated;
   SpawnEnemies 800 600 n None halves].

Definition fourWaves (n : Z) : list op :=
  normalWave n ++ normalWave n ++ normalWave n ++ normalWave n.

(** From a new director to the fifth second of wave 15. *)
Definition toWave15 : list op :=
  fourWaves 25 ++ bossWave 25 ++ fourWaves 50 ++ bossWave 50
    ++ fourWaves 80 ++ [Update 5].

(** Wave 15 after five seconds, no boss yet, the population at the
    cap. *)
Definition crowdedBossWave : t := {|
  currentWave := 15;
  spawnTimer := 5;
  spawnInterval := 1;
  waveStartTime := 5;
  maxActiveEnemies := 80;
  bossSpawned := false;
  bossDefeated := false;
  bossWarningTriggered := true;
  timeUntilBoss := 0
|}.

(** Wave 5 twenty seconds in, its boss spawned and alive. *)
Definition bossFight : t := {|
  currentWave := 5;
  spawnTimer := 20;
  spawnInterval := 2;
  waveStartTime := 20;
  maxActiveEnemies := 45;
  bossSpawned := true;
  bossDefeated := false;
  bossWarningTriggered := true;
  timeUntilBoss := 0
|}.


(** From a new director to the fifth second of wave 5. *)
Definition toWave5 : list op := fourWaves 25 ++ [Update 5].

(** A session up to the spawn of the boss of wave 5. *)
Definition toBossFight : list sessionEvent :=
  map Call toWave5 ++ [Call (SpawnEnemies 800 600 25 None halves)].

Definition bossFightSession : session :=
  default newSession
    (sessionRun (env := plainMath) toBossFight newSession).

(** The debug screen summons two bosses at the start of a run. *)
Definition twoSummons : list sessionEvent :=
  [DebugSummon 800 600 necromancer (Some (0, 0)%Q) halves;
   DebugSummon 800 600 vampire_lord (Some (0, 0)%Q) halves].

Definition twoSummonsSession : session :=
  default newSession
    (sessionRun (env := plainMath) twoSummons newSession).

End WaveRuns.


(** ** Input adapter: [InputManager] *)

Record InputState := {
  left : bool;
  right : bool;
  up : bool;
  down : bool;
  mute : bool;
  restart : bool;
  pause : bool;
  weapon1 : bool;
  weapon2 : bool;
  weapon3 : bool;
  weapon4 : bool;
  weapon5 : bool
}.

(** Some field of the snapshot is [true]. *)
Definition anyPressed (i : InputState) : bool :=
  left i || right i || up i || down i || mute i || restart i || pause i
  || weapon1 i || weapon2 i || weapon3 i || weapon4 i || weapon5 i.

Module InputManager.

(** [keys] is an object used as a map from key codes to booleans; a
    missing entry reads as [undefined]. *)
Record t := {
  keys : gmap string bool;
  ignoreUntilRelease : gset string;
  isPaused : bool;
  listenersAttached : bool
}.

Definition init : t := {|
  keys := list_to_map
    [("left", false); ("right", false); ("up", false); ("down", false);
     ("mute", false); ("restart", false); ("pause", false);
     ("weapon1", false); ("weapon2", false); ("weapon3", false);
     ("weapon4", false); ("weapon5", false)];
  ignoreUntilRelease := ∅;
  isPaused := false;
  listenersAttached := false
|}.

Definition set_keys (v : gmap string bool) (s : t) : t :=
  {| keys := v; ignoreUntilRelease := ignoreUntilRelease s;
     isPaused := isPaused s; listenersAttached := listenersAttached s |}.

Definition set_ignoreUntilRelease (v : gset string) (s : t) : t :=
  {| keys := keys s; ignoreUntilRelease := v;
     isPaused := isPaused s; listenersAttached := listenersAttached s |}.

Definition set_listenersAttached (v : bool) (s : t) : t :=
  {| keys := keys s; ignoreUntilRelease := ignoreUntilRelease s;
     isPaused := isPaused s; listenersAttached := v |}.

(** [this.keys[k]] read as a condition: [undefined] and [false] are
    falsy. *)
Definition pressed (k : string) (s : t) : bool :=
  default false (keys s !! k).

Definition addEventListeners (s : t) : t :=
  if listenersAttached s then s else set_listenersAttached true s.

Definition removeEventListeners (s : t) : t :=
  if negb (listenersAttached s) then s else set_listenersAttached false s.

Definition handleKeyDown (code : string) (s : t) : t :=
  let isMovementKey :=
    bool_decide (code ∈ ["KeyW"; "KeyA"; "KeyS"; "KeyD"; "ArrowUp";
                         "ArrowDown"; "ArrowLeft"; "ArrowRight"]) in
  if isMovementKey && isPaused s then s
  else if negb (bool_decide (code ∈ ignoreUntilRelease s))
       then set_keys (<[code := true]> (keys s)) s
       else s.

Definition handleKeyUp (code : string) (s : t) : t :=
  set_ignoreUntilRelease (ignoreUntilRelease s ∖ {[code]})
    (set_keys (<[code := false]> (keys s)) s).

(** The snapshot with every field [false]. *)
Definition emptyInput : InputState := {|
  left := false; right := false; up := false; down := false;
  mute := false; restart := false; pause := false;
  weapon1 := false; weapon2 := false; weapon3 := false;
  weapon4 := false; weapon5 := false
|}.

Definition getInput (paused : bool) (s : t) : InputState :=
  if paused then
    {| up := false; down := false; left := false; right := false;
       weapon1 := false; weapon2 := false; weapon3 := false;
       weapon4 := false; weapon5 := false;
       mute := false; restart := false; pause := false |}
  else
    {| up := pressed "KeyW" s || pressed "ArrowUp" s;
       down := pressed "KeyS" s || pressed "ArrowDown" s;
       left := pressed "KeyA" s || pressed "ArrowLeft" s;
       right := pressed "KeyD" s || pressed "ArrowRight" s;
       weapon1 := pressed "1" s;
       weapon2 := pressed "2" s;
       weapon3 := pressed "3" s;
       weapon4 := pressed "4" s;
       weapon5 := pressed "5" s;
       mute := pressed "m" s || pressed "M" s;
       restart := pressed "r" s || pressed "R" s;
       pause := pressed "Escape" s |}.

Definition setPaused (paused : bool) (s : t) : t :=
  {| keys := keys s; ignoreUntilRelease := ignoreUntilRelease s;
     isPaused := paused; listenersAttached := listenersAttached s |}.

Definition movementKeys : list string :=
  ["KeyW"; "ArrowUp"; "KeyS"; "ArrowDown"; "KeyA"; "ArrowLeft"; "KeyD";
   "ArrowRight"].

(** The body of the [forEach] of [clearMovementKeys]. *)
Definition clearKey (s : t) (key : string) : t :=
  let s := if pressed key s
           then set_ignoreUntilRelease (ignoreUntilRelease s ∪ {[key]}) s
           else s in
  set_keys (<[key := false]> (keys s)) s.

Definition clearMovementKeys (s : t) : t :=
  foldl clearKey s movementKeys.

(** What happens to the input adapter between and during frames: the
    two listeners, when they are attached, and the two calls the
    orchestrator makes. *)
Inductive event :=
| KeyDown (code : string)
| KeyUp (code : string)
| SetPaused (paused : bool)
| ClearMovementKeys.

Definition handle (e : event) (s : t) : t :=
  match e with
  | KeyDown code => if listenersAttached s then handleKeyDown code s else s
  | KeyUp code => if listenersAttached s then handleKeyUp code s else s
  | SetPaused paused => setPaused paused s
  | ClearMovementKeys => clearMovementKeys s
  end.

Definition handleAll (es : list event) (s : t) : t :=
  foldl (fun s e => handle e s) s es.



End InputManager.

(** ** The game state store, the state coordinator and the orchestrator *)

Inductive GamePhase :=
| Ready | Playing | Paused | LevelUp | GameOver | Ended | CharacterSelect.

Definition GamePhase_eqb (a b : GamePhase) : bool :=
  match a, b with
  | Ready, Ready | Playing, Playing | Paused, Paused | LevelUp, LevelUp
  | GameOver, GameOver | Ended, Ended | CharacterSelect, CharacterSelect =>
      true
  | _, _ => false
  end.

(** The argument of [StatisticsSystem.recordRun], and of
    [saveSessionSnapshot] without its [startTime]. *)
Record RunStats := {
  characterId : string;
  kills : Z;
  run_wave : Z;
  run_level : Z;
  run_score : Q;
  playTime : Z;
  damageTaken : Q;
  damageDealt : Q;
  experienceGained : Q;
  run_maxCombo : Z;
  run_bossesDefeated : Z
}.

(** Calls into the statistics, progression and audio collaborators. *)
Inductive Effect :=
| StatisticsSystem_recordRun (r : RunStats)
| StatisticsSystem_saveSessionSnapshot (r : RunStats) (startTime : Z)
| StatisticsSystem_clearSessionSnapshot
| PersistentProgressionSystem_recordRunEnd
    (score : Q) (wave kills maxCombo bossesDefeated playTime : Z)
| PersistentProgressionSystem_addCurrency (amount : Z)
| Audio_playPlayerHurt
| Audio_playSuccess.

(** Calls that the collision handler makes into the state coordinator. *)
Inductive StateCall :=
| AddKill
| AddDamageDealt (damage : Q)
| AddDamageTaken (damage : Q).

(** The state of the parts of the program that are not in the sources:
    [Ext] for the entity manager with the player, the camera, the combo
    system and the screen shake; [StoreRest] for the fields of the game
    state store that the orchestrator does not read; [Progression] for
    what [PersistentProgressionSystem] has saved. *)
Class Opaque := {
  Ext : Type;
  Projectile : Type;
  StoreRest : Type;
  Progression : Type
}.

Section Store.

Context {opq : Opaque}.

(** The fields of [useGameState] that the sources read or set. *)
Record Store := {
  phase : GamePhase;
  health : Q;
  score : Q;
  wave : Z;
  level : Z;
  totalKills : Z;
  experience : Q;
  maxCombo : Z;
  bossesDefeated : Z;
  currency : Z;
  selectedCharacter : option string;
  others : StoreRest
}.

Definition set_phase (v : GamePhase) (w : Store) : Store :=
  {| phase := v; health := health w; score := score w; wave := wave w;
     level := level w; totalKills := totalKills w;
     experience := experience w; maxCombo := maxCombo w;
     bossesDefeated := bossesDefeated w; currency := currency w;
     selectedCharacter := selectedCharacter w; others := others w |}.

Definition set_currency (v : Z) (w : Store) : Store :=
  {| phase := phase w; health := health w; score := score w;
     wave := wave w; level := level w; totalKills := totalKills w;
     experience := experience w; maxCombo := maxCombo w;
     bossesDefeated := bossesDefeated w; currency := v;
     selectedCharacter := selectedCharacter w; others := others w |}.

(** Modelled from the spec: the store action [pause] of [useGameState],
    which is not in the sources; it makes the transition
    [playing --(pause input)--> paused]. *)
Definition Store_pause (st : Store) : Store := set_phase Paused st.

(** Modelled from the spec: the store action [resume] of
    [useGameState], which is not in the sources; it makes the
    transition [paused --(pause input)--> playing]. *)
Definition Store_resume (st : Store) : Store := set_phase Playing st.

(** Modelled from the spec: the store action [end] of [useGameState],
    which is not in the sources; it ends the phase after the death of
    the player. *)
Definition Store_end (st : Store) : Store := set_phase Ended st.

End Store.

(** The operations of the parts of the program that are not in the
    sources. *)
Class Collaborators {env : MathEnv} {opq : Opaque} := {
  (** [player.update(deltaTime, input, canvas.width, canvas.height,
      infiniteTileRenderer)] *)
  Player_update : Q -> InputState -> Q -> Q -> Ext -> Ext;
  (** [player.fireWeapon(deltaTime)] *)
  Player_fireWeapon : Q -> Ext -> list Projectile * Ext;
  (** [{ x: player.x, y: player.y }], also [player.getPosition()] *)
  Player_position : Ext -> Pos;
  (** [camera.update] at the centre of the player, and [camera.setSize]
      when the canvas has been resized *)
  Camera_update : Q -> Q -> Q -> Ext -> Ext;
  EntityManager_update : Q -> Pos -> Ext -> Ext;
  (** [entityManager.getEnemies().length] *)
  EntityManager_enemyCount : Ext -> Z;
  EntityManager_addBoss : BossEnemy -> Ext -> Ext;
  EntityManager_addEnemies : list WaveManager.Enemy -> Ext -> Ext;
  EntityManager_addProjectiles : list Projectile -> Ext -> Ext;
  EntityManager_createDeathParticles : Pos -> Ext -> Ext;
  (** [generateBossLoot(x, y, type)] and [entityManager.addBossLoot] *)
  EntityManager_addBossLoot : BossEnemy -> Ext -> Ext;
  (** [entityManager.addExperienceOrb(new ExperienceOrb(x, y, value))]
      at the position of the boss *)
  EntityManager_addExperienceOrb : BossEnemy -> Z -> Ext -> Ext;
  Boss_isAlive : BossEnemy -> Ext -> bool;
  Boss_getScoreValue : BossEnemy -> Ext -> Q;
  Boss_getBossName : BossEnemy -> string;
  Boss_getBossDescription : BossEnemy -> string;
  Boss_getHealth : BossEnemy -> Ext -> Q;
  Boss_getMaxHealth : BossEnemy -> Ext -> Q;
  (** [collisionHandler.handleAllCollisions()], with the calls it makes
      into the state coordinator *)
  CollisionHandler_handleAllCollisions :
    Ext -> Store -> Ext * Store * list StateCall;
  (** the combo system and the screen shake in
      [GameStateManager.update], with the combo it publishes to the
      store *)
  Combo_update : Q -> Ext -> Store -> Ext * Store;
  Combo_addKill : Ext -> Ext;
  RenderSystem_render : Q -> Ext -> Ext;
  Store_addKill : Store -> Store;
  Store_setWave : Z -> Store -> Store;
  Store_addCurrency : Z -> Store -> Store;
  Store_addBossKill : Store -> Store;
  Store_onBossDefeated : Store -> Store;
  Store_triggerBossWarning : string -> string -> Store -> Store;
  Store_setBossActive : bool -> Store -> Store;
  Store_setBossInfo : string -> string -> Store -> Store;
  Store_updateBossHealth : Q -> Q -> Store -> Store;
  Progression_recordRunEnd :
    Q -> Z -> Z -> Z -> Z -> Z -> Progression -> Progression;
  Progression_addCurrency : Z -> Progression -> Progression;
  (** [PersistentProgressionSystem.load().currency] *)
  Progression_currency : Progression -> Z
}.

Section Game.

Context {env : MathEnv} {opq : Opaque} {col : Collaborators}.

(** The fields of [GameStateManager]; its combo system and screen
    shake are part of [Ext]. *)
Record GameStateManagerState := {
  gsm_gameStartTime : Z;
  gsm_totalDamageDealt : Q;
  gsm_totalDamageTaken : Q;
  gsm_lastStatsSaveTime : Z;
  lastPauseState : bool
}.

Definition set_gsm_totalDamageDealt (v : Q) (w : GameStateManagerState) : GameStateManagerState :=
  {| gsm_gameStartTime := gsm_gameStartTime w; gsm_totalDamageDealt := v;
     gsm_totalDamageTaken := gsm_totalDamageTaken w;
     gsm_lastStatsSaveTime := gsm_lastStatsSaveTime w;
     lastPauseState := lastPauseState w |}.

Definition set_gsm_totalDamageTaken (v : Q) (w : GameStateManagerState) : GameStateManagerState :=
  {| gsm_gameStartTime := gsm_gameStartTime w;
     gsm_totalDamageDealt := gsm_totalDamageDealt w;
     gsm_totalDamageTaken := v;
     gsm_lastStatsSaveTime := gsm_lastStatsSaveTime w;
     lastPauseState := lastPauseState w |}.

Definition set_gsm_lastStatsSaveTime (v : Z) (w : GameStateManagerState) : GameStateManagerState :=
  {| gsm_gameStartTime := gsm_gameStartTime w;
     gsm_totalDamageDealt := gsm_totalDamageDealt w;
     gsm_totalDamageTaken := gsm_totalDamageTaken w;
     gsm_lastStatsSaveTime := v; lastPauseState := lastPauseState w |}.

Definition set_lastPauseState (v : bool) (w : GameStateManagerState) : GameStateManagerState :=
  {| gsm_gameStartTime := gsm_gameStartTime w;
     gsm_totalDamageDealt := gsm_totalDamageDealt w;
     gsm_totalDamageTaken := gsm_totalDamageTaken w;
     gsm_lastStatsSaveTime := gsm_lastStatsSaveTime w;
     lastPauseState := v |}.

(** The fields of [GameEngine] that the frame reads or writes, the
    stores, and what the program has done outside itself: [log] for
    the calls into statistics, progression and audio, [timers] for the
    times at which a pending [setTimeout(() => gameState.end(), 50)]
    is due. *)
Record World := {
  inputManager : InputManager.t;
  waveManager : WaveManager.t;
  gameStateManager : GameStateManagerState;
  currentBoss : option BossEnemy;
  isBossActive : bool;
  gameStartTime : Z;
  totalDamageDealt : Q;
  totalDamageTaken : Q;
  lastStatsSaveTime : Z;
  isPaused : bool;
  previousPhase : GamePhase;
  canvasWidth : Q;
  canvasHeight : Q;
  gameLoop : GameLoopController.t;
  store : Store;
  isMuted : bool;
  progression : Progression;
  ext : Ext;
  log : list Effect;
  timers : list Z
}.

Definition set_inputManager (v : InputManager.t) (w : World) : World :=
  {| inputManager := v; waveManager := waveManager w;
     gameStateManager := gameStateManager w;
     currentBoss := currentBoss w; isBossActive := isBossActive w;
     gameStartTime := gameStartTime w;
     totalDamageDealt := totalDamageDealt w;
     totalDamageTaken := totalDamageTaken w;
     lastStatsSaveTime := lastStatsSaveTime w; isPaused := isPaused w;
     previousPhase := previousPhase w; canvasWidth := canvasWidth w;
     canvasHeight := canvasHeight w; gameLoop := gameLoop w;
     store := store w; isMuted := isMuted w;
     progression := progression w; ext := ext w; log := log w;
     timers := timers w |}.

Definition set_waveManager (v : WaveManager.t) (w : World) : World :=
  {| inputManager := inputManager w; waveManager := v;
     gameStateManager := gameStateManager w;
     currentBoss := currentBoss w; isBossActive := isBossActive w;
     gameStartTime := gameStartTime w;
     totalDamageDealt := totalDamageDealt w;
     totalDamageTaken := totalDamageTaken w;
     lastStatsSaveTime := lastStatsSaveTime w; isPaused := isPaused w;
     previousPhase := previousPhase w; canvasWidth := canvasWidth w;
     canvasHeight := canvasHeight w; gameLoop := gameLoop w;
     store := store w; isMuted := isMuted w;
     progression := progression w; ext := ext w; log := log w;
     timers := timers w |}.

Definition set_gameStateManager (v : GameStateManagerState) (w : World) : World :=
  {| inputManager := inputManager w; waveManager := waveManager w;
     gameStateManager := v; currentBoss := currentBoss w;
     isBossActive := isBossActive w; gameStartTime := gameStartTime w;
     totalDamageDealt := totalDamageDealt w;
     totalDamageTaken := totalDamageTaken w;
     lastStatsSaveTime := lastStatsSaveTime w; isPaused := isPaused w;
     previousPhase := previousPhase w; canvasWidth := canvasWidth w;
     canvasHeight := canvasHeight w; gameLoop := gameLoop w;
     store := store w; isMuted := isMuted w;
     progression := progression w; ext := ext w; log := log w;
     timers := timers w |}.

Definition set_currentBoss (v : option BossEnemy) (w : World) : World :=
  {| inputManager := inputManager w; waveManager := waveManager w;
     gameStateManager := gameStateManager w; currentBoss := v;
     isBossActive := isBossActive w; gameStartTime := gameStartTime w;
     totalDamageDealt := totalDamageDealt w;
     totalDamageTaken := totalDamageTaken w;
     lastStatsSaveTime := lastStatsSaveTime w; isPaused := isPaused w;
     previousPhase := previousPhase w; canvasWidth := canvasWidth w;
     canvasHeight := canvasHeight w; gameLoop := gameLoop w;
     store := store w; isMuted := isMuted w;
     progression := progression w; ext := ext w; log := log w;
     timers := timers w |}.

Definition set_isBossActive (v : bool) (w : World) : World :=
  {| inputManager := inputManager w; waveManager := waveManager w;
     gameStateManager := gameStateManager w;
     currentBoss := currentBoss w; isBossActive := v;
     gameStartTime := gameStartTime w;
     totalDamageDealt := totalDamageDealt w;
     totalDamageTaken := totalDamageTaken w;
     lastStatsSaveTime := lastStatsSaveTime w; isPaused := isPaused w;
     previousPhase := previousPhase w; canvasWidth := canvasWidth w;
     canvasHeight := canvasHeight w; gameLoop := gameLoop w;
     store := store w; isMuted := isMuted w;
     progression := progression w; ext := ext w; log := log w;
     timers := timers w |}.

Definition set_lastStatsSaveTime (v : Z) (w : World) : World :=
  {| inputManager := inputManager w; waveManager := waveManager w;
     gameStateManager := gameStateManager w;
     currentBoss := currentBoss w; isBossActive := isBossActive w;
     gameStartTime := gameStartTime w;
     totalDamageDealt := totalDamageDealt w;
     totalDamageTaken := totalDamageTaken w; lastStatsSaveTime := v;
     isPaused := isPaused w; previousPhase := previousPhase w;
     canvasWidth := canvasWidth w; canvasHeight := canvasHeight w;
     gameLoop := gameLoop w; store := store w; isMuted := isMuted w;
     progression := progression w; ext := ext w; log := log w;
     timers := timers w |}.

Definition set_isPaused (v : bool) (w : World) : World :=
  {| inputManager := inputManager w; waveManager := waveManager w;
     gameStateManager := gameStateManager w;
     currentBoss := currentBoss w; isBossActive := isBossActive w;
     gameStartTime := gameStartTime w;
     totalDamageDealt := totalDamageDealt w;
     totalDamageTaken := totalDamageTaken w;
     lastStatsSaveTime := lastStatsSaveTime w; isPaused := v;
     previousPhase := previousPhase w; canvasWidth := canvasWidth w;
     canvasHeight := canvasHeight w; gameLoop := gameLoop w;
     store := store w; isMuted := isMuted w;
     progression := progression w; ext := ext w; log := log w;
     timers := timers w |}.

Definition set_previousPhase (v : GamePhase) (w : World) : World :=
  {| inputManager := inputManager w; waveManager := waveManager w;
     gameStateManager := gameStateManager w;
     currentBoss := currentBoss w; isBossActive := isBossActive w;
     gameStartTime := gameStartTime w;
     totalDamageDealt := totalDamageDealt w;
     totalDamageTaken := totalDamageTaken w;
     lastStatsSaveTime := lastStatsSaveTime w; isPaused := isPaused w;
     previousPhase := v; canvasWidth := canvasWidth w;
     canvasHeight := canvasHeight w; gameLoop := gameLoop w;
     store := store w; isMuted := isMuted w;
     progression := progression w; ext := ext w; log := log w;
     timers := timers w |}.

Definition set_gameLoop (v : GameLoopController.t) (w : World) : World :=
  {| inputManager := inputManager w; waveManager := waveManager w;
     gameStateManager := gameStateManager w;
     currentBoss := currentBoss w; isBossActive := isBossActive w;
     gameStartTime := gameStartTime w;
     totalDamageDealt := totalDamageDealt w;
     totalDamageTaken := totalDamageTaken w;
     lastStatsSaveTime := lastStatsSaveTime w; isPaused := isPaused w;
     previousPhase := previousPhase w; canvasWidth := canvasWidth w;
     canvasHeight := canvasHeight w; gameLoop := v; store := store w;
     isMuted := isMuted w; progression := progression w; ext := ext w;
     log := log w; timers := timers w |}.

Definition set_store (v : Store) (w : World) : World :=
  {| inputManager := inputManager w; waveManager := waveManager w;
     gameStateManager := gameStateManager w;
     currentBoss := currentBoss w; isBossActive := isBossActive w;
     gameStartTime := gameStartTime w;
     totalDamageDealt := totalDamageDealt w;
     totalDamageTaken := totalDamageTaken w;
     lastStatsSaveTime := lastStatsSaveTime w; isPaused := isPaused w;
     previousPhase := previousPhase w; canvasWidth := canvasWidth w;
     canvasHeight := canvasHeight w; gameLoop := gameLoop w; store := v;
     isMuted := isMuted w; progression := progression w; ext := ext w;
     log := log w; timers := timers w |}.

Definition set_progression (v : Progression) (w : World) : World :=
  {| inputManager := inputManager w; waveManager := waveManager w;
     gameStateManager := gameStateManager w;
     currentBoss := currentBoss w; isBossActive := isBossActive w;
     gameStartTime := gameStartTime w;
     totalDamageDealt := totalDamageDealt w;
     totalDamageTaken := totalDamageTaken w;
     lastStatsSaveTime := lastStatsSaveTime w; isPaused := isPaused w;
     previousPhase := previousPhase w; canvasWidth := canvasWidth w;
     canvasHeight := canvasHeight w; gameLoop := gameLoop w;
     store := store w; isMuted := isMuted w; progression := v;
     ext := ext w; log := log w; timers := timers w |}.

Definition set_ext (v : Ext) (w : World) : World :=
  {| inputManager := inputManager w; waveManager := waveManager w;
     gameStateManager := gameStateManager w;
     currentBoss := currentBoss w; isBossActive := isBossActive w;
     gameStartTime := gameStartTime w;
     totalDamageDealt := totalDamageDealt w;
     totalDamageTaken := totalDamageTaken w;
     lastStatsSaveTime := lastStatsSaveTime w; isPaused := isPaused w;
     previousPhase := previousPhase w; canvasWidth := canvasWidth w;
     canvasHeight := canvasHeight w; gameLoop := gameLoop w;
     store := store w; isMuted := isMuted w;
     progression := progression w; ext := v; log := log w;
     timers := timers w |}.

Definition set_log (v : list Effect) (w : World) : World :=
  {| inputManager := inputManager w; waveManager := waveManager w;
     gameStateManager := gameStateManager w;
     currentBoss := currentBoss w; isBossActive := isBossActive w;
     gameStartTime := gameStartTime w;
     totalDamageDealt := totalDamageDealt w;
     totalDamageTaken := totalDamageTaken w;
     lastStatsSaveTime := lastStatsSaveTime w; isPaused := isPaused w;
     previousPhase := previousPhase w; canvasWidth := canvasWidth w;
     canvasHeight := canvasHeight w; gameLoop := gameLoop w;
     store := store w; isMuted := isMuted w;
     progression := progression w; ext := ext w; log := v;
     timers := timers w |}.

Definition set_timers (v : list Z) (w : World) : World :=
  {| inputManager := inputManager w; waveManager := waveManager w;
     gameStateManager := gameStateManager w;
     currentBoss := currentBoss w; isBossActive := isBossActive w;
     gameStartTime := gameStartTime w;
     totalDamageDealt := totalDamageDealt w;
     totalDamageTaken := totalDamageTaken w;
     lastStatsSaveTime := lastStatsSaveTime w; isPaused := isPaused w;
     previousPhase := previousPhase w; canvasWidth := canvasWidth w;
     canvasHeight := canvasHeight w; gameLoop := gameLoop w;
     store := store w; isMuted := isMuted w;
     progression := progression w; ext := ext w; log := log w;
     timers := v |}.

Definition emit (e : Effect) (w : World) : World :=
  set_log (log w ++ [e]) w.

(** A frame either completes or is left by a [TypeError]; the world is
    the one at that point. *)
Inductive outcome :=
| Done (w : World)
| Thrown (w : World).

Definition world_of (o : outcome) : World :=
  match o with Done w | Thrown w => w end.

Definition andThen (o : outcome) (k : World -> outcome) : outcome :=
  match o with
  | Done w => k w
  | Thrown w => Thrown w
  end.

End Game.

Module GameStateManager.
Section GameStateManager.

Context {env : MathEnv} {opq : Opaque} {col : Collaborators}.

Definition STATS_SAVE_INTERVAL : Z := 30000.

(** [gameState.selectedCharacter?.id || "guardian"] *)
Definition characterIdOf (st : Store) : string :=
  match selectedCharacter st with
  | Some id => if String.eqb id "" then "guardian" else id
  | None => "guardian"
  end.

Definition runStats (now : Z) (w : World) : RunStats :=
  let gameState := store w in
  let g := gameStateManager w in
  {| characterId := characterIdOf gameState;
     kills := totalKills gameState;
     run_wave := wave gameState;
     run_level := level gameState;
     run_score := score gameState;
     playTime := (now - gsm_gameStartTime g) / 1000;
     damageTaken := gsm_totalDamageTaken g;
     damageDealt := gsm_totalDamageDealt g;
     experienceGained := experience gameState;
     run_maxCombo := maxCombo gameState;
     run_bossesDefeated := bossesDefeated gameState |}.

Definition saveCurrentSessionStats (now : Z) (w : World) : World :=
  let gameState := store w in
  if negb (GamePhase_eqb (phase gameState) Playing)
     && negb (GamePhase_eqb (phase gameState) Paused)
  then w
  else
    let g := gameStateManager w in
    let w := emit (StatisticsSystem_saveSessionSnapshot
                     (runStats now w) (gsm_gameStartTime g)) w in
    set_gameStateManager
      (set_gsm_lastStatsSaveTime now (gameStateManager w)) w.

Definition addKill (w : World) : World :=
  set_store (Store_addKill (store w)) (set_ext (Combo_addKill (ext w)) w).

Definition addDamageDealt (damage : Q) (w : World) : World :=
  let g := gameStateManager w in
  set_gameStateManager
    (set_gsm_totalDamageDealt (gsm_totalDamageDealt g + damage)%Q g) w.

Definition addDamageTaken (damage : Q) (w : World) : World :=
  let g := gameStateManager w in
  set_gameStateManager
    (set_gsm_totalDamageTaken (gsm_totalDamageTaken g + damage)%Q g) w.

Definition update (deltaTime : Q) (now : Z) (w : World) : World :=
  let '(e, st) := Combo_update deltaTime (ext w) (store w) in
  let w := set_store st (set_ext e w) in
  if now - gsm_lastStatsSaveTime (gameStateManager w)
     >=? STATS_SAVE_INTERVAL
  then saveCurrentSessionStats now w
  else w.

Definition set_lastPause (v : bool) (w : World) : World :=
  set_gameStateManager (set_lastPauseState v (gameStateManager w)) w.

Definition handlePauseInput (input : InputState) (now : Z) (w : World)
  : bool * World :=
  let gameState := store w in
  if pause input && negb (lastPauseState (gameStateManager w)) then
    if GamePhase_eqb (phase gameState) Playing then
      let w := saveCurrentSessionStats now w in
      let w := set_store (Store_pause (store w)) w in
      (true, set_lastPause (pause input) w)
    else if GamePhase_eqb (phase gameState) Paused then
      let w := set_store (Store_resume (store w)) w in
      (true, set_lastPause (pause input) w)
    else (false, set_lastPause (pause input) w)
  else (false, set_lastPause (pause input) w).

Definition checkPlayerDeath (w : World) : bool :=
  let gameState := store w in
  Qle_bool (health gameState) 0
  && GamePhase_eqb (phase gameState) Playing.

(** [createDeathParticles] is the closure that the orchestrator
    passes. *)
Definition handlePlayerDeath (createDeathParticles : World -> World)
    (now : Z) (w : World) : World :=
  let gameState := store w in
  let w := createDeathParticles w in
  let stats := runStats now w in
  let currencyEarned :=
    Qfloor (score gameState / 100)%Q + wave gameState * 10 in
  let w := emit (StatisticsSystem_recordRun
                   {| characterId := characterIdOf gameState;
                      kills := totalKills gameState;
                      run_wave := wave gameState;
                      run_level := level gameState;
                      run_score := score gameState;
                      playTime := playTime stats;
                      damageTaken := damageTaken stats;
                      damageDealt := damageDealt stats;
                      experienceGained := experience gameState;
                      run_maxCombo := maxCombo gameState;
                      run_bossesDefeated := bossesDefeated gameState |})
             w in
  let w := emit (PersistentProgressionSystem_recordRunEnd
                   (score gameState) (wave gameState)
                   (totalKills gameState) (maxCombo gameState)
                   (bossesDefeated gameState) (playTime stats)) w in
  let w := set_progression
             (Progression_recordRunEnd
                (score gameState) (wave gameState)
                (totalKills gameState) (maxCombo gameState)
                (bossesDefeated gameState) (playTime stats)
                (progression w)) w in
  let w := emit (PersistentProgressionSystem_addCurrency currencyEarned)
             w in
  let w := set_progression
             (Progression_addCurrency currencyEarned (progression w)) w in
  let w := set_store
             (set_currency (Progression_currency (progression w))
                (store w)) w in
  let w := emit StatisticsSystem_clearSessionSnapshot w in
  let w := if negb (isMuted w) then emit Audio_playPlayerHurt w else w in
  set_timers (timers w ++ [now + 50]) w.

Definition bossInfo (b : BossType) : string * string :=
  match b with
  | necromancer =>
      ("The Necromancer", "Master of death, commands the undead")
  | vampire_lord =>
      ("Vampire Lord", "Ancient bloodsucker with supernatural speed")
  | ancient_golem =>
      ("Ancient Golem", "Stone guardian with impenetrable defense")
  end.

(** Reading [info.name] throws when the index selects no boss type. *)
Definition handleBossWarning (wave : Z) (w : World) : outcome :=
  let bossTypes := [necromancer; vampire_lord; ancient_golem] in
  let bossIndex :=
    Z.rem (Qfloor (inject_Z wave / 5 - 1)%Q)
          (Z.of_nat (length bossTypes)) in
  match WaveManager.js_index bossTypes bossIndex with
  | Some b =>
      let info := bossInfo b in
      Done (set_store
              (Store_triggerBossWarning (fst info) (snd info) (store w))
              w)
  | None => Thrown w
  end.

Definition handleBossSpawn (boss : BossEnemy) (w : World) : World :=
  let st := Store_setBossActive true (store w) in
  let st := Store_setBossInfo (Boss_getBossName boss)
              (Boss_getBossDescription boss) st in
  let st := Store_updateBossHealth (Boss_getHealth boss (ext w))
              (Boss_getMaxHealth boss (ext w)) st in
  set_store st w.

(** A call made by the collision handler. *)
Definition call (c : StateCall) (w : World) : World :=
  match c with
  | AddKill => addKill w
  | AddDamageDealt d => addDamageDealt d w
  | AddDamageTaken d => addDamageTaken d w
  end.

End GameStateManager.
End GameStateManager.

Module GameEngine.
Section GameEngine.

Context {env : MathEnv} {opq : Opaque} {col : Collaborators}.

Definition STATS_SAVE_INTERVAL : Z := 30000.

Definition emptyInput : InputState :=
  {| left := false; right := false; up := false; down := false;
     weapon1 := false; weapon2 := false; weapon3 := false;
     weapon4 := false; weapon5 := false;
     mute := false; restart := false; pause := false |}.

(** The callback registered with [setOnBossWarning]. *)
Definition onBossWarning (w : World) : outcome :=
  GameStateManager.handleBossWarning
    (WaveManager.getCurrentWave (waveManager w)) w.

(** The callback registered with [setOnBossSpawn]. *)
Definition onBossSpawn (boss : BossEnemy) (w : World) : World :=
  let w := set_ext (EntityManager_addBoss boss (ext w)) w in
  let w := GameStateManager.handleBossSpawn boss w in
  let w := set_currentBoss (Some boss) w in
  set_isBossActive true w.

(** [this.waveManager.update(deltaTime)] with its callback. *)
Definition waveManager_update (deltaTime : Q) (w : World) : outcome :=
  let '(wm, events) := WaveManager.update deltaTime (waveManager w) in
  let w := set_waveManager wm w in
  match events with
  | WaveManager.OnBossWarning :: _ => onBossWarning w
  | _ => Done w
  end.

(** [this.waveManager.spawnEnemies(...)] with its callback. *)
Definition waveManager_spawnEnemies (currentEnemyCount : Z)
    (playerPos : Pos) (rnd : Rand) (w : World)
  : list WaveManager.Enemy * World :=
  let '(enemies, wm, events) :=
    WaveManager.spawnEnemies (canvasWidth w) (canvasHeight w)
      currentEnemyCount (Some playerPos) rnd (waveManager w) in
  let w := set_waveManager wm w in
  match events with
  | WaveManager.OnBossSpawn boss :: _ => (enemies, onBossSpawn boss w)
  | _ => (enemies, w)
  end.

Definition saveCurrentSessionStats (now : Z) (w : World) : World :=
  let gameState := store w in
  let stats := {|
    characterId := GameStateManager.characterIdOf gameState;
    kills := totalKills gameState;
    run_wave := wave gameState;
    run_level := level gameState;
    run_score := score gameState;
    playTime := (now - gameStartTime w) / 1000;
    damageTaken := totalDamageTaken w;
    damageDealt := totalDamageDealt w;
    experienceGained := experience gameState;
    run_maxCombo := maxCombo gameState;
    run_bossesDefeated := bossesDefeated gameState |} in
  let w := emit (StatisticsSystem_saveSessionSnapshot stats
                   (gameStartTime w)) w in
  set_lastStatsSaveTime now w.

Definition handlePlayerDeath (now : Z) (w : World) : World :=
  let playerAt := Player_position (ext w) in
  GameStateManager.handlePlayerDeath
    (fun w =>
       set_ext (EntityManager_createDeathParticles playerAt (ext w)) w)
    now w.

Definition handleBossDefeated (boss : BossEnemy) (w : World) : World :=
  let w := set_ext (EntityManager_addBossLoot boss (ext w)) w in
  let expValue :=
    Z.max 50 (Qfloor (Boss_getScoreValue boss (ext w) * 2)%Q) in
  let w := set_ext
             (EntityManager_addExperienceOrb boss expValue (ext w)) w in
  let goldValue :=
    Z.max 50 (Qfloor (Boss_getScoreValue boss (ext w) * (15 # 10))%Q) in
  let st := Store_addCurrency goldValue (store w) in
  let st := Store_addBossKill st in
  let st := Store_onBossDefeated st in
  let w := set_store st w in
  let w := if negb (isMuted w) then emit Audio_playSuccess w else w in
  let w := set_currentBoss None w in
  set_isBossActive false w.

(** The branch of [update] taken while the game is paused. *)
Definition pausedFrame (deltaTime : Q) (w : World) : World :=
  let w := set_ext
             (Player_update deltaTime emptyInput (canvasWidth w)
                (canvasHeight w) (ext w)) w in
  let w := set_ext
             (EntityManager_update deltaTime (Player_position (ext w))
                (ext w)) w in
  let '(newProjectiles, e) := Player_fireWeapon deltaTime (ext w) in
  set_ext (EntityManager_addProjectiles newProjectiles e) w.

(** The branch of [update] taken in the phase [gameOver]. *)
Definition gameOverFrame (deltaTime : Q) (w : World) : outcome :=
  let w := set_ext
             (EntityManager_update deltaTime (Player_position (ext w))
                (ext w)) w in
  waveManager_update deltaTime w.

(** The branch of [update] taken in the phase [levelUp]. *)
Definition levelUpFrame (deltaTime : Q) (w : World) : outcome :=
  let w := set_ext
             (Player_update deltaTime emptyInput (canvasWidth w)
                (canvasHeight w) (ext w)) w in
  let w := set_ext
             (EntityManager_update deltaTime (Player_position (ext w))
                (ext w)) w in
  waveManager_update deltaTime w.

(** The rest of [update], from the update of the player on. *)
Definition playingFrame (deltaTime : Q) (now : Z) (rnd : Rand)
    (w : World) : outcome :=
  let playerInput :=
    InputManager.getInput (isPaused w) (inputManager w) in
  let w := set_ext
             (Player_update deltaTime playerInput (canvasWidth w)
                (canvasHeight w) (ext w)) w in
  let w := set_ext
             (Camera_update deltaTime (canvasWidth w) (canvasHeight w)
                (ext w)) w in
  andThen (waveManager_update deltaTime w) (fun w =>
    let currentEnemyCount := EntityManager_enemyCount (ext w) in
    let '(newEnemies, w) :=
      waveManager_spawnEnemies currentEnemyCount
        (Player_position (ext w)) rnd w in
    let w := set_ext (EntityManager_addEnemies newEnemies (ext w)) w in
    let w := set_store
               (Store_setWave
                  (WaveManager.getCurrentWave (waveManager w)) (store w))
               w in
    let '(newProjectiles, e) := Player_fireWeapon deltaTime (ext w) in
    let w := set_ext (EntityManager_addProjectiles newProjectiles e) w in
    let w := set_ext
               (EntityManager_update deltaTime (Player_position (ext w))
                  (ext w)) w in
    let '(e, st, calls) :=
      CollisionHandler_handleAllCollisions (ext w) (store w) in
    let w := set_store st (set_ext e w) in
    let w := foldl (fun w c => GameStateManager.call c w) w calls in
    let w := GameStateManager.update deltaTime now w in
    match currentBoss w with
    | Some boss =>
        if negb (Boss_isAlive boss (ext w)) && isBossActive w
        then Done (handleBossDefeated boss w)
        else Done w
    | None => Done w
    end).

(** The start of [update], up to the branch on the phase: the pause
    toggle, the local pause state, and the clearing of the movement
    keys on the way back to [playing].  The phase returned is the one
    of the snapshot [gameState]. *)
Definition beginFrame (now : Z) (w : World) : GamePhase * World :=
  let input := InputManager.getInput false (inputManager w) in
  let '(pauseStateChanged, w) :=
    GameStateManager.handlePauseInput input now w in
  let gameState := store w in
  let isPausedOrLevelUp :=
    GamePhase_eqb (phase gameState) Paused
    || GamePhase_eqb (phase gameState) LevelUp in
  let w := set_isPaused (GamePhase_eqb (phase gameState) Paused) w in
  let w := set_inputManager
             (InputManager.setPaused isPausedOrLevelUp (inputManager w))
             w in
  let w :=
    if (GamePhase_eqb (previousPhase w) Paused
        || GamePhase_eqb (previousPhase w) LevelUp)
       && GamePhase_eqb (phase gameState) Playing
    then set_inputManager
           (InputManager.clearMovementKeys (inputManager w)) w
    else w in
  (phase gameState, set_previousPhase (phase gameState) w).

(** The input adapter after the start of a frame: the pause flag is
    set, and the movement keys are cleared on the way back to
    [playing]. *)
Definition inputAfterBegin (prev ph : GamePhase) (im : InputManager.t)
  : InputManager.t :=
  let im := InputManager.setPaused
              (GamePhase_eqb ph Paused || GamePhase_eqb ph LevelUp) im in
  if (GamePhase_eqb prev Paused || GamePhase_eqb prev LevelUp)
     && GamePhase_eqb ph Playing
  then InputManager.clearMovementKeys im else im.

Definition update (deltaTime : Q) (now : Z) (rnd : Rand) (w : World)
  : outcome :=
  let '(gamePhase, w) := beginFrame now w in
  if isPaused w then Done (pausedFrame deltaTime w)
  else if GamePhase_eqb gamePhase GameOver then gameOverFrame deltaTime w
  else if GamePhase_eqb gamePhase LevelUp then levelUpFrame deltaTime w
  else
    let w := if now - lastStatsSaveTime w >=? STATS_SAVE_INTERVAL
             then saveCurrentSessionStats now w else w in
    if GameStateManager.checkPlayerDeath w
    then Done (handlePlayerDeath now w)
    else playingFrame deltaTime now rnd w.

Definition render (deltaTime : Q) (w : World) : World :=
  set_ext (RenderSystem_render deltaTime (ext w)) w.

Definition bossNames (b : BossType) : string :=
  match b with
  | necromancer => "The Necromancer"
  | vampire_lord => "Vampire Lord"
  | ancient_golem => "Ancient Golem"
  end.

(** The debug method behind the summon buttons of the debug screen. *)
Definition spawnDebugBoss (bossType : BossType) (rnd : Rand) (w : World)
  : World :=
  let boss :=
    WaveManager.spawnSpecificBoss (canvasWidth w) (canvasHeight w)
      bossType (Some (Player_position (ext w))) rnd (waveManager w) in
  let w := set_ext
             (EntityManager_addEnemies [WaveManager.Boss boss] (ext w))
             w in
  let w := set_isBossActive true w in
  let w := set_currentBoss (Some boss) w in
  set_store
    (Store_triggerBossWarning (bossNames bossType)
       (String.append "A powerful "
          (String.append (bossNames bossType) " has appeared!"))
       (store w)) w.

(** *** The host: timers and animation frames *)

(** The [setTimeout] callbacks that are due at [now] run:
    each calls [gameState.end()]. *)
Definition runTimers (now : Z) (w : World) : World :=
  let due := List.filter (fun t => t <=? now) (timers w) in
  let w := foldl (fun w _ => set_store (Store_end (store w)) w) w due in
  set_timers (List.filter (fun t => negb (t <=? now)) (timers w)) w.

(** An animation frame at timestamp [currentTime], when [Date.now()]
    is [now]: the scheduler computes the time step, then calls
    [update] and [render]. *)
Definition frame (currentTime : Q) (now : Z) (rnd : Rand) (w : World)
  : outcome :=
  let w := runTimers now w in
  let deltaTime :=
    GameLoopController.deltaTime currentTime (gameLoop w) in
  let w := set_gameLoop
             (fst (GameLoopController.gameLoop currentTime (gameLoop w)))
             w in
  andThen (update deltaTime now rnd w) (fun w =>
    Done (render deltaTime w)).

(** Frames in a row, each at a timestamp that is also the reading of
    the clock; a frame that throws ends the run. *)
Fixpoint frames (ts : list Z) (rnd : Rand) (w : World) : outcome :=
  match ts with
  | [] => Done w
  | t :: ts => andThen (frame (inject_Z t) t rnd w) (frames ts rnd)
  end.

(** Calls of [update] in a row, with no timer running in between:
    each with its time step and its reading of the clock. *)
Fixpoint updates (fs : list (Q * Z)) (rnd : Rand) (w : World) : outcome :=
  match fs with
  | [] => Done w
  | (deltaTime, now) :: fs =>
      andThen (update deltaTime now rnd w) (updates fs rnd)
  end.

Definition count (p : Effect -> bool) (w : World) : nat :=
  length (List.filter p (log w)).

Definition isRecordRun (e : Effect) : bool :=
  match e with StatisticsSystem_recordRun _ => true | _ => false end.

Definition isRecordRunEnd (e : Effect) : bool :=
  match e with
  | PersistentProgressionSystem_recordRunEnd _ _ _ _ _ _ => true
  | _ => false
  end.

Definition isAddCurrency (e : Effect) : bool :=
  match e with
  | PersistentProgressionSystem_addCurrency _ => true
  | _ => false
  end.

End GameEngine.
End GameEngine.

(** ** A runnable instance of the collaborators *)

(** The calls that reach the entity manager, the player, the camera, the
    combo system and the renderer. *)
Inductive ExtCall :=
| CallPlayerUpdate (deltaTime : Q) (input : InputState)
| CallCameraUpdate (deltaTime : Q)
| CallFireWeapon (deltaTime : Q)
| CallEntitiesUpdate (deltaTime : Q)
| CallAddBoss
| CallAddEnemies (n : nat)
| CallAddProjectiles (n : nat)
| CallCreateDeathParticles
| CallAddBossLoot
| CallAddExperienceOrb (value : Z)
| CallHandleAllCollisions
| CallComboUpdate (deltaTime : Q)
| CallComboAddKill
| CallRender (deltaTime : Q).

(** The entities are the list of the calls made so far; the saved
    progression is the saved currency. *)
Definition traceOpaque : Opaque := {|
  Ext := list ExtCall;
  Projectile := unit;
  StoreRest := unit;
  Progression := Z
|}.

(** Every collaborator records its call; the player stands at the
    origin and fires one projectile per call; a boss stays alive;
    collisions change nothing; the store actions that are not in the
    sources change nothing; [addCurrency] adds to the saved currency. *)
Definition traceGame : @Collaborators plainMath traceOpaque := {|
  Player_update := fun dt i _ _ (e : @Ext traceOpaque) =>
    e ++ [CallPlayerUpdate dt i];
  Player_fireWeapon := fun dt (e : @Ext traceOpaque) =>
    ([tt], e ++ [CallFireWeapon dt]);
  Player_position := fun _ => (0%Q, 0%Q);
  Camera_update := fun dt _ _ (e : @Ext traceOpaque) =>
    e ++ [CallCameraUpdate dt];
  EntityManager_update := fun dt _ (e : @Ext traceOpaque) =>
    e ++ [CallEntitiesUpdate dt];
  EntityManager_enemyCount := fun _ => 0;
  EntityManager_addBoss := fun _ (e : @Ext traceOpaque) =>
    e ++ [CallAddBoss];
  EntityManager_addEnemies := fun es (e : @Ext traceOpaque) =>
    e ++ [CallAddEnemies (length es)];
  EntityManager_addProjectiles := fun ps (e : @Ext traceOpaque) =>
    e ++ [CallAddProjectiles (length ps)];
  EntityManager_createDeathParticles := fun _ (e : @Ext traceOpaque) =>
    e ++ [CallCreateDeathParticles];
  EntityManager_addBossLoot := fun _ (e : @Ext traceOpaque) =>
    e ++ [CallAddBossLoot];
  EntityManager_addExperienceOrb := fun _ v (e : @Ext traceOpaque) =>
    e ++ [CallAddExperienceOrb v];
  Boss_isAlive := fun _ _ => true;
  Boss_getScoreValue := fun _ _ => 500%Q;
  Boss_getBossName := fun _ => "boss";
  Boss_getBossDescription := fun _ => "";
  Boss_getHealth := fun _ _ => 1000%Q;
  Boss_getMaxHealth := fun _ _ => 1000%Q;
  CollisionHandler_handleAllCollisions :=
    fun (e : @Ext traceOpaque) st =>
      (e ++ [CallHandleAllCollisions], st, []);
  Combo_update := fun dt (e : @Ext traceOpaque) st =>
    (e ++ [CallComboUpdate dt], st);
  Combo_addKill := fun (e : @Ext traceOpaque) => e ++ [CallComboAddKill];
  RenderSystem_render := fun dt (e : @Ext traceOpaque) =>
    e ++ [CallRender dt];
  Store_addKill := fun st => st;
  Store_setWave := fun _ st => st;
  Store_addCurrency := fun _ st => st;
  Store_addBossKill := fun st => st;
  Store_onBossDefeated := fun st => st;
  Store_triggerBossWarning := fun _ _ st => st;
  Store_setBossActive := fun _ st => st;
  Store_setBossInfo := fun _ _ st => st;
  Store_updateBossHealth := fun _ _ st => st;
  Progression_recordRunEnd := fun _ _ _ _ _ _ (p : @Progression traceOpaque) =>
    p;
  Progression_addCurrency := fun n (p : @Progression traceOpaque) =>
    (p + n : @Progression traceOpaque);
  Progression_currency := fun (p : @Progression traceOpaque) => p
|}.

Module Worlds.

(** A run in wave 3 with a score of 250, in phase [ph] and with
    [hp] health. *)
Definition storeOf (ph : GamePhase) (hp : Q) : @Store traceOpaque := {|
  phase := ph;
  health := hp;
  score := 250;
  wave := 3;
  level := 2;
  totalKills := 17;
  experience := 40;
  maxCombo := 5;
  bossesDefeated := 0;
  currency := 0;
  selectedCharacter := None;
  others := (tt : @StoreRest traceOpaque)
|}.

(** The engine one second after its construction, listeners attached,
    with the keys [held] down; the last frame found the phase
    [prev]. *)
Definition worldOf (prev ph : GamePhase) (hp : Q) (held : list string)
  : World (opq := traceOpaque) := {|
  inputManager :=
    foldl (fun s k => InputManager.handleKeyDown k s)
      (InputManager.addEventListeners InputManager.init) held;
  waveManager := WaveManager.init;
  gameStateManager :=
    {| gsm_gameStartTime := 0; gsm_totalDamageDealt := 0;
       gsm_totalDamageTaken := 0; gsm_lastStatsSaveTime := 0;
       lastPauseState := false |};
  currentBoss := None;
  isBossActive := false;
  gameStartTime := 0;
  totalDamageDealt := 0;
  totalDamageTaken := 0;
  lastStatsSaveTime := 0;
  isPaused := GamePhase_eqb prev Paused;
  previousPhase := prev;
  canvasWidth := 800;
  canvasHeight := 600;
  gameLoop := {| GameLoopController.lastTime := 984 |};
  store := storeOf ph hp;
  isMuted := false;
  progression := (0 : @Progression traceOpaque);
  ext := ([] : @Ext traceOpaque);
  log := [];
  timers := []
|}.

(** The game is being played, with full health and no key held. *)
Definition playing := worldOf Playing Playing 100 [].

(** The player has just lost the last of the health while playing. *)
Definition dying := worldOf Playing Playing 0 [].

(** The game is paused while the key W is held. *)
Definition pausedHoldingW := worldOf Paused Paused 100 ["KeyW"].

(** The game is paused with no key held. *)
Definition pausedIdle := worldOf Paused Paused 100 [].


End Worlds.

(** ** A key that goes down during the pause *)

Module ResumeRuns.

(** The game has been paused for a frame. *)
Definition paused : World (opq := traceOpaque) :=
  world_of
    (GameEngine.update (env := plainMath) (col := traceGame)
       (16 # 1000) 1000 halves Worlds.pausedIdle).







End ResumeRuns.

(** ** Runs of the wave director with their callbacks *)

Module WaveTrace.
Section WaveTrace.

Context {env : MathEnv}.
Import WaveManager.




(** The enemies of [es] that are not bosses. *)
Definition regularsOf (es : list Enemy) : list RegularEnemy :=
  omap (fun e => match e with Regular e => Some e | Boss _ => None end) es.


(** The spawn interval that [w - 1] wave advances make of the initial
    one: each applies [Math.max(1, spawnInterval * 0.97)]. *)
Definition intervalOfWave (w : Z) : Q :=
  Nat.iter (Z.to_nat (w - 1)) (fun i => Qmax 1 (i * (97 # 100))) 2%Q.

(** [P] holds of the director at every call of [spawnEnemies] of
    [ops], in the state in which the call is made. *)
Fixpoint atSpawns (P : t -> Prop) (ops : list op) (s : t) : Prop :=
  match ops with
  | [] => True
  | o :: ops =>
      match o with
      | SpawnEnemies _ _ _ _ _ => P s
      | _ => True
      end /\ atSpawns P ops (snd (step o s))
  end.

(** What ties the boss warning to the elapsed time of a boss wave. *)
Definition warning_inv (s : t) : Prop :=
  (bossSpawned s = true -> bossWarningTriggered s = true) /\
  (isBossWave s = true -> bossSpawned s = false ->
   bossWarningTriggered s = false -> (waveStartTime s <= 0)%Q).

End WaveTrace.
End WaveTrace.

(** ** Runs of the input adapter and of the frame scheduler *)

Module InputTrace.
Import InputManager.

(** The keys that are being ignored are movement keys, and each reads
    as released. *)
Definition ignore_inv (s : t) : Prop :=
  forall k, k ∈ ignoreUntilRelease s ->
            k ∈ movementKeys /\ pressed k s = false.

End InputTrace.

Module LoopTrace.
Import GameLoopController.

(** Frame callbacks in a row, at the timestamps [ts]: the state of the
    scheduler after them and what it did during them, in order. *)
Fixpoint runLoop (ts : list Q) (s : t) : t * list call :=
  match ts with
  | [] => (s, [])
  | currentTime :: ts =>
      let '(s1, cs) := gameLoop currentTime s in
      let '(s2, cs') := runLoop ts s1 in
      (s2, cs ++ cs')
  end.

(** The time steps handed to the update callback. *)
Definition updateSteps (cs : list call) : list Q :=
  omap (fun c => match c with
                 | UpdateCallback dt => Some dt
                 | _ => None
                 end) cs.

(** Timestamps that do not decrease, from [t0] on. *)
Fixpoint ascending (t0 : Q) (ts : list Q) : Prop :=
  match ts with
  | [] => True
  | t1 :: ts => (t0 <= t1)%Q /\ ascending t1 ts
  end.

End LoopTrace.

(** ** What a frame does to the wave director and to the records *)

Module EngineTrace.

(** The calls that a frame of the orchestrator makes into the wave
    director: [update], and [spawnEnemies] with the position of the
    player. *)
Definition drivenByFrame (o : WaveManager.op) : Prop :=
  match o with
  | WaveManager.Update _ => True
  | WaveManager.SpawnEnemies _ _ _ (Some _) _ => True
  | _ => False
  end.

(** A class of effects that holds neither the saving of a session
    snapshot nor the sound of success. *)
Definition endOfRun (p : Effect -> bool) : Prop :=
  (forall r t, p (StatisticsSystem_saveSessionSnapshot r t) = false) /\
  p Audio_playSuccess = false.

Section EngineTrace.

Context {env : MathEnv} {opq : Opaque} {col : Collaborators}.

(** The parts of the world that only the wave callbacks and the defeat
    of a boss touch, together with the counts of the effects in [p]. *)
Definition same_core (p : Effect -> bool) (w' w : World) : Prop :=
  waveManager w' = waveManager w /\
  currentBoss w' = currentBoss w /\
  isBossActive w' = isBossActive w /\
  canvasWidth w' = canvasWidth w /\
  canvasHeight w' = canvasHeight w /\
  GameEngine.count p w' = GameEngine.count p w.

(** The orchestrator's flag for an active boss is set exactly when it
    holds a current boss. *)
Definition boss_flag_inv (w : World) : Prop :=
  isBossActive w = true <-> currentBoss w <> None.

(** The player has no health left and the frame finds the game being
    played, after the pause key has been looked at. *)
Definition dies (now : Z) (w : World) : bool :=
  Qle_bool (health (store w)) 0
  && GamePhase_eqb (fst (GameEngine.beginFrame now w)) Playing.

End EngineTrace.

End EngineTrace.

(** * Properties of the wave director *)

Section WaveDirectorFacts.

Context {env : MathEnv}.
Import WaveManager.

Lemma Qmax_floor_bounds (x : Q) :
  (1 <= x)%Q ->
  (1 <= Qmax 1 (x * (97 # 100)))%Q /\ (Qmax 1 (x * (97 # 100)) <= x)%Q.
Proof.
  intros Hx.
  destruct (Q.max_spec 1 (x * (97 # 100))) as [[Hlt Heq]|[Hle Heq]];
    rewrite Heq; split; lra.
Qed.

Lemma wave_inv_init : wave_inv init.
Proof.
  unfold wave_inv, init, maxEnemiesCap; simpl.
  repeat split; try lia; try discriminate; try lra.
Qed.

Lemma wave_inv_advanceWave s : wave_inv s -> wave_inv (advanceWave s).
Proof.
  intros (Hw & Hlo & Hhi & Hm & _ & _).
  destruct (Qmax_floor_bounds _ Hlo) as [Ha Hb].
  unfold wave_inv, advanceWave, maxEnemiesCap in *; simpl.
  repeat split; try lia; try discriminate; try lra.
Qed.

Lemma wave_inv_update dt s : wave_inv s -> wave_inv (fst (update dt s)).
Proof.
  intros Hs. unfold update.
  repeat match goal with
         | |- context [if ?b then _ else _] => destruct b
         end; simpl; exact Hs.
Qed.

(** The branches of [spawnEnemies]. *)

Lemma spawnEnemies_normal w h c p r s :
  isBossWave s = false ->
  spawnEnemies w h c p r s =
    let s1 := if Qle_bool waveDuration (waveStartTime s)
              then advanceWave s else s in
    if Qle_bool (spawnInterval s1) (spawnTimer s1)
       && (c <? maxActiveEnemies s1)
    then ([Regular (createRandomEnemy w h p r s1)],
          set_spawnTimer 0 s1, [])
    else ([], s1, []).
Proof. intros Hb. unfold spawnEnemies. now rewrite Hb. Qed.

Lemma spawnEnemies_boss_spawn w h c p r s :
  isBossWave s = true -> bossSpawned s = false ->
  bossDefeated s = false ->
  Qle_bool bossWarningTime (waveStartTime s) = true ->
  spawnEnemies w h c p r s =
    ([Boss (spawnBoss w h p r s)], set_bossSpawned true s,
     [OnBossSpawn (spawnBoss w h p r s)]).
Proof.
  intros Hb Hsp Hd Ht. unfold spawnEnemies.
  rewrite Hb, Hsp, Ht. simpl. now rewrite Hd.
Qed.

Lemma spawnEnemies_boss_wait w h c p r s :
  isBossWave s = true -> bossSpawned s = false ->
  bossDefeated s = false ->
  Qle_bool bossWarningTime (waveStartTime s) = false ->
  spawnEnemies w h c p r s = ([], s, []).
Proof.
  intros Hb Hsp Hd Ht. unfold spawnEnemies.
  rewrite Hb, Hsp, Ht. simpl. now rewrite Hsp, Hd.
Qed.

Lemma spawnEnemies_boss_fight w h c p r s :
  isBossWave s = true -> bossSpawned s = true ->
  bossDefeated s = false ->
  spawnEnemies w h c p r s = ([], s, []).
Proof.
  intros Hb Hsp Hd. unfold spawnEnemies.
  rewrite Hb, Hsp. simpl. now rewrite Hsp, Hd.
Qed.

Lemma spawnEnemies_boss_cleared w h c p r s :
  isBossWave s = true -> bossSpawned s = true ->
  bossDefeated s = true ->
  spawnEnemies w h c p r s =
    ([], if Qle_bool waveDuration (waveStartTime s)
         then advanceWave s else s, []).
Proof.
  intros Hb Hsp Hd. unfold spawnEnemies.
  rewrite Hb, Hsp. simpl. rewrite Hsp, Hd. simpl.
  now destruct (Qle_bool waveDuration (waveStartTime s)).
Qed.

Lemma wave_inv_defeated_spawned s :
  wave_inv s -> bossSpawned s = false -> bossDefeated s = false.
Proof.
  intros (_ & _ & _ & _ & _ & Hds) Hsp.
  destruct (bossDefeated s); [|reflexivity].
  specialize (Hds eq_refl). congruence.
Qed.

Lemma wave_inv_spawnEnemies w h c p r s :
  wave_inv s -> wave_inv (snd (fst (spawnEnemies w h c p r s))).
Proof.
  intros Hs. pose proof (wave_inv_advanceWave s Hs) as Ha.
  destruct (isBossWave s) eqn:Hb.
  - destruct (bossSpawned s) eqn:Hsp.
    + destruct (bossDefeated s) eqn:Hd.
      * rewrite spawnEnemies_boss_cleared by assumption. simpl.
        now destruct (Qle_bool waveDuration (waveStartTime s)).
      * now rewrite spawnEnemies_boss_fight.
    + pose proof (wave_inv_defeated_spawned s Hs Hsp) as Hd.
      destruct (Qle_bool bossWarningTime (waveStartTime s)) eqn:Ht.
      * rewrite spawnEnemies_boss_spawn by assumption. simpl.
        destruct Hs as (Hw & Hlo & Hhi & Hm & Hbs & Hds).
        unfold wave_inv; simpl. repeat split; auto; lia.
      * now rewrite spawnEnemies_boss_wait.
  - rewrite spawnEnemies_normal by assumption. cbv zeta.
    destruct (Qle_bool waveDuration (waveStartTime s));
      destruct (_ && _); simpl; assumption.
Qed.

Lemma wave_inv_step o s :
  wave_inv s -> allowed o s -> wave_inv (snd (step o s)).
Proof.
  intros Hs Ho. destruct o; simpl.
  - now apply wave_inv_update.
  - now apply wave_inv_spawnEnemies.
  - simpl in Ho. unfold isBossActive in Ho.
    apply andb_prop in Ho as [Ho _]. apply andb_prop in Ho as [Hb Hsp].
    destruct Hs as (Hw & Hlo & Hhi & Hm & Hbs & Hds).
    unfold wave_inv; simpl. repeat split; auto; lia.
  - apply wave_inv_init.
Qed.

Lemma reachable_wave_inv s : reachable s -> wave_inv s.
Proof.
  induction 1 as [|o s Hr IH Ho].
  - apply wave_inv_init.
  - now apply wave_inv_step.
Qed.

(** *** Escalation from wave to wave *)

Lemma op_eq_dec_Reset (o : op) : {o = Reset} + {o <> Reset}.
Proof. destruct o; (now left) || (right; discriminate). Qed.

Lemma step_level o s :
  o <> Reset ->
  escalation (snd (step o s)) = escalation s \/
  escalation (snd (step o s)) = escalation (advanceWave s).
Proof.
  intros Ho. destruct o as [dt|w h c p r| |]; simpl.
  - left. unfold update.
    repeat match goal with
           | |- context [if ?b then _ else _] => destruct b
           end; reflexivity.
  - unfold spawnEnemies.
    repeat match goal with
           | |- context [if ?b then _ else _] => destruct b; simpl
           end; auto.
  - now left.
  - congruence.
Qed.

Lemma advanceWave_level s :
  (1 <= spawnInterval s)%Q -> maxActiveEnemies s <= maxEnemiesCap ->
  let s' := advanceWave s in
  currentWave s' = currentWave s + 1 /\
  waveStartTime s' = 0%Q /\
  spawnInterval s' = Qmax 1 (spawnInterval s * (97 # 100)) /\
  (1 <= spawnInterval s')%Q /\ (spawnInterval s' <= spawnInterval s)%Q /\
  maxActiveEnemies s' = Z.min 80 (maxActiveEnemies s + 5) /\
  maxActiveEnemies s <= maxActiveEnemies s' <= 80.
Proof.
  intros Hlo Hm. destruct (Qmax_floor_bounds _ Hlo) as [Ha Hb].
  unfold maxEnemiesCap in *. cbv zeta. unfold advanceWave.
  cbn [currentWave waveStartTime spawnInterval maxActiveEnemies].
  unfold maxEnemiesCap. repeat split; auto; lia.
Qed.

Lemma run_keeps_escalating ops s :
  (1 <= spawnInterval s)%Q -> maxActiveEnemies s <= maxEnemiesCap ->
  Forall (fun o => o <> Reset) ops ->
  let s' := snd (run ops s) in
  currentWave s <= currentWave s' /\
  (1 <= spawnInterval s')%Q /\ (spawnInterval s' <= spawnInterval s)%Q /\
  maxActiveEnemies s <= maxActiveEnemies s' <= maxEnemiesCap.
Proof.
  intros Hlo Hm Hops. revert s Hlo Hm.
  induction Hops as [|o ops Ho Hops IH]; intros s Hlo Hm; simpl.
  - repeat split; auto; try lia; lra.
  - destruct (step o s) as [es s1] eqn:Hstep.
    assert (currentWave s <= currentWave s1 /\
            (1 <= spawnInterval s1)%Q /\
            (spawnInterval s1 <= spawnInterval s)%Q /\
            maxActiveEnemies s <= maxActiveEnemies s1 <= maxEnemiesCap)
      as (Hw1 & Hlo1 & Hle1 & Hm1).
    { destruct (step_level o s Ho) as [Hl|Hl];
        rewrite Hstep in Hl; simpl in Hl; unfold escalation in Hl;
        injection Hl as Hlw Hli Hlm.
      - rewrite Hlw, Hli, Hlm. repeat split; auto; try lia; lra.
      - destruct (advanceWave_level s Hlo Hm)
          as (Aw & _ & _ & Alo & Ale & _ & Am).
        rewrite Hlw, Hli, Hlm. unfold maxEnemiesCap.
        repeat split; auto; lia. }
    specialize (IH s1 Hlo1 (proj2 Hm1)).
    destruct (run ops s1) as [es' s2]. simpl in *.
    destruct IH as (Hw2 & Hlo2 & Hle2 & Hm2).
    repeat split; auto; try lia; lra.
Qed.

Lemma reachableByCalls_bounds s :
  reachableByCalls s ->
  (1 <= spawnInterval s)%Q /\ maxActiveEnemies s <= maxEnemiesCap.
Proof.
  induction 1 as [|o s Hr [Hlo Hm]].
  - unfold maxEnemiesCap. simpl. split; [lra|lia].
  - destruct (op_eq_dec_Reset o) as [->|Ho].
    + unfold maxEnemiesCap. simpl. split; [lra|lia].
    + destruct (step_level o s Ho) as [Hl|Hl];
        unfold escalation in Hl; injection Hl as _ Hli Hlm;
        rewrite Hli, Hlm; [now split|].
      destruct (advanceWave_level s Hlo Hm) as (_ & _ & _ & Alo & _ & _ & Am).
      unfold maxEnemiesCap. split; [exact Alo|lia].
Qed.

Lemma reachable_by_calls s : reachable s -> reachableByCalls s.
Proof. induction 1; now constructor. Qed.

(** C9.  In every state reached through any calls, a wave advance adds
    exactly one to the wave number, resets the elapsed time to zero, sets
    the spawn interval to [max(1, spawnInterval * 0.97)], which is at
    least 1 and at most the previous interval, and sets the population
    cap to [min(80, maxActiveEnemies + 5)], which is at least the
    previous cap and at most 80.  Every call other than [reset] either
    leaves wave number, spawn interval and cap as they are or changes
    them as one advance does; so over any sequence of such calls the
    wave number and the cap do not decrease and the spawn interval does
    not increase. *)
Theorem wave_advance_escalates (s : t) (ops : list op) :
  reachableByCalls s ->
  Forall (fun o => o <> Reset) ops ->
  (let s' := advanceWave s in
   currentWave s' = currentWave s + 1 /\
   waveStartTime s' = 0%Q /\
   spawnInterval s' = Qmax 1 (spawnInterval s * (97 # 100)) /\
   (1 <= spawnInterval s')%Q /\ (spawnInterval s' <= spawnInterval s)%Q /\
   maxActiveEnemies s' = Z.min 80 (maxActiveEnemies s + 5) /\
   maxActiveEnemies s <= maxActiveEnemies s' <= 80) /\
  (forall o, o <> Reset ->
     escalation (snd (step o s)) = escalation s \/
     escalation (snd (step o s)) = escalation (advanceWave s)) /\
  (let s' := snd (run ops s) in
   currentWave s <= currentWave s' /\
   (1 <= spawnInterval s')%Q /\ (spawnInterval s' <= spawnInterval s)%Q /\
   maxActiveEnemies s <= maxActiveEnemies s' <= 80).
Proof.
  intros Hr Hops.
  destruct (reachableByCalls_bounds s Hr) as [Hlo Hm].
  split; [|split].
  - now apply advanceWave_level.
  - intros o Ho. now apply step_level.
  - now apply run_keeps_escalating.
Qed.

(** *** The population cap *)

Lemma spawnEnemies_boss_length w h c p r s :
  isBossWave s = true ->
  (length (fst (fst (spawnEnemies w h c p r s))) <= 1)%nat.
Proof.
  intros Hb. unfold spawnEnemies. rewrite Hb.
  repeat match goal with
         | |- context [if ?b then _ else _] => destruct b; simpl
         end; lia.
Qed.

(** C3, as amended.  Every call of [spawnEnemies] returns at most one
    enemy.  On a normal wave it returns one enemy exactly when the spawn
    timer has reached the spawn interval and [currentEnemyCount] is
    below [maxActiveEnemies] (interval and cap as the call leaves them,
    that is after the wave advance the call may perform), and then the
    live count with the new enemy is at most [maxActiveEnemies]. *)
Theorem spawnEnemies_normal_wave_cap w h c p r (s : t) :
  let es := fst (fst (spawnEnemies w h c p r s)) in
  let s' := snd (fst (spawnEnemies w h c p r s)) in
  (length es <= 1)%nat /\
  (isBossWave s = false ->
     (es = [] \/ exists e, es = [Regular e]) /\
     (es <> [] <->
        (spawnInterval s' <= spawnTimer s)%Q /\ c < maxActiveEnemies s') /\
     (es <> [] -> c + Z.of_nat (length es) <= maxActiveEnemies s')).
Proof.
  cbv zeta. destruct (isBossWave s) eqn:Hb.
  - split; [now apply spawnEnemies_boss_length | discriminate].
  - rewrite spawnEnemies_normal by assumption. cbv zeta.
    set (s1 := if Qle_bool waveDuration (waveStartTime s)
               then advanceWave s else s).
    assert (spawnTimer s1 = spawnTimer s) as Ht.
    { unfold s1. now destruct (Qle_bool waveDuration (waveStartTime s)). }
    rewrite Ht.
    destruct (Qle_bool (spawnInterval s1) (spawnTimer s)) eqn:Hq;
      destruct (c <? maxActiveEnemies s1) eqn:Hc; simpl;
      (split; [lia|]); intros _;
      try apply Qle_bool_iff in Hq; try apply Z.ltb_lt in Hc;
      try apply Z.ltb_ge in Hc.
    + repeat split; eauto; try discriminate; lia.
    + repeat split; eauto; try congruence; intros [_ ?]; lia.
    + assert (~ (spawnInterval s1 <= spawnTimer s)%Q) as Hn.
      { intros Hle. apply Qle_bool_iff in Hle. congruence. }
      repeat split; eauto; try congruence; intros [? _]; tauto.
    + assert (~ (spawnInterval s1 <= spawnTimer s)%Q) as Hn.
      { intros Hle. apply Qle_bool_iff in Hle. congruence. }
      repeat split; eauto; try congruence; intros [? _]; tauto.
Qed.

(** *** The boss encounter *)

Lemma run_reachable ops s :
  reachable s -> allowedAll ops s -> reachable (snd (run ops s)).
Proof.
  revert s. induction ops as [|o ops IH]; intros s Hr Ha; simpl.
  - exact Hr.
  - destruct Ha as [Ho Ha].
    pose proof (reachable_step o s Hr Ho) as Hr1.
    specialize (IH _ Hr1 Ha).
    destruct (step o s) as [es s1]. simpl in *.
    now destruct (run ops s1).
Qed.




Lemma bossIndex_boss_wave (k : Z) :
  1 <= k -> bossIndex (5 * k) = (k - 1) mod 3.
Proof.
  intros Hk. unfold bossIndex, bossSpawnInterval, bossTypes.
  assert (inject_Z (5 * k) / inject_Z 5 - 1 == inject_Z (k - 1))%Q as Hq.
  { unfold Z.sub. rewrite inject_Z_mult, inject_Z_plus, inject_Z_opp.
    change (inject_Z 5) with 5%Q. change (inject_Z 1) with 1%Q.
    generalize (inject_Z k). intros q. field. }
  rewrite (Qfloor_comp _ _ Hq), Qfloor_Z. simpl length.
  apply Z.rem_mod_nonneg; lia.
Qed.

Lemma isBossWave_multiple s :
  1 <= currentWave s -> isBossWave s = true ->
  exists k, 1 <= k /\ currentWave s = 5 * k.
Proof.
  unfold isBossWave, bossSpawnInterval. intros Hw Hb.
  apply Z.eqb_eq in Hb. rewrite Z.rem_mod_nonneg in Hb by lia.
  exists (currentWave s / 5).
  pose proof (Z.div_mod (currentWave s) 5 ltac:(lia)). lia.
Qed.

(** C5.  In a reachable state on a boss wave whose boss has not been
    spawned, once the elapsed time has reached the spawn delay
    [spawnEnemies] returns exactly one enemy, a boss, leaves
    [bossSpawned] set and calls the spawn callback with that boss.  The
    boss carries the wave number, and its type is
    [bossTypes[floor(wave / 5 - 1) % 3]], which for wave [5 * k] is the
    entry [(k - 1) mod 3] of the three types: the first one on wave
    5. *)
Theorem boss_spawned_when_due w h c p r (s : t) :
  reachable s ->
  isBossWave s = true -> bossSpawned s = false ->
  (bossWarningTime <= waveStartTime s)%Q ->
  exists boss k ty,
    spawnEnemies w h c p r s =
      ([Boss boss], set_bossSpawned true s, [OnBossSpawn boss]) /\
    bossSpawned (snd (fst (spawnEnemies w h c p r s))) = true /\
    boss_wave boss = currentWave s /\
    boss_type boss = js_index bossTypes (bossIndex (currentWave s)) /\
    1 <= k /\ currentWave s = 5 * k /\
    boss_type boss = Some ty /\
    nth_error bossTypes (Z.to_nat ((k - 1) mod 3)) = Some ty /\
    (currentWave s = 5 -> ty = necromancer).
Proof.
  intros Hr Hb Hsp Ht.
  pose proof (reachable_wave_inv s Hr) as Hinv.
  pose proof (wave_inv_defeated_spawned s Hinv Hsp) as Hd.
  destruct Hinv as (Hw & _).
  destruct (isBossWave_multiple s Hw Hb) as (k & Hk & Hwk).
  apply Qle_bool_iff in Ht.
  assert (js_index bossTypes (bossIndex (currentWave s)) =
          nth_error bossTypes (Z.to_nat ((k - 1) mod 3))) as Hty.
  { rewrite Hwk, bossIndex_boss_wave by assumption.
    unfold js_index.
    pose proof (Z.mod_pos_bound (k - 1) 3 ltac:(lia)).
    destruct ((k - 1) mod 3 <? 0) eqn:Hneg; [|reflexivity].
    apply Z.ltb_lt in Hneg. lia. }
  assert (exists ty, nth_error bossTypes (Z.to_nat ((k - 1) mod 3))
                     = Some ty) as [ty Hnth].
  { pose proof (Z.mod_pos_bound (k - 1) 3 ltac:(lia)) as Hm.
    destruct (nth_error bossTypes (Z.to_nat ((k - 1) mod 3))) eqn:E;
      [eauto|].
    apply nth_error_None in E. simpl in E. lia. }
  exists (spawnBoss w h p r s), k, ty.
  rewrite spawnEnemies_boss_spawn by assumption.
  repeat split; auto.
  - unfold spawnBoss. simpl. now rewrite Hty.
  - intros H5. assert (k = 1) as -> by lia.
    simpl in Hnth. congruence.
Qed.

(** *** At most one boss *)

Lemma update_flags dt s :
  let s' := fst (update dt s) in
  currentWave s' = currentWave s /\ bossSpawned s' = bossSpawned s /\
  bossDefeated s' = bossDefeated s /\ isBossActive s' = isBossActive s.
Proof.
  unfold update.
  repeat match goal with
         | |- context [if ?b then _ else _] => destruct b
         end; simpl; repeat split.
Qed.

Lemma bossesOfWave_app w l1 l2 :
  bossesOfWave w (l1 ++ l2) = (bossesOfWave w l1 + bossesOfWave w l2)%nat.
Proof. unfold bossesOfWave. now rewrite List.filter_app, List.length_app. Qed.

Lemma bossesOfWave_older w bs :
  Forall (fun b => boss_wave b < w) bs -> bossesOfWave w bs = 0%nat.
Proof.
  unfold bossesOfWave. induction 1 as [|b bs Hb _ IH]; simpl; [reflexivity|].
  destruct (boss_wave b =? w) eqn:E; [|exact IH].
  apply Z.eqb_eq in E. lia.
Qed.

Lemma session_inv_new : session_inv newSession.
Proof.
  unfold session_inv; simpl.
  repeat split; auto using reachable_init; try discriminate;
    try congruence.
Qed.

Lemma Forall_wave_lt_le (w : Z) bs :
  Forall (fun b => boss_wave b <= w) bs ->
  Forall (fun b => boss_wave b < w + 1) bs.
Proof. apply List.Forall_impl. intros; lia. Qed.

Lemma Forall_wave_lt_weaken (w : Z) bs :
  Forall (fun b => boss_wave b < w) bs ->
  Forall (fun b => boss_wave b <= w) bs.
Proof. apply List.Forall_impl. intros; lia. Qed.

Lemma Forall_wave_le_succ (w : Z) bs :
  Forall (fun b => boss_wave b <= w) bs ->
  Forall (fun b => boss_wave b <= w + 1) bs.
Proof. apply List.Forall_impl. intros; lia. Qed.

Lemma not_active_no_live ss :
  session_inv ss -> isBossActive (director ss) = false ->
  liveBosses ss = [].
Proof.
  intros (_ & _ & _ & _ & _ & _ & Hlive) Hna.
  destruct (liveBosses ss) as [|b l]; [reflexivity|].
  rewrite Hlive in Hna by discriminate. discriminate.
Qed.

Lemma session_inv_same_wave d ss :
  session_inv ss -> reachable d ->
  currentWave d = currentWave (director ss) ->
  bossSpawned d = bossSpawned (director ss) ->
  isBossActive d = isBossActive (director ss) ->
  session_inv (afterCall d ss).
Proof.
  intros (Hr & Hle & Hlt & Hone & Hcnt & Hlen & Hlive) Hrd Hw Hsp Hact.
  unfold session_inv, afterCall; simpl.
  rewrite !app_nil_r, Hw, Hsp, Hact. now repeat split.
Qed.

Lemma session_inv_advance ss :
  session_inv ss -> reachable (advanceWave (director ss)) ->
  isBossActive (director ss) = false ->
  session_inv (afterCall (advanceWave (director ss)) ss).
Proof.
  intros Hinv Hrd Hna.
  pose proof (not_active_no_live ss Hinv Hna) as Hnil.
  destruct Hinv as (Hr & Hle & Hlt & Hone & Hcnt & Hlen & Hlive).
  unfold session_inv, afterCall; simpl. rewrite !app_nil_r, Hnil.
  repeat split; auto; try discriminate; try congruence.
  - now apply Forall_wave_le_succ.
  - intros _. now apply Forall_wave_lt_le.
Qed.

Lemma session_inv_step e ss ss' :
  session_inv ss -> sessionStep e ss = Some ss' -> session_inv ss'.
Proof.
  intros Hinv Hstep.
  pose proof Hinv as (Hr & Hle & Hlt & Hone & Hcnt & Hlen & Hlive).
  pose proof (reachable_wave_inv _ Hr) as Hwinv.
  destruct e as [o | i reported | w h ty p r | i]; simpl in Hstep.
  - destruct o as [dt|w h c p r| |]; simpl in Hstep.
    + (* update *)
      injection Hstep as <-.
      pose proof (reachable_step (Update dt) _ Hr I) as Hr1.
      destruct (update_flags dt (director ss)) as (Hw & Hsp & _ & Hact).
      now apply (session_inv_same_wave _ ss).
    + (* spawnEnemies *)
      pose proof (reachable_step (SpawnEnemies w h c p r) _ Hr I) as Hr1.
      simpl in Hr1. revert Hstep Hr1.
      set (s := director ss) in *.
      destruct (isBossWave s) eqn:Hb.
      * destruct (bossSpawned s) eqn:Hsp.
        -- destruct (bossDefeated s) eqn:Hd.
           ++ rewrite spawnEnemies_boss_cleared by assumption. simpl.
              intros Hstep Hr1. injection Hstep as <-.
              destruct (Qle_bool waveDuration (waveStartTime s)).
              ** apply (session_inv_advance ss Hinv Hr1).
                 fold s. unfold isBossActive. rewrite Hb, Hsp, Hd.
                 reflexivity.
              ** now apply (session_inv_same_wave _ ss).
           ++ rewrite spawnEnemies_boss_fight by assumption. simpl.
              intros Hstep Hr1. injection Hstep as <-.
              now apply (session_inv_same_wave _ ss).
        -- pose proof (wave_inv_defeated_spawned s Hwinv Hsp) as Hd.
           destruct (Qle_bool bossWarningTime (waveStartTime s)) eqn:Ht.
           ++ rewrite spawnEnemies_boss_spawn by assumption. simpl.
              intros Hstep Hr1. injection Hstep as <-.
              assert (liveBosses ss = []) as Hnil.
              { apply not_active_no_live; [exact Hinv|]. fold s.
                unfold isBossActive. rewrite Hb, Hsp. reflexivity. }
              specialize (Hlt eq_refl).
              pose proof (bossesOfWave_older _ _ Hlt) as Hzero.
              assert (bossesOfWave (currentWave s)
                        [spawnBoss w h p r s] = 1%nat) as Hnew.
              { unfold bossesOfWave, spawnBoss. simpl.
                now rewrite Z.eqb_refl. }
              unfold session_inv; simpl. rewrite Hnil. simpl.
              repeat split; auto; try discriminate.
              ** apply Forall_app. split; [assumption|].
                 constructor; [|constructor]. simpl. lia.
              ** rewrite bossesOfWave_app, Hzero, Hnew. reflexivity.
              ** intros w0. rewrite bossesOfWave_app.
                 destruct (Z.eq_dec w0 (currentWave s)) as [->|Hne].
                 --- rewrite Hzero, Hnew. lia.
                 --- assert (bossesOfWave w0 [spawnBoss w h p r s]
                             = 0%nat) as ->.
                     { unfold bossesOfWave, spawnBoss. simpl.
                       destruct (currentWave s =? w0) eqn:E;
                         [|reflexivity].
                       apply Z.eqb_eq in E. congruence. }
                     specialize (Hcnt w0). lia.
              ** intros _. unfold isBossActive.
                 change (isBossWave (set_bossSpawned true s))
                   with (isBossWave s).
                 cbn [bossSpawned bossDefeated set_bossSpawned].
                 rewrite Hb, Hd. reflexivity.
           ++ rewrite spawnEnemies_boss_wait by assumption. simpl.
              intros Hstep Hr1. injection Hstep as <-.
              now apply (session_inv_same_wave _ ss).
      * rewrite spawnEnemies_normal by assumption. cbv zeta.
        assert (bossSpawned s = false) as Hsp.
        { destruct Hwinv as (_ & _ & _ & _ & Hbs & _).
          destruct (bossSpawned s); [|reflexivity].
          specialize (Hbs eq_refl). fold s in Hbs. congruence. }
        assert (isBossActive s = false) as Hna.
        { unfold isBossActive. now rewrite Hb. }
        pose proof (not_active_no_live ss Hinv Hna) as Hnil.
        specialize (Hlt Hsp).
        destruct (Qle_bool waveDuration (waveStartTime s));
          destruct (_ && _); simpl; intros Hstep Hr1;
          injection Hstep as <-; unfold session_inv; simpl;
          rewrite ?app_nil_r, ?Hnil; fold s;
          repeat split; auto; try discriminate; try congruence;
          try (now apply Forall_wave_le_succ);
          try (intros _; now apply Forall_wave_lt_le).
    + discriminate.
    + injection Hstep as <-.
      pose proof (reachable_step Reset _ Hr I) as Hr1.
      unfold session_inv; simpl.
      repeat split; auto; try discriminate; try congruence.
  - (* the death of a boss *)
    destruct (liveBosses ss !! i) as [b|] eqn:Hi; [|discriminate].
    injection Hstep as <-.
    assert (liveBosses ss <> []) as Hne.
    { intros E. rewrite E in Hi. discriminate. }
    specialize (Hlive Hne).
    assert (delete i (liveBosses ss) = []) as Hdel.
    { destruct (liveBosses ss) as [|b0 [|b1 l]]; simpl in *;
        [congruence| |lia].
      destruct i; [reflexivity|discriminate]. }
    unfold session_inv; simpl. rewrite Hdel.
    destruct reported; simpl.
    + pose proof (reachable_step OnBossDefeated _ Hr Hlive) as Hr1.
      repeat split; auto; try discriminate; try congruence.
    + repeat split; auto; try discriminate; try congruence.
  - (* a debug summon *)
    injection Hstep as <-. exact Hinv.
  - (* the death of a summoned boss *)
    destruct (summonedBosses ss !! i); [|discriminate].
    injection Hstep as <-. exact Hinv.
Qed.

Lemma sessionReachable_inv ss : sessionReachable ss -> session_inv ss.
Proof.
  induction 1 as [|e ss ss' _ IH Hstep].
  - apply session_inv_new.
  - eapply session_inv_step; eassumption.
Qed.

Lemma isBossActive_iff s :
  isBossActive s = true <->
  isBossWave s = true /\ bossSpawned s = true /\ bossDefeated s = false.
Proof.
  unfold isBossActive.
  destruct (isBossWave s), (bossSpawned s), (bossDefeated s); simpl;
    intuition congruence.
Qed.

(** C8, as amended.  In every reachable state of the wave director and
    of the bosses in play: [isBossActive()] holds exactly when the wave is
    a boss wave whose boss has been spawned and not defeated;
    [bossSpawned] implies that the wave is a boss wave; when
    [isBossActive()] holds, [spawnEnemies] has returned a boss of the
    current wave; [spawnEnemies] has returned at most one boss for any
    wave; at most one boss returned by [spawnEnemies] is alive, and only
    while [isBossActive()] holds.  The bosses made by the debug method
    [spawnSpecificBoss] are not counted. *)
Theorem at_most_one_boss (ss : session) :
  sessionReachable ss ->
  let s := director ss in
  (isBossActive s = true <->
     isBossWave s = true /\ bossSpawned s = true /\
     bossDefeated s = false) /\
  (bossSpawned s = true -> isBossWave s = true) /\
  (isBossActive s = true ->
     bossesOfWave (currentWave s) (spawnedBosses ss) = 1%nat) /\
  (forall w, (bossesOfWave w (spawnedBosses ss) <= 1)%nat) /\
  (length (liveBosses ss) <= 1)%nat /\
  (liveBosses ss <> [] -> isBossActive s = true).
Proof.
  intros Hss. cbv zeta.
  destruct (sessionReachable_inv ss Hss)
    as (Hr & Hle & Hlt & Hone & Hcnt & Hlen & Hlive).
  destruct (reachable_wave_inv _ Hr) as (_ & _ & _ & _ & Hbs & _).
  split; [apply isBossActive_iff|].
  split; [exact Hbs|].
  split; [|now repeat split].
  intros Ha. apply Hone. now apply isBossActive_iff in Ha.
Qed.

End WaveDirectorFacts.

(** * Properties of the input adapter *)

Section InputAdapterFacts.

Import InputManager.

Lemma getInput_paused s : getInput true s = emptyInput.
Proof. reflexivity. Qed.

Lemma pressed_set_keys_insert k k' v s :
  pressed k (set_keys (<[k' := v]> (keys s)) s) =
    if decide (k' = k) then v else pressed k s.
Proof.
  unfold pressed; simpl. rewrite lookup_insert.
  now destruct (decide (k' = k)).
Qed.

Lemma clearKey_pressed s key k :
  pressed k (clearKey s key) =
    if decide (key = k) then false else pressed k s.
Proof.
  unfold clearKey. rewrite pressed_set_keys_insert.
  destruct (decide (key = k)); [reflexivity|].
  now destruct (pressed key s).
Qed.

Lemma clearKey_ignore s key k :
  k ∈ ignoreUntilRelease (clearKey s key) <->
  k ∈ ignoreUntilRelease s \/ (k = key /\ pressed key s = true).
Proof.
  unfold clearKey. destruct (pressed key s); simpl; set_solver.
Qed.

Lemma clearKeys_pressed ks s k :
  pressed k (foldl clearKey s ks) =
    if bool_decide (k ∈ ks) then false else pressed k s.
Proof.
  revert s. induction ks as [|key ks IH]; intros s; simpl.
  - reflexivity.
  - rewrite IH, clearKey_pressed.
    destruct (decide (key = k)) as [->|Hne].
    + rewrite (bool_decide_eq_true_2 (k ∈ k :: ks)) by set_solver.
      now destruct (bool_decide (k ∈ ks)).
    + destruct (bool_decide (k ∈ ks)) eqn:E.
      * apply bool_decide_eq_true_1 in E.
        now rewrite bool_decide_eq_true_2 by set_solver.
      * apply bool_decide_eq_false_1 in E.
        now rewrite bool_decide_eq_false_2 by set_solver.
Qed.

Lemma clearKeys_ignore_mono ks s k :
  k ∈ ignoreUntilRelease s -> k ∈ ignoreUntilRelease (foldl clearKey s ks).
Proof.
  revert s. induction ks as [|key ks IH]; intros s Hk; simpl; [done|].
  apply IH, clearKey_ignore. now left.
Qed.

Lemma clearKeys_ignore_held ks s k :
  k ∈ ks -> pressed k s = true ->
  k ∈ ignoreUntilRelease (foldl clearKey s ks).
Proof.
  revert s. induction ks as [|key ks IH]; intros s Hk Hp; simpl.
  - set_solver.
  - destruct (decide (key = k)) as [->|Hne].
    + apply clearKeys_ignore_mono, clearKey_ignore. now right.
    + apply IH; [set_solver|]. rewrite clearKey_pressed.
      now destruct (decide (key = k)).
Qed.

Lemma clearMovementKeys_pressed s k :
  k ∈ movementKeys -> pressed k (clearMovementKeys s) = false.
Proof.
  intros Hk. unfold clearMovementKeys.
  now rewrite clearKeys_pressed, (bool_decide_eq_true_2 _ Hk).
Qed.

Lemma clearMovementKeys_other s k :
  k ∉ movementKeys -> pressed k (clearMovementKeys s) = pressed k s.
Proof.
  intros Hk. unfold clearMovementKeys.
  now rewrite clearKeys_pressed, (bool_decide_eq_false_2 _ Hk).
Qed.

Lemma clearMovementKeys_ignore s k :
  k ∈ movementKeys -> pressed k s = true ->
  k ∈ ignoreUntilRelease (clearMovementKeys s).
Proof.
  intros. now apply clearKeys_ignore_held.
Qed.




End InputAdapterFacts.

(** * Properties of the frame scheduler *)

Section FrameSchedulerFacts.

Import GameLoopController.

Lemma deltaTime_upper currentTime s : (deltaTime currentTime s <= 2 # 100)%Q.
Proof. unfold deltaTime. apply Q.le_min_r. Qed.

Lemma deltaTime_forward currentTime s :
  (lastTime s <= currentTime)%Q ->
  (0 <= deltaTime currentTime s)%Q /\
  (deltaTime currentTime s ==
     clamp ((currentTime - lastTime s) / 1000) 0 (2 # 100))%Q.
Proof.
  intros Hle. unfold deltaTime, clamp.
  assert (0 <= (currentTime - lastTime s) / 1000)%Q as Hgap.
  { apply Qle_shift_div_l; lra. }
  assert (0 <= Qmin ((currentTime - lastTime s) / 1000) (2 # 100))%Q
    as Hmin.
  { apply Q.min_glb; lra. }
  split; [exact Hmin|].
  symmetry. now apply Q.max_r.
Qed.

Lemma deltaTime_backward currentTime s :
  (currentTime < lastTime s)%Q -> (deltaTime currentTime s < 0)%Q.
Proof.
  intros Hlt. unfold deltaTime.
  assert ((currentTime - lastTime s) / 1000 < 0)%Q as Hgap.
  { apply Qlt_shift_div_r; lra. }
  eapply Qle_lt_trans; [apply Q.le_min_l|exact Hgap].
Qed.

(** C1, as amended.  On every frame callback the scheduler passes one
    and the same [deltaTime] first to the update callback and then to
    the render callback, namely
    [min((currentTime - lastTime) / 1000, 0.02)], and records
    [currentTime] as [lastTime].  That value is at most 0.02 for every
    pair of timestamps.  When [currentTime] is not before [lastTime] it
    is at least zero and equals
    [clamp((currentTime - lastTime) / 1000, 0, 0.02)]; when
    [currentTime] is before [lastTime] it is negative. *)
Theorem gameLoop_deltaTime (currentTime : Q) (s : t) :
  let dt := deltaTime currentTime s in
  gameLoop currentTime s =
    ({| lastTime := currentTime |},
     [UpdateCallback dt; RenderCallback dt; RequestAnimationFrame]) /\
  dt = Qmin ((currentTime - lastTime s) / 1000) (2 # 100) /\
  (dt <= 2 # 100)%Q /\
  ((lastTime s <= currentTime)%Q ->
     (0 <= dt)%Q /\
     (dt == clamp ((currentTime - lastTime s) / 1000) 0 (2 # 100))%Q) /\
  ((currentTime < lastTime s)%Q -> (dt < 0)%Q).
Proof.
  cbv zeta. split; [reflexivity|]. split; [reflexivity|].
  split; [apply deltaTime_upper|].
  split; [apply deltaTime_forward | apply deltaTime_backward].
Qed.

(** C1 as stated fails: with [lastTime = 1000] and [currentTime = 0]
    the callbacks receive [-1], which is below zero and is not the
    clamped value. *)
Lemma deltaTime_negative_gap :
  let s := {| lastTime := 1000 |} in
  let dt := deltaTime 0 s in
  snd (gameLoop 0 s) =
    [UpdateCallback dt; RenderCallback dt; RequestAnimationFrame] /\
  (dt == -1)%Q /\
  ~ (0 <= dt)%Q /\
  (clamp ((0 - lastTime s) / 1000) 0 (2 # 100) == 0)%Q /\
  ~ (dt == clamp ((0 - lastTime s) / 1000) 0 (2 # 100))%Q.
Proof.
  cbv zeta. split; [reflexivity|].
  repeat split; vm_compute; congruence.
Qed.

End FrameSchedulerFacts.

(** * Properties of the orchestrator *)

Section OrchestratorFacts.

Context {env : MathEnv} {opq : Opaque} {col : Collaborators}.
Import GameEngine.

Ltac split_branches :=
  repeat match goal with
         | |- context [if ?b then _ else _] => destruct b
         | |- context [match ?x with _ => _ end] => destruct x
         end.

Lemma GamePhase_eqb_eq a b : GamePhase_eqb a b = true <-> a = b.
Proof. destruct a, b; simpl; split; congruence. Qed.

Lemma handlePauseInput_frame input now w :
  let w' := snd (GameStateManager.handlePauseInput input now w) in
  inputManager w' = inputManager w /\
  waveManager w' = waveManager w /\
  ext w' = ext w /\
  canvasWidth w' = canvasWidth w /\ canvasHeight w' = canvasHeight w /\
  previousPhase w' = previousPhase w /\
  timers w' = timers w /\
  health (store w') = health (store w).
Proof.
  unfold GameStateManager.handlePauseInput,
    GameStateManager.saveCurrentSessionStats.
  split_branches; repeat split.
Qed.

Lemma beginFrame_frame now w :
  let ph := fst (beginFrame now w) in
  let w' := snd (beginFrame now w) in
  phase (store w') = ph /\
  isPaused w' = GamePhase_eqb ph Paused /\
  previousPhase w' = ph /\
  inputManager w' = inputAfterBegin (previousPhase w) ph (inputManager w) /\
  waveManager w' = waveManager w /\
  ext w' = ext w /\
  canvasWidth w' = canvasWidth w /\ canvasHeight w' = canvasHeight w /\
  timers w' = timers w /\
  health (store w') = health (store w).
Proof.
  unfold beginFrame.
  pose proof (handlePauseInput_frame
                (InputManager.getInput false (inputManager w)) now w)
    as Hp.
  destruct (GameStateManager.handlePauseInput _ now w) as [changed w1].
  simpl in Hp. destruct Hp as (Hi & Hwm & He & Hcw & Hch & Hpp & Ht & Hh).
  cbv zeta. unfold inputAfterBegin. rewrite <- Hi, <- Hpp.
  destruct (_ && _); simpl; repeat split; auto.
Qed.

Lemma pausedFrame_frame dt w :
  let e1 := Player_update dt emptyInput (canvasWidth w) (canvasHeight w)
              (ext w) in
  let e2 := EntityManager_update dt (Player_position e1) e1 in
  let fired := Player_fireWeapon dt e2 in
  ext (pausedFrame dt w) =
    EntityManager_addProjectiles (fst fired) (snd fired) /\
  waveManager (pausedFrame dt w) = waveManager w /\
  inputManager (pausedFrame dt w) = inputManager w /\
  store (pausedFrame dt w) = store w /\
  log (pausedFrame dt w) = log w.
Proof.
  cbv zeta. unfold pausedFrame. simpl.
  destruct (Player_fireWeapon dt _) as [ps e]. simpl. repeat split.
Qed.

Lemma update_paused dt now rnd w :
  fst (beginFrame now w) = Paused ->
  update dt now rnd w = Done (pausedFrame dt (snd (beginFrame now w))).
Proof.
  intros Hph. unfold update.
  destruct (beginFrame_frame now w) as (_ & Hip & _).
  destruct (beginFrame now w) as [ph w1]. simpl in *. subst ph.
  now rewrite Hip.
Qed.

(** *** The input adapter is touched at the start of a frame only *)

Lemma andThen_input o k w0 :
  inputManager (world_of o) = inputManager w0 ->
  (forall w, inputManager (world_of (k w)) = inputManager w) ->
  inputManager (world_of (andThen o k)) = inputManager w0.
Proof.
  intros Ho Hk. destruct o as [w|w]; simpl in *; [|exact Ho].
  now rewrite Hk.
Qed.

Lemma gsm_saveCurrentSessionStats_input now w :
  inputManager (GameStateManager.saveCurrentSessionStats now w)
  = inputManager w.
Proof.
  unfold GameStateManager.saveCurrentSessionStats.
  split_branches; reflexivity.
Qed.

Lemma handlePlayerDeath_input now w :
  inputManager (handlePlayerDeath now w) = inputManager w.
Proof.
  unfold handlePlayerDeath, GameStateManager.handlePlayerDeath.
  split_branches; reflexivity.
Qed.

Lemma waveManager_update_input dt w :
  inputManager (world_of (waveManager_update dt w)) = inputManager w.
Proof.
  unfold waveManager_update, onBossWarning,
    GameStateManager.handleBossWarning.
  destruct (WaveManager.update dt (waveManager w)) as [wm events].
  destruct events as [|[|boss] events]; [reflexivity| |reflexivity].
  destruct (WaveManager.js_index _ _); reflexivity.
Qed.

Lemma waveManager_spawnEnemies_input c pos rnd w :
  inputManager (snd (waveManager_spawnEnemies c pos rnd w))
  = inputManager w.
Proof.
  unfold waveManager_spawnEnemies.
  destruct (WaveManager.spawnEnemies _ _ _ _ _ _) as [[es wm] events].
  destruct events as [|[|boss] events]; reflexivity.
Qed.

Lemma gsm_calls_input calls w :
  inputManager (foldl (fun w c => GameStateManager.call c w) w calls)
  = inputManager w.
Proof.
  revert w. induction calls as [|c calls IH]; intros w; simpl.
  - reflexivity.
  - rewrite IH. now destruct c.
Qed.

Lemma gsm_update_input dt now w :
  inputManager (GameStateManager.update dt now w) = inputManager w.
Proof.
  unfold GameStateManager.update.
  destruct (Combo_update dt (ext w) (store w)) as [e st].
  destruct (_ >=? _); [|reflexivity].
  now rewrite gsm_saveCurrentSessionStats_input.
Qed.

Lemma handleBossDefeated_input boss w :
  inputManager (handleBossDefeated boss w) = inputManager w.
Proof. unfold handleBossDefeated. split_branches; reflexivity. Qed.

Lemma playingFrame_input dt now rnd w :
  inputManager (world_of (playingFrame dt now rnd w)) = inputManager w.
Proof.
  unfold playingFrame.
  apply andThen_input; [now rewrite waveManager_update_input|].
  intros w1.
  pose proof (waveManager_spawnEnemies_input
                (EntityManager_enemyCount (ext w1))
                (Player_position (ext w1)) rnd w1) as Hsp.
  destruct (waveManager_spawnEnemies _ _ rnd w1) as [es w2].
  simpl in Hsp. rewrite <- Hsp.
  destruct (Player_fireWeapon dt _) as [ps e].
  destruct (CollisionHandler_handleAllCollisions _ _) as [[e' st] calls].
  match goal with
  | |- context [GameStateManager.update dt now ?x] =>
      pose proof (gsm_update_input dt now x) as Hu;
      set (w3 := GameStateManager.update dt now x) in *
  end.
  rewrite gsm_calls_input in Hu. simpl in Hu.
  destruct (currentBoss w3) as [boss|]; [|exact Hu].
  destruct (_ && _); cbn [world_of]; [|exact Hu].
  now rewrite handleBossDefeated_input.
Qed.

Lemma update_input dt now rnd w :
  inputManager (world_of (update dt now rnd w))
  = inputManager (snd (beginFrame now w)).
Proof.
  unfold update. destruct (beginFrame now w) as [ph w1]. simpl.
  destruct (isPaused w1).
  { simpl. apply pausedFrame_frame. }
  destruct (GamePhase_eqb ph GameOver).
  { unfold gameOverFrame. now rewrite waveManager_update_input. }
  destruct (GamePhase_eqb ph LevelUp).
  { unfold levelUpFrame. now rewrite waveManager_update_input. }
  match goal with
  | |- context [GameStateManager.checkPlayerDeath ?x] =>
      assert (inputManager x = inputManager w1) as Hs
        by (destruct (_ >=? _); reflexivity);
      set (w2 := x) in *
  end.
  destruct (GameStateManager.checkPlayerDeath w2); cbn [world_of].
  - now rewrite handlePlayerDeath_input.
  - now rewrite playingFrame_input.
Qed.

(** *** Pause and resume *)


(** A frame finds the phase paused when the store is paused and the
    pause key is not newly pressed, and when the store is playing and the
    pause key is newly pressed. *)
Lemma beginFrame_finds_paused now w :
  let toggled :=
    pause (InputManager.getInput false (inputManager w))
    && negb (lastPauseState (gameStateManager w)) in
  (phase (store w) = Paused -> toggled = false ->
   fst (beginFrame now w) = Paused) /\
  (phase (store w) = Playing -> toggled = true ->
   fst (beginFrame now w) = Paused).
Proof.
  cbv zeta. unfold beginFrame, GameStateManager.handlePauseInput.
  split; intros Hph Ht; rewrite Ht.
  - cbn [fst snd store GameStateManager.set_lastPause set_gameStateManager].
    now rewrite Hph.
  - rewrite Hph. reflexivity.
Qed.

(** C6.  [getInput(true)] returns a snapshot with every field false,
    whatever the key states.  In a frame that finds the phase paused
    the wave director is left as it was, so the elapsed time of the
    wave is unchanged, and the player is updated with the all-false
    snapshot: the entities after the frame are the same whatever the
    state [im] of the input adapter. *)
Theorem paused_frame_freezes_wave_and_movement dt now rnd (w : World)
    (im : InputManager.t) :
  fst (beginFrame now w) = Paused ->
  fst (beginFrame now (set_inputManager im w)) = Paused ->
  (forall s, anyPressed (InputManager.getInput true s) = false) /\
  anyPressed emptyInput = false /\
  (let w1 := world_of (update dt now rnd w) in
   waveManager w1 = waveManager w /\
   WaveManager.waveStartTime (waveManager w1)
   = WaveManager.waveStartTime (waveManager w) /\
   let e1 := Player_update dt emptyInput (canvasWidth w)
               (canvasHeight w) (ext w) in
   let e2 := EntityManager_update dt (Player_position e1) e1 in
   let fired := Player_fireWeapon dt e2 in
   ext w1 = EntityManager_addProjectiles (fst fired) (snd fired)) /\
  ext (world_of (update dt now rnd (set_inputManager im w)))
  = ext (world_of (update dt now rnd w)).
Proof.
  intros Hp Hp'.
  assert (forall w0, fst (beginFrame now w0) = Paused ->
            waveManager (world_of (update dt now rnd w0)) = waveManager w0
            /\ ext (world_of (update dt now rnd w0)) =
               (let e1 := Player_update dt emptyInput (canvasWidth w0)
                            (canvasHeight w0) (ext w0) in
                let e2 := EntityManager_update dt (Player_position e1)
                            e1 in
                let fired := Player_fireWeapon dt e2 in
                EntityManager_addProjectiles (fst fired) (snd fired)))
    as Hframe.
  { intros w0 Hw0. rewrite update_paused by assumption. cbn [world_of].
    destruct (beginFrame_frame now w0)
      as (_ & _ & _ & _ & Hwm & He & Hcw & Hch & _).
    destruct (pausedFrame_frame dt (snd (beginFrame now w0)))
      as (Hext & Hwm' & _).
    rewrite Hext, Hwm', Hwm, He, Hcw, Hch. split; reflexivity. }
  destruct (Hframe w Hp) as [Hwm He].
  destruct (Hframe _ Hp') as [_ He'].
  split; [reflexivity|]. split; [reflexivity|].
  split.
  - cbv zeta. rewrite Hwm. repeat split. exact He.
  - rewrite He, He'. reflexivity.
Qed.

(** C10.  A frame that finds the phase paused completes, and in it the
    player is updated with [deltaTime] and the empty input, then the
    entities are updated with [deltaTime] at the position of the
    player, then [player.fireWeapon(deltaTime)] is called and its
    projectiles are added to the entity registry.  The wave director
    is not updated, and the input of the player has every field
    false. *)
Theorem paused_frame_updates_entities_and_fires dt now rnd (w : World) :
  fst (beginFrame now w) = Paused ->
  let w1 := world_of (update dt now rnd w) in
  update dt now rnd w = Done w1 /\
  (let e1 := Player_update dt emptyInput (canvasWidth w)
               (canvasHeight w) (ext w) in
   let e2 := EntityManager_update dt (Player_position e1) e1 in
   let fired := Player_fireWeapon dt e2 in
   ext w1 = EntityManager_addProjectiles (fst fired) (snd fired)) /\
  waveManager w1 = waveManager w /\
  anyPressed emptyInput = false.
Proof.
  intros Hp. cbv zeta. rewrite update_paused by assumption.
  cbn [world_of].
  destruct (beginFrame_frame now w)
    as (_ & _ & _ & _ & Hwm & He & Hcw & Hch & _).
  destruct (pausedFrame_frame dt (snd (beginFrame now w)))
    as (Hext & Hwm' & _).
  rewrite Hext, Hwm', Hwm, He, Hcw, Hch. repeat split.
Qed.



(** *** The death of the player *)

Lemma count_emit p e w :
  count p (emit e w) = (count p w + if p e then 1 else 0)%nat.
Proof.
  unfold count, emit. simpl. rewrite List.filter_app, List.length_app.
  simpl. now destruct (p e).
Qed.

Lemma beginFrame_playing now w :
  phase (store w) = Playing ->
  pause (InputManager.getInput false (inputManager w)) = false ->
  let w1 := snd (beginFrame now w) in
  fst (beginFrame now w) = Playing /\
  isPaused w1 = false /\
  store w1 = store w /\ log w1 = log w /\ timers w1 = timers w /\
  lastStatsSaveTime w1 = lastStatsSaveTime w /\
  isMuted w1 = isMuted w.
Proof.
  intros Hph Hpause. unfold beginFrame, GameStateManager.handlePauseInput.
  rewrite Hpause. cbn [andb fst snd]. cbv zeta.
  cbn [store GameStateManager.set_lastPause set_gameStateManager].
  rewrite Hph. destruct (_ && _); repeat split.
Qed.

Lemma pause_input_after_begin prev ph im :
  pause (InputManager.getInput false (inputAfterBegin prev ph im))
  = pause (InputManager.getInput false im).
Proof.
  unfold inputAfterBegin. destruct (_ && _); [|reflexivity].
  unfold InputManager.getInput. cbn [pause].
  rewrite clearMovementKeys_other; [reflexivity|].
  unfold InputManager.movementKeys. set_solver.
Qed.

Lemma handlePlayerDeath_effects now w :
  let w1 := handlePlayerDeath now w in
  (exists r a b c d e f n,
     log w1 = log w ++
       StatisticsSystem_recordRun r
       :: PersistentProgressionSystem_recordRunEnd a b c d e f
       :: PersistentProgressionSystem_addCurrency n
       :: StatisticsSystem_clearSessionSnapshot
       :: (if isMuted w then [] else [Audio_playPlayerHurt])) /\
  timers w1 = timers w ++ [now + 50] /\
  phase (store w1) = phase (store w) /\
  health (store w1) = health (store w).
Proof.
  cbv zeta. unfold handlePlayerDeath, GameStateManager.handlePlayerDeath.
  cbv zeta. split; [|destruct (isMuted w) eqn:Hm; cbn; rewrite Hm;
                     repeat split].
  do 8 eexists.
  destruct (isMuted w) eqn:Hm; cbn; rewrite Hm; cbn;
    rewrite <- !app_assoc; reflexivity.
Qed.

Lemma saveCurrentSessionStats_effects now w :
  let w1 := saveCurrentSessionStats now w in
  (exists r t, log w1 = log w ++ [StatisticsSystem_saveSessionSnapshot r t])
  /\ store w1 = store w /\ timers w1 = timers w /\
  isMuted w1 = isMuted w.
Proof. cbv zeta. unfold saveCurrentSessionStats. cbn. eauto 10. Qed.

(** While the phase is [playing] and the health is at most zero, a
    frame records the run, records its end and awards the currency
    once more, and leaves phase and health as they are: the next frame
    does the same. *)
Lemma death_frame_records_again dt now rnd (w : World) :
  GameStateManager.checkPlayerDeath w = true ->
  pause (InputManager.getInput false (inputManager w)) = false ->
  let w1 := world_of (update dt now rnd w) in
  update dt now rnd w = Done w1 /\
  count isRecordRun w1 = S (count isRecordRun w) /\
  count isRecordRunEnd w1 = S (count isRecordRunEnd w) /\
  count isAddCurrency w1 = S (count isAddCurrency w) /\
  timers w1 = timers w ++ [now + 50] /\
  GameStateManager.checkPlayerDeath w1 = true /\
  pause (InputManager.getInput false (inputManager w1)) = false.
Proof.
  intros Hdead Hpause. cbv zeta.
  assert (pause (InputManager.getInput false
                   (inputManager (world_of (update dt now rnd w))))
          = false) as Hpause1.
  { rewrite update_input.
    destruct (beginFrame_frame now w) as (_ & _ & _ & -> & _).
    now rewrite pause_input_after_begin. }
  revert Hpause1.
  unfold GameStateManager.checkPlayerDeath in Hdead.
  apply andb_prop in Hdead as [Hhp Hph]. apply GamePhase_eqb_eq in Hph.
  destruct (beginFrame_playing now w Hph Hpause)
    as (Hfst & Hip & Hst & Hlog & Htm & Hls & Hmu).
  unfold update.
  destruct (beginFrame now w) as [ph w0].
  simpl in Hfst, Hip, Hst, Hlog, Htm, Hls, Hmu.
  subst ph. rewrite Hip. cbn [GamePhase_eqb].
  set (w2 := if _ >=? _ then _ else _).
  assert (store w2 = store w /\ timers w2 = timers w /\
          exists snaps,
            log w2 = log w ++ snaps /\
            List.filter isRecordRun snaps = [] /\
            List.filter isRecordRunEnd snaps = [] /\
            List.filter isAddCurrency snaps = [])
    as (Hst2 & Htm2 & snaps & Hlog2 & Hs1 & Hs2 & Hs3).
  { unfold w2. destruct (_ >=? _).
    - destruct (saveCurrentSessionStats_effects now w0)
        as ((r & t & Hl) & Hs & Ht & _).
      rewrite Hs, Ht, Hl, Hlog. repeat split; auto.
      eexists. split; [reflexivity|]. repeat split.
    - repeat split; auto. exists []. rewrite app_nil_r. now repeat split. }
  assert (GameStateManager.checkPlayerDeath w2 = true) as Hdead2.
  { unfold GameStateManager.checkPlayerDeath. rewrite Hst2, Hhp, Hph.
    reflexivity. }
  rewrite Hdead2. cbn [world_of]. intros Hpause1.
  destruct (handlePlayerDeath_effects now w2)
    as ((r & a & b & c & d & e & f & n & Hl) & Ht & Hp & Hh).
  split; [reflexivity|].
  unfold count. rewrite Hl, Hlog2, !List.filter_app, !List.length_app.
  rewrite Hs1, Hs2, Hs3, Ht, Htm2.
  repeat split; try (destruct (isMuted w2); simpl; lia); auto.
  unfold GameStateManager.checkPlayerDeath.
  now rewrite Hp, Hh, Hst2, Hhp, Hph.
Qed.

(** As long as [gameState.end()] has not run, every frame records the
    death again. *)
Lemma death_recorded_on_every_frame fs rnd (w : World) :
  GameStateManager.checkPlayerDeath w = true ->
  pause (InputManager.getInput false (inputManager w)) = false ->
  let w1 := world_of (updates fs rnd w) in
  count isRecordRun w1 = (count isRecordRun w + length fs)%nat /\
  count isRecordRunEnd w1 = (count isRecordRunEnd w + length fs)%nat /\
  count isAddCurrency w1 = (count isAddCurrency w + length fs)%nat.
Proof.
  revert w. induction fs as [|[dt now] fs IH]; intros w Hdead Hpause.
  - simpl. repeat split; lia.
  - destruct (death_frame_records_again dt now rnd w Hdead Hpause)
      as (Hdone & H1 & H2 & H3 & _ & Hdead1 & Hpause1).
    cbn [updates]. rewrite Hdone. cbn [andThen].
    specialize (IH _ Hdead1 Hpause1). cbv zeta in IH.
    destruct IH as (I1 & I2 & I3).
    cbv zeta. rewrite I1, I2, I3, H1, H2, H3. simpl. repeat split; lia.
Qed.

End OrchestratorFacts.

(** * Concrete runs *)

Section Runs.

#[local] Existing Instances plainMath traceOpaque traceGame.
Import WaveManager WaveRuns.

Lemma sessionRun_reachable es (ss ss' : session) :
  sessionReachable ss -> sessionRun es ss = Some ss' ->
  sessionReachable ss'.
Proof.
  revert ss. induction es as [|e es IH]; intros ss Hr Hrun; simpl in Hrun.
  - now injection Hrun as <-.
  - destruct (sessionStep e ss) as [ss1|] eqn:Hstep; [|discriminate].
    eapply IH; [|exact Hrun]. eapply sessionReachable_step; eassumption.
Qed.

(** C3 as stated fails on a boss wave.  In wave 15, five seconds in,
    with 80 enemies alive and a cap of 80, [spawnEnemies] returns the
    boss, which makes 81; the same happens in the state that a new
    director reaches through fourteen waves. *)
Lemma boss_spawn_exceeds_cap :
  let r := spawnEnemies 800 600 80 None halves crowdedBossWave in
  let s15 := snd (run toWave15 init) in
  let r15 := spawnEnemies 800 600 80 None halves s15 in
  (isBossWave crowdedBossWave = true /\
   maxActiveEnemies crowdedBossWave = 80 /\
   length (fst (fst r)) = 1%nat /\
   maxActiveEnemies (snd (fst r)) = 80 /\
   ~ 80 + Z.of_nat (length (fst (fst r)))
     <= maxActiveEnemies (snd (fst r))) /\
  (reachable s15 /\
   currentWave s15 = 15 /\
   maxActiveEnemies s15 = 80 /\
   length (fst (fst r15)) = 1%nat /\
   ~ 80 + Z.of_nat (length (fst (fst r15)))
     <= maxActiveEnemies (snd (fst r15))).
Proof.
  cbv zeta. split.
  - vm_compute. repeat split; congruence.
  - split.
    + apply run_reachable; [apply reachable_init|].
      vm_compute. repeat split.
    + vm_compute. repeat split; congruence.
Qed.

(** C8 as stated fails when the debug method is used.  Two summons at
    the start of a run leave the wave director in its initial state, on
    wave 1, which is not a boss wave, with [isBossActive()] false, and
    put two bosses into play; the orchestrator adds each of them to the
    entity registry. *)
Lemma debug_summons_two_bosses :
  let ss := twoSummonsSession in
  let w2 := GameEngine.spawnDebugBoss vampire_lord halves
              (GameEngine.spawnDebugBoss necromancer halves
                 Worlds.playing) in
  sessionReachable ss /\
  director ss = init /\
  isBossWave (director ss) = false /\
  isBossActive (director ss) = false /\
  length (bossesAlive ss) = 2%nat /\
  ~ (length (bossesAlive ss) <= 1)%nat /\
  map boss_wave (bossesAlive ss) = [1; 1] /\
  waveManager w2 = waveManager Worlds.playing /\
  ext w2 = [CallAddEnemies 1; CallAddEnemies 1].
Proof.
  cbv zeta. split.
  - apply (sessionRun_reachable twoSummons newSession);
      [apply sessionReachable_new|reflexivity].
  - repeat split; try (vm_compute; reflexivity).
    change (length (bossesAlive twoSummonsSession)) with 2%nat. lia.
Qed.

(** The scenario of the specification for a normal wave: with a spawn
    interval of two seconds and a cap of 25, one enemy is spawned at
    two seconds with 24 enemies alive, and none at four seconds with
    25 alive. *)
Example normal_wave_scenario :
  let s2 := fst (update 2 init) in
  let r2 := spawnEnemies 800 600 24 None halves s2 in
  let s4 := fst (update 2 (snd (fst r2))) in
  let r4 := spawnEnemies 800 600 25 None halves s4 in
  length (fst (fst r2)) = 1%nat /\ fst (fst r4) = [].
Proof. vm_compute. split; reflexivity. Qed.

(** C2 fails on the code.  The player is dead while the phase is
    [playing]; frames come at 1000, 1016 and 1033 milliseconds, before
    the timer set by the first of them runs [gameState.end()] at 1050.
    Each of the three frames records the run, records its end and
    awards the currency of 32, 96 in all; only the frame at 1050 finds
    the phase ended. *)
Theorem player_death_recorded_on_every_frame :
  let w3 := world_of (GameEngine.frames [1000; 1016; 1033] halves
                        Worlds.dying) in
  let w4 := world_of (GameEngine.frames [1050] halves w3) in
  GameStateManager.checkPlayerDeath Worlds.dying = true /\
  GameEngine.count GameEngine.isRecordRun w3 = 3%nat /\
  GameEngine.count GameEngine.isRecordRunEnd w3 = 3%nat /\
  GameEngine.count GameEngine.isAddCurrency w3 = 3%nat /\
  progression w3 = 96 /\
  phase (store w3) = Playing /\
  timers w3 = [1050; 1066; 1083] /\
  phase (store w4) = Ended /\
  GameEngine.count GameEngine.isRecordRun w4 = 3%nat.
Proof. vm_compute. repeat split. Qed.

(** *** The theorems at concrete inputs *)

Lemma wave_advance_escalates_at_start :
  reachableByCalls init /\
  Forall (fun o => o <> Reset) (normalWave 25) /\
  currentWave (advanceWave init) = currentWave init + 1 /\
  (spawnInterval (advanceWave init) <= spawnInterval init)%Q /\
  maxActiveEnemies init <= maxActiveEnemies (advanceWave init) <= 80 /\
  currentWave init <= currentWave (snd (run (normalWave 25) init)).
Proof.
  assert (Forall (fun o : op => o <> Reset) (normalWave 25)) as Hops.
  { repeat constructor; discriminate. }
  pose proof (wave_advance_escalates init (normalWave 25)
                reachableByCalls_init Hops) as (Ha & _ & Hr).
  cbv zeta in Ha, Hr.
  destruct Ha as (Hw & _ & _ & _ & Hi & _ & Hm).
  destruct Hr as (Hw' & _).
  split; [apply reachableByCalls_init|]. split; [exact Hops|].
  repeat split; assumption || apply Hm.
Defined.


Lemma boss_spawned_on_wave_five :
  let s := snd (run toWave5 init) in
  reachable s /\ isBossWave s = true /\ bossSpawned s = false /\
  (bossWarningTime <= waveStartTime s)%Q /\
  exists boss,
    fst (fst (spawnEnemies 800 600 25 None halves s)) = [Boss boss] /\
    boss_type boss = Some necromancer.
Proof.
  cbv zeta.
  assert (reachable (snd (run toWave5 init))) as Hr.
  { apply run_reachable; [apply reachable_init|].
    vm_compute. repeat split. }
  assert (isBossWave (snd (run toWave5 init)) = true) as Hb
    by (vm_compute; reflexivity).
  assert (bossSpawned (snd (run toWave5 init)) = false) as Hsp
    by (vm_compute; reflexivity).
  assert (bossWarningTime <= waveStartTime (snd (run toWave5 init)))%Q
    as Ht by (vm_compute; discriminate).
  destruct (boss_spawned_when_due 800 600 25 None halves _ Hr Hb Hsp Ht)
    as (boss & k & ty & Heq & _ & _ & _ & _ & _ & Hty & _ & H5).
  repeat split; try assumption.
  exists boss. rewrite Heq. split; [reflexivity|].
  rewrite Hty, H5; reflexivity.
Defined.

Lemma at_most_one_boss_in_boss_fight :
  sessionReachable bossFightSession /\
  isBossActive (director bossFightSession) = true /\
  length (liveBosses bossFightSession) = 1%nat /\
  (forall w, (bossesOfWave w (spawnedBosses bossFightSession) <= 1)%nat).
Proof.
  assert (sessionReachable bossFightSession) as Hr.
  { apply (sessionRun_reachable toBossFight newSession);
      [apply sessionReachable_new|].
    vm_compute. reflexivity. }
  pose proof (at_most_one_boss bossFightSession Hr) as Hone.
  cbv zeta in Hone. destruct Hone as (_ & _ & _ & Hcnt & _ & Hlive).
  split; [exact Hr|]. split; [|split; [reflexivity|exact Hcnt]].
  apply Hlive. vm_compute. discriminate.
Defined.

Lemma paused_frame_freezes_while_holding_W :
  fst (GameEngine.beginFrame 1000 Worlds.pausedIdle) = Paused /\
  fst (GameEngine.beginFrame 1000 Worlds.pausedHoldingW) = Paused /\
  waveManager
    (world_of
       (GameEngine.update (16 # 1000) 1000 halves Worlds.pausedIdle))
  = waveManager Worlds.pausedIdle /\
  ext (world_of
         (GameEngine.update (16 # 1000) 1000 halves
            Worlds.pausedHoldingW))
  = ext (world_of
           (GameEngine.update (16 # 1000) 1000 halves
              Worlds.pausedIdle)).
Proof.
  assert (fst (GameEngine.beginFrame 1000 Worlds.pausedIdle) = Paused)
    as Hp by (vm_compute; reflexivity).
  assert (fst (GameEngine.beginFrame 1000
                 (set_inputManager (inputManager Worlds.pausedHoldingW)
                    Worlds.pausedIdle)) = Paused)
    as Hp' by (vm_compute; reflexivity).
  pose proof (paused_frame_freezes_wave_and_movement (16 # 1000) 1000
                halves Worlds.pausedIdle
                (inputManager Worlds.pausedHoldingW) Hp Hp')
    as (_ & _ & Hframe & Hsame).
  cbv zeta in Hframe. destruct Hframe as (Hwm & _).
  split; [exact Hp|]. split; [vm_compute; reflexivity|].
  split; [exact Hwm|]. exact Hsame.
Defined.

Lemma paused_frame_fires_once :
  fst (GameEngine.beginFrame 1000 Worlds.pausedIdle) = Paused /\
  ext (world_of
         (GameEngine.update (16 # 1000) 1000 halves Worlds.pausedIdle))
  = [CallPlayerUpdate (16 # 1000) GameEngine.emptyInput;
     CallEntitiesUpdate (16 # 1000);
     CallFireWeapon (16 # 1000);
     CallAddProjectiles 1].
Proof.
  assert (fst (GameEngine.beginFrame 1000 Worlds.pausedIdle) = Paused)
    as Hp by (vm_compute; reflexivity).
  pose proof (paused_frame_updates_entities_and_fires (16 # 1000) 1000
                halves Worlds.pausedIdle Hp) as Hframe.
  cbv zeta in Hframe. destruct Hframe as (_ & Hext & _).
  split; [exact Hp|]. rewrite Hext. reflexivity.
Defined.



End Runs.

(** * Further properties of the wave director *)

Section WaveDirectorMore.

Context {env : MathEnv}.
Import WaveManager WaveTrace.

Lemma run_reachableByCalls ops s :
  reachableByCalls s -> reachableByCalls (snd (run ops s)).
Proof.
  revert s. induction ops as [|o ops IH]; intros s Hr; simpl.
  - exact Hr.
  - pose proof (reachableByCalls_step o s Hr) as Hr1.
    specialize (IH _ Hr1).
    destruct (step o s) as [es s1]. simpl in *.
    now destruct (run ops s1).
Qed.

Lemma cap_of_wave_ge s : reachableByCalls s -> 1 <= currentWave s.
Proof.
  induction 1 as [|o s Hr Hw]; [simpl; lia|].
  destruct (op_eq_dec_Reset o) as [->|Ho]; [simpl; lia|].
  destruct (step_level o s Ho) as [Hl|Hl];
    unfold escalation in Hl; injection Hl as Hlw _ _; rewrite Hlw;
    simpl; lia.
Qed.

(** X1.  In every state reached through any calls the population cap
    is a function of the wave number: [min(80, 20 + 5 * wave)], and the
    wave number is at least 1. *)
Theorem cap_of_wave (s : t) :
  reachableByCalls s ->
  1 <= currentWave s /\
  maxActiveEnemies s = Z.min 80 (20 + 5 * currentWave s).
Proof.
  induction 1 as [|o s Hr [Hw Hm]].
  - simpl. split; reflexivity || lia.
  - destruct (op_eq_dec_Reset o) as [->|Ho].
    + simpl. split; reflexivity || lia.
    + destruct (step_level o s Ho) as [Hl|Hl];
        unfold escalation in Hl; injection Hl as Hlw _ Hlm;
        rewrite Hlw, Hlm.
      * now split.
      * simpl. unfold maxEnemiesCap. lia.
Qed.

(** X2.  In every state reached through any calls the spawn interval is
    a function of the wave number: the initial interval of 2 with
    [max(1, interval * 0.97)] applied once for every wave after the
    first. *)
Theorem spawnInterval_of_wave (s : t) :
  reachableByCalls s ->
  spawnInterval s = intervalOfWave (currentWave s).
Proof.
  induction 1 as [|o s Hr IH].
  - reflexivity.
  - destruct (op_eq_dec_Reset o) as [->|Ho].
    + reflexivity.
    + pose proof (cap_of_wave_ge s Hr) as Hw.
      destruct (step_level o s Ho) as [Hl|Hl];
        unfold escalation in Hl; injection Hl as Hlw Hli _;
        rewrite Hlw, Hli.
      * exact IH.
      * cbn [advanceWave currentWave spawnInterval].
        unfold intervalOfWave.
        replace (Z.to_nat (currentWave s + 1 - 1))
          with (S (Z.to_nat (currentWave s - 1))) by lia.
        rewrite IH. reflexivity.
Qed.

(** *** The boss warning *)

Lemma Qle_bool_false (x y : Q) : Qle_bool x y = false -> (y < x)%Q.
Proof.
  intros Hb. apply Qnot_le_lt. intros Hle.
  apply Qle_bool_iff in Hle. congruence.
Qed.

Lemma warning_inv_advanceWave s : warning_inv (advanceWave s).
Proof.
  split; simpl; [discriminate|]. intros _ _ _. lra.
Qed.

Lemma warning_inv_update dt s :
  warning_inv s -> warning_inv (fst (update dt s)).
Proof.
  intros [Hsp Hw]. unfold update. cbv zeta.
  change (isBossWave (set_spawnTimer
            (spawnTimer (set_waveStartTime (waveStartTime s + dt) s) + dt)
            (set_waveStartTime (waveStartTime s + dt) s)))
    with (isBossWave s).
  cbn [set_spawnTimer set_waveStartTime bossSpawned
       waveStartTime set_timeUntilBoss bossWarningTriggered].
  destruct (isBossWave s) eqn:Hb; destruct (bossSpawned s) eqn:Hs;
    cbn [andb negb fst].
  - split; cbn; rewrite ?Hs; auto; discriminate.
  - destruct (Qle_bool (bossWarningTime - 5) (waveStartTime s + dt))
      eqn:Ht; destruct (bossWarningTriggered s) eqn:Htr;
      cbn [andb negb fst]; split; cbn; rewrite ?Hs, ?Htr;
      auto; try discriminate.
    intros _ _ _. apply Qle_bool_false in Ht.
    unfold bossWarningTime in Ht. lra.
  - split; cbn; rewrite ?Hs; auto.
    change (isBossWave _) with (isBossWave s). rewrite Hb. discriminate.
  - split; cbn; rewrite ?Hs; auto.
    change (isBossWave _) with (isBossWave s). rewrite Hb. discriminate.
Qed.

Lemma warning_inv_spawnEnemies w h c p r s :
  warning_inv s -> warning_inv (snd (fst (spawnEnemies w h c p r s))).
Proof.
  intros Hinv. pose proof Hinv as [Hsp Hw].
  pose proof (warning_inv_advanceWave s) as Ha.
  destruct (isBossWave s) eqn:Hb.
  - unfold spawnEnemies. rewrite Hb.
    destruct (bossSpawned s) eqn:Hs; cbn [negb andb].
    + rewrite Hs. cbn [andb].
      destruct (bossDefeated s); cbn [negb fst snd]; [|exact Hinv].
      destruct (Qle_bool waveDuration (waveStartTime s));
        cbn [fst snd]; assumption.
    + destruct (Qle_bool bossWarningTime (waveStartTime s)) eqn:Ht.
      * cbn [bossSpawned set_bossSpawned bossDefeated andb].
        assert (bossWarningTriggered s = true) as Htr.
        { destruct (bossWarningTriggered s) eqn:Htr; [reflexivity|].
          specialize (Hw eq_refl eq_refl eq_refl).
          apply Qle_bool_iff in Ht. unfold bossWarningTime in Ht. lra. }
        destruct (bossDefeated s); cbn [negb fst snd].
        -- destruct (Qle_bool waveDuration
                       (waveStartTime (set_bossSpawned true s)));
             cbn [fst snd]; [apply warning_inv_advanceWave|].
           split; simpl; auto; congruence.
        -- split; simpl; auto; congruence.
      * rewrite Hs. cbn [andb].
        destruct (bossDefeated s); cbn [fst snd]; [|exact Hinv].
        destruct (Qle_bool waveDuration (waveStartTime s));
          cbn [fst snd]; assumption.
  - rewrite spawnEnemies_normal by assumption. cbv zeta.
    destruct (Qle_bool waveDuration (waveStartTime s));
      destruct (_ && _); cbn [fst snd]; try assumption;
      destruct Ha as [Ha1 Ha2]; split; simpl; auto.
Qed.

Lemma reachableByCalls_warning_inv s : reachableByCalls s -> warning_inv s.
Proof.
  induction 1 as [|o s Hr IH].
  - split; simpl; discriminate.
  - destruct o; simpl.
    + now apply warning_inv_update.
    + now apply warning_inv_spawnEnemies.
    + destruct IH as [H1 H2]. split; simpl; auto.
    + split; simpl; discriminate.
Qed.

(** X3.  In every state reached through any calls, a boss has been
    spawned only after the warning of its wave was triggered. *)
Theorem boss_spawn_follows_warning (s : t) :
  reachableByCalls s ->
  bossSpawned s = true -> bossWarningTriggered s = true.
Proof. intros Hr. apply (reachableByCalls_warning_inv s Hr). Qed.

Lemma run_cons o ops s :
  run (o :: ops) s =
    (fst (step o s) ++ fst (run ops (snd (step o s))),
     snd (run ops (snd (step o s)))).
Proof.
  simpl. destruct (step o s) as [es s1]. simpl.
  now destruct (run ops s1).
Qed.

Lemma step_wave_mono o s :
  o <> Reset -> currentWave s <= currentWave (snd (step o s)).
Proof.
  intros Ho. destruct (step_level o s Ho) as [Hl|Hl];
    unfold escalation in Hl; injection Hl as Hlw _ _; rewrite Hlw;
    simpl; lia.
Qed.

Lemma run_wave_mono ops s :
  Forall (fun o => o <> Reset) ops ->
  currentWave s <= currentWave (snd (run ops s)).
Proof.
  intros Hops. revert s.
  induction Hops as [|o ops Ho Hops IH]; intros s.
  - simpl. lia.
  - rewrite run_cons. cbn [snd].
    pose proof (step_wave_mono o s Ho). specialize (IH (snd (step o s))).
    lia.
Qed.





(** *** The pace of the regular spawns *)

Lemma Qle_bool_gt (x y : Q) : (y < x)%Q -> Qle_bool x y = false.
Proof.
  intros Hlt. destruct (Qle_bool x y) eqn:Hb; [|reflexivity].
  apply Qle_bool_iff in Hb. lra.
Qed.

Lemma spawnEnemies_early w h c p r s :
  (1 <= spawnInterval s)%Q -> (spawnTimer s < 1)%Q ->
  regularsOf (fst (fst (spawnEnemies w h c p r s))) = [] /\
  spawnTimer (snd (fst (spawnEnemies w h c p r s))) = spawnTimer s.
Proof.
  intros Hi Ht. destruct (isBossWave s) eqn:Hb.
  - unfold spawnEnemies. rewrite Hb.
    repeat match goal with
           | |- context [if ?b then _ else _] => destruct b
           end; cbn; split; reflexivity.
  - rewrite spawnEnemies_normal by assumption. cbv zeta.
    destruct (Qle_bool waveDuration (waveStartTime s)).
    + rewrite Qle_bool_gt; [cbn; split; reflexivity|].
      cbn [advanceWave spawnInterval spawnTimer].
      pose proof (Q.le_max_l 1 (spawnInterval s * (97 # 100))). lra.
    + rewrite Qle_bool_gt by lra. cbn. split; reflexivity.
Qed.

Lemma quiet_run ops s :
  reachableByCalls s ->
  atSpawns (fun s => spawnTimer s < 1)%Q ops s ->
  regularsOf (fst (run ops s)) = [].
Proof.
  revert s. induction ops as [|o ops IH]; intros s Hr Hat;
    [reflexivity|].
  destruct Hat as [Ho Hat].
  rewrite run_cons. cbn [fst]. unfold regularsOf.
  rewrite omap_app. fold (regularsOf (fst (step o s))).
  fold (regularsOf (fst (run ops (snd (step o s))))).
  rewrite (IH _ (reachableByCalls_step o s Hr) Hat), app_nil_r.
  destruct (reachableByCalls_bounds s Hr) as [Hi _].
  destruct o as [dt|w h c p r| |]; try reflexivity.
  cbn [step]. apply (spawnEnemies_early w h c p r s Hi Ho).
Qed.

(** X5.  Between two regular enemies the spawn timer of the director
    has to climb from zero to one at the least: a call of
    [spawnEnemies] returns a regular enemy only when [spawnTimer] holds
    1 or more, it leaves [spawnTimer] at 0, and no regular enemy is
    returned by the calls after it as long as [spawnTimer] is below 1 at
    every call of [spawnEnemies]. *)
Theorem regular_spawns_a_second_apart w h c p r (s : t) (ops : list op) :
  reachableByCalls s ->
  regularsOf (fst (fst (spawnEnemies w h c p r s))) <> [] ->
  atSpawns (fun s => spawnTimer s < 1)%Q ops
    (snd (fst (spawnEnemies w h c p r s))) ->
  (1 <= spawnTimer s)%Q /\
  spawnTimer (snd (fst (spawnEnemies w h c p r s))) = 0%Q /\
  regularsOf (fst (run ops (snd (fst (spawnEnemies w h c p r s))))) = [].
Proof.
  intros Hr Hsp Hat.
  pose proof (reachableByCalls_step (SpawnEnemies w h c p r) s Hr) as Hr1.
  cbn [step snd] in Hr1.
  destruct (reachableByCalls_bounds s Hr) as [Hi _].
  split; [|split].
  - destruct (Qlt_le_dec (spawnTimer s) 1) as [Hlt|Hge]; [|exact Hge].
    destruct (spawnEnemies_early w h c p r s Hi Hlt) as [He _].
    contradiction.
  - revert Hsp. unfold spawnEnemies.
    repeat match goal with
           | |- context [if ?b then _ else _] => destruct b
           end; cbn; congruence.
  - now apply quiet_run.
Qed.

(** *** Where enemies appear *)




(** *** The length of a wave and the countdown to the boss *)

Lemma step_before_wave_end o (s : t) :
  o <> Reset ->
  match o with
  | SpawnEnemies _ _ _ _ _ => (waveStartTime s < waveDuration)%Q
  | _ => True
  end ->
  currentWave (snd (step o s)) = currentWave s.
Proof.
  intros Ho Ht. destruct o as [dt|w h c p r| |];
    cbn [step snd]; [| | |congruence].
  - apply update_flags.
  - unfold spawnEnemies. destruct (isBossWave s).
    + destruct (negb (bossSpawned s)
                && Qle_bool bossWarningTime (waveStartTime s));
        cbn [waveStartTime set_bossSpawned bossSpawned bossDefeated];
        rewrite (Qle_bool_gt waveDuration (waveStartTime s) Ht);
        repeat match goal with
               | |- context [if ?b then _ else _] => destruct b
               end; reflexivity.
    + rewrite (Qle_bool_gt waveDuration (waveStartTime s) Ht).
      destruct (_ && _); reflexivity.
  - reflexivity.
Qed.

(** X8.  A wave ends only when the clock of the director has reached
    thirty seconds: over any calls other than [reset], as long as
    [waveStartTime] is below [waveDuration] at every call of
    [spawnEnemies], the wave number does not change. *)
Theorem wave_ends_only_after_wave_duration (ops : list op) (s : t) :
  Forall (fun o => o <> Reset) ops ->
  atSpawns (fun s => waveStartTime s < waveDuration)%Q ops s ->
  currentWave (snd (run ops s)) = currentWave s.
Proof.
  intros Hops. revert s.
  induction Hops as [|o ops Hno Hops IH]; intros s Hat; [reflexivity|].
  destruct Hat as [Ho Hat].
  rewrite run_cons. cbn [snd]. rewrite (IH _ Hat).
  apply step_before_wave_end; [exact Hno|].
  destruct o; auto.
Qed.

(** X9.  On a boss wave whose boss has not been spawned, the countdown
    that [getTimeUntilBoss] returns is zero exactly when a call of
    [spawnEnemies] returns the boss. *)
Theorem boss_countdown_zero_iff_spawn w h c p r (s : t) :
  isBossWave s = true -> bossSpawned s = false ->
  ((getTimeUntilBoss s == 0)%Q <->
   bossesOf (fst (fst (spawnEnemies w h c p r s)))
   = [spawnBoss w h p r s]) /\
  (~ (getTimeUntilBoss s == 0)%Q ->
   fst (fst (spawnEnemies w h c p r s)) = []).
Proof.
  intros Hb Hsp. unfold getTimeUntilBoss, spawnEnemies.
  rewrite Hb, Hsp. cbn [negb orb andb].
  destruct (Qle_bool bossWarningTime (waveStartTime s)) eqn:Ht.
  - apply Qle_bool_iff in Ht.
    assert (Qmax 0 (bossWarningTime - waveStartTime s) == 0)%Q as Hz
      by (apply Q.max_l; lra).
    cbn [bossSpawned set_bossSpawned bossDefeated].
    split.
    + split; [intros _|intros _; exact Hz].
      repeat match goal with
             | |- context [if ?b then _ else _] => destruct b
             end; reflexivity.
    + intros Hn. now elim Hn.
  - apply Qle_bool_false in Ht.
    assert (Qmax 0 (bossWarningTime - waveStartTime s)
            == bossWarningTime - waveStartTime s)%Q as Hz
      by (apply Q.max_r; lra).
    rewrite Hsp. cbn [andb].
    split.
    + split.
      * intros H0. rewrite Hz in H0. lra.
      * repeat match goal with
               | |- context [if ?b then _ else _] => destruct b
               end; discriminate.
    + intros _.
      repeat match goal with
             | |- context [if ?b then _ else _] => destruct b
             end; reflexivity.
Qed.

End WaveDirectorMore.

(** * Further properties of the input adapter *)

Section InputAdapterMore.

Import InputManager InputTrace.

Lemma clearKeys_ignore_from ks s k :
  k ∈ ignoreUntilRelease (foldl clearKey s ks) ->
  k ∈ ignoreUntilRelease s \/ k ∈ ks.
Proof.
  revert s. induction ks as [|key ks IH]; intros s Hk; simpl in Hk.
  - now left.
  - destruct (IH _ Hk) as [Hin|Hin]; [|right; set_solver].
    apply clearKey_ignore in Hin as [Hin|[-> _]];
      [now left|right; set_solver].
Qed.

Lemma clearKeys_listenersAttached ks s :
  listenersAttached (foldl clearKey s ks) = listenersAttached s.
Proof.
  revert s. induction ks as [|key ks IH]; intros s; cbn [foldl];
    [reflexivity|].
  rewrite IH. unfold clearKey. now destruct (pressed key s).
Qed.

Lemma handle_listenersAttached e s :
  listenersAttached (handle e s) = listenersAttached s.
Proof.
  destruct e as [code|code|b|]; cbn [handle].
  - destruct (listenersAttached s) eqn:E; [|exact E].
    unfold handleKeyDown.
    repeat match goal with
           | |- context [if ?b then _ else _] => destruct b
           end; exact E.
  - destruct (listenersAttached s) eqn:E; exact E.
  - reflexivity.
  - unfold clearMovementKeys. apply clearKeys_listenersAttached.
Qed.

Lemma handleAll_listenersAttached es s :
  listenersAttached (handleAll es s) = listenersAttached s.
Proof.
  unfold handleAll. revert s.
  induction es as [|e es IH]; intros s; simpl; [reflexivity|].
  now rewrite IH, handle_listenersAttached.
Qed.

Lemma ignore_inv_handle e s : ignore_inv s -> ignore_inv (handle e s).
Proof.
  intros Hinv. destruct e as [code|code|b|]; cbn [handle].
  - destruct (listenersAttached s); [|exact Hinv].
    unfold handleKeyDown.
    destruct (_ && _); [exact Hinv|].
    destruct (bool_decide (code ∈ ignoreUntilRelease s)) eqn:E; simpl;
      [exact Hinv|].
    apply bool_decide_eq_false_1 in E.
    intros k Hk. simpl in Hk. destruct (Hinv k Hk) as [Hm Hp].
    split; [exact Hm|]. rewrite pressed_set_keys_insert.
    destruct (decide (code = k)) as [->|]; [contradiction|exact Hp].
  - destruct (listenersAttached s); [|exact Hinv].
    intros k Hk. unfold handleKeyUp in *. simpl in Hk.
    assert (k ∈ ignoreUntilRelease s /\ k <> code) as [Hin Hne]
      by set_solver.
    destruct (Hinv k Hin) as [Hm Hp]. split; [exact Hm|].
    unfold pressed in *; simpl. now rewrite lookup_insert_ne.
  - exact Hinv.
  - intros k Hk. unfold clearMovementKeys in Hk.
    assert (k ∈ movementKeys) as Hm.
    { destruct (clearKeys_ignore_from _ _ _ Hk) as [Hin|Hin];
        [apply (Hinv k Hin)|exact Hin]. }
    split; [exact Hm|]. now apply clearMovementKeys_pressed.
Qed.

Lemma ignore_inv_handleAll es s :
  ignore_inv s -> ignore_inv (handleAll es s).
Proof.
  unfold handleAll. revert s.
  induction es as [|e es IH]; intros s Hinv; simpl; [exact Hinv|].
  apply IH, ignore_inv_handle, Hinv.
Qed.

Lemma ignore_inv_empty s : ignoreUntilRelease s = ∅ -> ignore_inv s.
Proof. intros He k Hk. rewrite He in Hk. set_solver. Qed.

(** X10.  Whatever the keyboard and the orchestrator do to an adapter
    that ignored no key at first, the keys it ignores afterwards are
    movement keys, and every one of them reads as released. *)
Theorem ignored_keys_are_released_movement_keys
    (es : list event) (s : t) (k : string) :
  ignoreUntilRelease s = ∅ ->
  k ∈ ignoreUntilRelease (handleAll es s) ->
  k ∈ movementKeys /\ pressed k (handleAll es s) = false.
Proof.
  intros He Hk.
  exact (ignore_inv_handleAll es s (ignore_inv_empty s He) k Hk).
Qed.

(** X11.  A key that is no movement key is never held back: with the
    listeners attached, and after any events, a press of it registers
    at once, also while the game is paused.  So the pause key and the
    weapon keys cannot get stuck. *)
Theorem other_keys_always_register
    (es : list event) (s : t) (code : string) :
  ignoreUntilRelease s = ∅ -> listenersAttached s = true ->
  code ∉ movementKeys ->
  pressed code (handle (KeyDown code) (handleAll es s)) = true.
Proof.
  intros He Hl Hc.
  pose proof (ignore_inv_handleAll es s (ignore_inv_empty s He)) as Hinv.
  cbn [handle]. rewrite handleAll_listenersAttached, Hl.
  unfold handleKeyDown.
  rewrite bool_decide_eq_false_2
    by (intros Hin; apply Hc; unfold movementKeys; set_solver).
  cbn [andb].
  rewrite bool_decide_eq_false_2
    by (intros Hin; apply Hc; apply (Hinv code Hin)).
  cbn [negb]. rewrite pressed_set_keys_insert.
  now destruct (decide (code = code)).
Qed.

End InputAdapterMore.

(** * Further properties of the frame scheduler *)

Section FrameSchedulerMore.

Import GameLoopController LoopTrace.

Lemma runLoop_cons currentTime ts s :
  runLoop (currentTime :: ts) s =
    (fst (runLoop ts {| lastTime := currentTime |}),
     [UpdateCallback (deltaTime currentTime s);
      RenderCallback (deltaTime currentTime s); RequestAnimationFrame]
     ++ snd (runLoop ts {| lastTime := currentTime |})).
Proof.
  cbn [runLoop gameLoop].
  now destruct (runLoop ts {| lastTime := currentTime |}).
Qed.

Lemma last_cons_default (c d : Q) (ts : list Q) :
  List.last (c :: ts) d = List.last ts c.
Proof.
  revert c d. induction ts as [|a ts IH]; intros c d; [reflexivity|].
  change (List.last (c :: a :: ts) d) with (List.last (a :: ts) d).
  now rewrite (IH a d), (IH a c).
Qed.

(** X12.  Over frames whose timestamps do not decrease, the game time
    never runs backwards: the update callback receives one time step
    per frame, every one of them between 0 and 0.02 seconds, and the
    scheduler ends with the last timestamp as its [lastTime]. *)
Theorem game_time_never_runs_backwards (ts : list Q) (s : t) :
  ascending (lastTime s) ts ->
  let dts := updateSteps (snd (runLoop ts s)) in
  length dts = length ts /\
  Forall (fun dt => 0 <= dt /\ dt <= 2 # 100)%Q dts /\
  lastTime (fst (runLoop ts s)) = List.last ts (lastTime s).
Proof.
  cbv zeta. revert s.
  induction ts as [|currentTime ts IH]; intros s Hasc.
  - cbn. split; [reflexivity|]. split; [constructor|reflexivity].
  - destruct Hasc as [Hle Hasc]. rewrite runLoop_cons. cbn [fst snd].
    specialize (IH {| lastTime := currentTime |} Hasc).
    cbn [lastTime] in IH. destruct IH as (Hlen & Hall & Hlast).
    destruct (deltaTime_forward currentTime s Hle) as [H0 _].
    pose proof (deltaTime_upper currentTime s) as H1.
    cbn [updateSteps omap app list_omap]. fold updateSteps.
    change (omap _ (snd (runLoop ts {| lastTime := currentTime |})))
      with (updateSteps (snd (runLoop ts {| lastTime := currentTime |}))).
    cbn [length].
    split; [now rewrite Hlen|]. split; [constructor; auto|].
    now rewrite last_cons_default.
Qed.

(** X13.  [start] sets [lastTime] to zero, so the first frame after it
    measures its gap from the origin of the host clock: the time step
    is the timestamp in seconds while that is below 0.02, and the full
    0.02 seconds from a timestamp of 20 milliseconds on. *)
Theorem first_frame_after_start (currentTime : Q) (s : t) :
  let s0 := fst (start s) in
  ((0 <= currentTime)%Q -> (currentTime <= 20)%Q ->
   (deltaTime currentTime s0 == currentTime / 1000)%Q) /\
  ((20 <= currentTime)%Q -> (deltaTime currentTime s0 == 2 # 100)%Q).
Proof.
  cbv zeta. unfold deltaTime, start. cbn [fst lastTime].
  assert ((currentTime - 0) / 1000 == currentTime / 1000)%Q as Hd
    by field.
  rewrite Hd. split.
  - intros _ Hle. apply Q.min_l.
    apply Qle_shift_div_r; lra.
  - intros Hge. apply Q.min_r.
    apply Qle_shift_div_l; lra.
Qed.

End FrameSchedulerMore.

(** * Further properties of the orchestrator *)

Section OrchestratorMore.

Context {env : MathEnv} {opq : Opaque} {col : Collaborators}.
Import GameEngine EngineTrace.

(** *** What a frame leaves alone *)

Lemma same_core_refl p w : same_core p w w.
Proof. now repeat split. Qed.

Lemma same_core_trans p w1 w2 w3 :
  same_core p w1 w2 -> same_core p w2 w3 -> same_core p w1 w3.
Proof.
  intros (A1 & A2 & A3 & A4 & A5 & A6) (B1 & B2 & B3 & B4 & B5 & B6).
  repeat split; congruence.
Qed.

Lemma count_set_log_same p w w' :
  log w' = log w -> count p w' = count p w.
Proof. unfold count. now intros ->. Qed.

Lemma gsm_saveCurrentSessionStats_core p now w :
  endOfRun p ->
  same_core p (GameStateManager.saveCurrentSessionStats now w) w.
Proof.
  intros [Hsnap _]. unfold GameStateManager.saveCurrentSessionStats.
  destruct (_ && _); [apply same_core_refl|].
  cbv zeta. repeat split.
  change (count p (emit (StatisticsSystem_saveSessionSnapshot
                           (GameStateManager.runStats now w)
                           (gsm_gameStartTime (gameStateManager w))) w)
          = count p w).
  rewrite count_emit, Hsnap. lia.
Qed.

Lemma saveCurrentSessionStats_core p now w :
  endOfRun p -> same_core p (saveCurrentSessionStats now w) w.
Proof.
  intros [Hsnap _]. unfold saveCurrentSessionStats. cbv zeta.
  repeat split.
  match goal with
  | |- count p (set_lastStatsSaveTime now (emit ?e w)) = _ =>
      change (count p (emit e w) = count p w)
  end.
  rewrite count_emit, Hsnap. lia.
Qed.

Lemma gsm_calls_core p calls w :
  same_core p (foldl (fun w c => GameStateManager.call c w) w calls) w.
Proof.
  revert w. induction calls as [|c calls IH]; intros w; simpl.
  - apply same_core_refl.
  - eapply same_core_trans; [apply IH|]. destruct c; repeat split.
Qed.

Lemma gsm_update_core p dt now w :
  endOfRun p -> same_core p (GameStateManager.update dt now w) w.
Proof.
  intros Hp. unfold GameStateManager.update.
  destruct (Combo_update dt (ext w) (store w)) as [e st].
  destruct (_ >=? _); [|repeat split].
  eapply same_core_trans; [now apply gsm_saveCurrentSessionStats_core|].
  repeat split.
Qed.

Lemma handlePauseInput_core p input now w :
  endOfRun p ->
  same_core p (snd (GameStateManager.handlePauseInput input now w)) w.
Proof.
  intros Hp. unfold GameStateManager.handlePauseInput.
  destruct (_ && _); [|repeat split].
  destruct (GamePhase_eqb (phase (store w)) Playing).
  - cbv zeta. cbn [snd].
    eapply same_core_trans;
      [|apply (gsm_saveCurrentSessionStats_core p now w Hp)].
    repeat split.
  - destruct (GamePhase_eqb (phase (store w)) Paused); repeat split.
Qed.

Lemma beginFrame_core p now w :
  endOfRun p -> same_core p (snd (beginFrame now w)) w.
Proof.
  intros Hp. unfold beginFrame.
  pose proof (handlePauseInput_core p
                (InputManager.getInput false (inputManager w)) now w Hp)
    as Hc.
  destruct (GameStateManager.handlePauseInput _ now w) as [changed w1].
  cbn [snd] in *. cbv zeta.
  eapply same_core_trans; [|exact Hc].
  destruct (_ && _); repeat split.
Qed.

Lemma pausedFrame_core p dt w : same_core p (pausedFrame dt w) w.
Proof.
  unfold pausedFrame. cbv zeta.
  destruct (Player_fireWeapon dt _) as [ps e]. repeat split.
Qed.

(** *** The calls of a frame into the wave director *)

Lemma update_events dt (s : WaveManager.t) :
  snd (WaveManager.update dt s) = [] \/
  (snd (WaveManager.update dt s) = [WaveManager.OnBossWarning] /\
   WaveManager.isBossWave s = true).
Proof.
  unfold WaveManager.update. cbv zeta.
  change (WaveManager.isBossWave (WaveManager.set_spawnTimer _ _))
    with (WaveManager.isBossWave s).
  destruct (WaveManager.isBossWave s); cbn [andb]; [|now left].
  destruct (negb _); [|now left].
  destruct (_ && _); [right|left]; auto.
Qed.

Lemma boss_type_defined (k : Z) :
  1 <= k ->
  exists ty,
    WaveManager.js_index WaveManager.bossTypes
      (WaveManager.bossIndex (5 * k)) = Some ty.
Proof.
  intros Hk. rewrite bossIndex_boss_wave by assumption.
  unfold WaveManager.js_index.
  pose proof (Z.mod_pos_bound (k - 1) 3 ltac:(lia)) as Hm.
  destruct ((k - 1) mod 3 <? 0) eqn:Hneg;
    [apply Z.ltb_lt in Hneg; lia|].
  destruct (nth_error WaveManager.bossTypes (Z.to_nat ((k - 1) mod 3)))
    eqn:E; [eauto|].
  apply nth_error_None in E. simpl in E. lia.
Qed.

Lemma handleBossWarning_index wave w :
  GameStateManager.handleBossWarning wave w =
    match WaveManager.js_index WaveManager.bossTypes
            (WaveManager.bossIndex wave) with
    | Some b =>
        Done (set_store
                (Store_triggerBossWarning
                   (fst (GameStateManager.bossInfo b))
                   (snd (GameStateManager.bossInfo b)) (store w)) w)
    | None => Thrown w
    end.
Proof. reflexivity. Qed.

Lemma waveManager_update_core p dt w :
  let w' := world_of (waveManager_update dt w) in
  waveManager w' = fst (WaveManager.update dt (waveManager w)) /\
  currentBoss w' = currentBoss w /\
  isBossActive w' = isBossActive w /\
  canvasWidth w' = canvasWidth w /\
  canvasHeight w' = canvasHeight w /\
  count p w' = count p w.
Proof.
  cbv zeta. unfold waveManager_update, onBossWarning.
  destruct (WaveManager.update dt (waveManager w)) as [wm events].
  destruct events as [|[|boss] events]; [repeat split| |repeat split].
  rewrite handleBossWarning_index.
  destruct (WaveManager.js_index _ _); repeat split.
Qed.

Lemma waveManager_update_done dt w :
  1 <= WaveManager.currentWave (waveManager w) ->
  exists w', waveManager_update dt w = Done w'.
Proof.
  intros Hw. unfold waveManager_update, onBossWarning.
  destruct (update_events dt (waveManager w)) as [He|[He Hb]];
    destruct (update_flags dt (waveManager w)) as (Hcw & _);
    destruct (WaveManager.update dt (waveManager w)) as [wm events];
    cbn [fst snd] in *; subst events; [eauto|].
  destruct (isBossWave_multiple _ Hw Hb) as (k & Hk & Hwk).
  rewrite handleBossWarning_index.
  unfold WaveManager.getCurrentWave. cbn [waveManager set_waveManager].
  rewrite Hcw, Hwk.
  destruct (boss_type_defined k Hk) as [ty ->]. eauto.
Qed.

Lemma spawnEnemies_events w h c pos rnd (s : WaveManager.t) :
  snd (WaveManager.spawnEnemies w h c pos rnd s) = [] \/
  exists boss,
    snd (WaveManager.spawnEnemies w h c pos rnd s)
    = [WaveManager.OnBossSpawn boss].
Proof.
  unfold WaveManager.spawnEnemies.
  repeat match goal with
         | |- context [if ?b then _ else _] => destruct b
         end; cbn [snd]; eauto.
Qed.

Lemma waveManager_spawnEnemies_core p c pos rnd w :
  let w' := snd (waveManager_spawnEnemies c pos rnd w) in
  waveManager w' =
    snd (fst (WaveManager.spawnEnemies (canvasWidth w) (canvasHeight w)
                c (Some pos) rnd (waveManager w))) /\
  canvasWidth w' = canvasWidth w /\
  canvasHeight w' = canvasHeight w /\
  count p w' = count p w /\
  (boss_flag_inv w -> boss_flag_inv w').
Proof.
  cbv zeta. unfold waveManager_spawnEnemies.
  destruct (WaveManager.spawnEnemies _ _ _ _ _ _) as [[es wm] events].
  destruct events as [|[|boss] events]; cbn [fst snd];
    repeat (split; [reflexivity|]); intros Hinv; try exact Hinv.
  split; [discriminate|reflexivity].
Qed.

Lemma handleBossDefeated_core p boss w :
  endOfRun p ->
  let w' := handleBossDefeated boss w in
  waveManager w' = waveManager w /\
  canvasWidth w' = canvasWidth w /\
  canvasHeight w' = canvasHeight w /\
  count p w' = count p w /\
  boss_flag_inv w'.
Proof.
  intros [_ Hsound]. cbv zeta. unfold handleBossDefeated. cbv zeta.
  cbn [isMuted set_store set_ext].
  destruct (negb (isMuted w)).
  - repeat split; try discriminate; try (intros H; now elim H).
    match goal with
    | |- count p (set_isBossActive _ (set_currentBoss _ (emit ?e ?x)))
         = _ => change (count p (emit e x) = count p w)
    end.
    rewrite count_emit, Hsound. unfold count. cbn. lia.
  - repeat split; try discriminate; try (intros H; now elim H).
Qed.

Lemma run_one o (s : WaveManager.t) :
  snd (WaveManager.run [o] s) = snd (WaveManager.step o s).
Proof. rewrite run_cons. reflexivity. Qed.

Lemma run_two o1 o2 (s : WaveManager.t) :
  snd (WaveManager.run [o1; o2] s)
  = snd (WaveManager.step o2 (snd (WaveManager.step o1 s))).
Proof. rewrite run_cons. cbn [snd]. apply run_one. Qed.

Lemma playingFrame_calls p dt now rnd w :
  endOfRun p ->
  let w' := world_of (playingFrame dt now rnd w) in
  (exists ops,
     Forall drivenByFrame ops /\
     waveManager w'
     = snd (WaveManager.run (WaveManager.Update dt :: ops)
              (waveManager w))) /\
  count p w' = count p w /\
  (boss_flag_inv w -> boss_flag_inv w') /\
  (1 <= WaveManager.currentWave (waveManager w) ->
   playingFrame dt now rnd w = Done w').
Proof.
  intros Hp. cbv zeta. unfold playingFrame. cbv zeta.
  match goal with
  | |- context [waveManager_update dt ?x] => set (w0 := x)
  end.
  destruct (waveManager_update_core p dt w0)
    as (Hwm & Hcb & Hba & Hcw & Hch & Hct).
  pose proof (waveManager_update_done dt w0) as Hdone.
  destruct (waveManager_update dt w0) as [w1|w1];
    cbn [andThen world_of] in *;
    change (count p w0) with (count p w) in Hct;
    change (currentBoss w0) with (currentBoss w) in Hcb;
    change (isBossActive w0) with (isBossActive w) in Hba;
    change (waveManager w0) with (waveManager w) in Hwm.
  - pose proof (waveManager_spawnEnemies_core p
                  (EntityManager_enemyCount (ext w1))
                  (Player_position (ext w1)) rnd w1)
      as (Swm & Scw & Sch & Sct & Sinv).
    destruct (waveManager_spawnEnemies _ _ rnd w1) as [es w2].
    cbn [snd] in Swm, Scw, Sch, Sct, Sinv.
    destruct (Player_fireWeapon dt _) as [ps e].
    destruct (CollisionHandler_handleAllCollisions _ _)
      as [[e' st] calls].
    match goal with
    | |- context [GameStateManager.update dt now ?x] =>
        pose proof (gsm_update_core p dt now x Hp) as Hu;
        set (w3 := GameStateManager.update dt now x) in *
    end.
    assert (same_core p w3 w2) as (Uwm & Ucb & Uba & Ucw & Uch & Uct).
    { eapply same_core_trans; [exact Hu|].
      eapply same_core_trans; [apply gsm_calls_core|]. repeat split. }
    assert (waveManager w2 =
            snd (WaveManager.run
                   [WaveManager.Update dt;
                    WaveManager.SpawnEnemies (canvasWidth w1)
                      (canvasHeight w1)
                      (EntityManager_enemyCount (ext w1))
                      (Some (Player_position (ext w1))) rnd]
                   (waveManager w))) as Hrun.
    { rewrite run_two. cbn [WaveManager.step snd].
      rewrite Swm, Hwm. reflexivity. }
    assert (Forall drivenByFrame
              [WaveManager.SpawnEnemies (canvasWidth w1)
                 (canvasHeight w1)
                 (EntityManager_enemyCount (ext w1))
                 (Some (Player_position (ext w1))) rnd]) as Hops
      by (repeat constructor).
    assert (boss_flag_inv w -> boss_flag_inv w3) as Hinv3.
    { intros Hinv. unfold boss_flag_inv. rewrite Ucb, Uba.
      apply Sinv. unfold boss_flag_inv. rewrite Hcb, Hba. exact Hinv. }
    destruct (currentBoss w3) as [boss|] eqn:Hboss.
    + destruct (_ && _); cbn [world_of].
      * destruct (handleBossDefeated_core p boss w3 Hp)
          as (Dwm & _ & _ & Dct & Dinv).
        split; [eexists; split; [exact Hops|congruence]|].
        split; [congruence|]. split; [intros _; exact Dinv|reflexivity].
      * split; [eexists; split; [exact Hops|congruence]|].
        split; [congruence|]. split; [|reflexivity].
        exact Hinv3.
    + cbn [world_of].
      split; [eexists; split; [exact Hops|congruence]|].
      split; [congruence|]. split; [|reflexivity].
      exact Hinv3.
  - split.
    { exists []. split; [constructor|].
      rewrite run_one. cbn [WaveManager.step snd]. now rewrite Hwm. }
    split; [exact Hct|]. split.
    + intros Hinv. unfold boss_flag_inv. rewrite Hcb, Hba. exact Hinv.
    + intros Hw. destruct (Hdone Hw) as [w'' Habs]. discriminate.
Qed.

Lemma handlePlayerDeath_same now w :
  waveManager (handlePlayerDeath now w) = waveManager w /\
  currentBoss (handlePlayerDeath now w) = currentBoss w /\
  isBossActive (handlePlayerDeath now w) = isBossActive w.
Proof.
  unfold handlePlayerDeath, GameStateManager.handlePlayerDeath.
  cbv zeta. cbn [isMuted emit set_log set_ext set_progression set_store].
  destruct (negb (isMuted w)); repeat split.
Qed.

Lemma no_calls (s : WaveManager.t) :
  exists ops,
    Forall drivenByFrame ops /\ s = snd (WaveManager.run ops s).
Proof. exists []. split; [constructor|reflexivity]. Qed.

Lemma one_call dt (s : WaveManager.t) :
  exists ops,
    Forall drivenByFrame ops /\
    fst (WaveManager.update dt s) = snd (WaveManager.run ops s).
Proof.
  exists [WaveManager.Update dt]. split; [repeat constructor|].
  now rewrite run_one.
Qed.

Lemma update_calls p dt now rnd w :
  endOfRun p ->
  let w' := world_of (update dt now rnd w) in
  (exists ops,
     Forall drivenByFrame ops /\
     waveManager w' = snd (WaveManager.run ops (waveManager w))) /\
  (boss_flag_inv w -> boss_flag_inv w') /\
  (1 <= WaveManager.currentWave (waveManager w) ->
   update dt now rnd w = Done w') /\
  (dies now w = false -> count p w' = count p w) /\
  (dies now w = true ->
   exists w2,
     same_core p w2 w /\ isMuted w2 = isMuted w /\
     w' = handlePlayerDeath now w2) /\
  (fst (beginFrame now w) <> Paused -> dies now w = false ->
   exists ops,
     Forall drivenByFrame ops /\
     waveManager w'
     = snd (WaveManager.run (WaveManager.Update dt :: ops)
              (waveManager w))).
Proof.
  intros Hp. cbv zeta. unfold dies, update.
  destruct (beginFrame_frame now w)
    as (Hph & Hip & _ & _ & _ & _ & _ & _ & _ & Hhp).
  pose proof (beginFrame_core p now w Hp) as Hb.
  assert (isMuted (snd (beginFrame now w)) = isMuted w) as Hmu.
  { unfold beginFrame, GameStateManager.handlePauseInput,
      GameStateManager.saveCurrentSessionStats.
    repeat match goal with
           | |- context [if ?b then _ else _] => destruct b
           end; reflexivity. }
  destruct (beginFrame now w) as [ph w1]. cbn [fst snd] in *.
  pose proof Hb as (Bwm & Bcb & Bba & Bcw & Bch & Bct).
  assert (boss_flag_inv w -> boss_flag_inv w1) as Binv
    by (unfold boss_flag_inv; now rewrite Bcb, Bba).
  rewrite Hip.
  destruct (GamePhase_eqb ph Paused) eqn:Epa.
  { apply GamePhase_eqb_eq in Epa. rewrite Epa in *. cbn [GamePhase_eqb].
    rewrite andb_false_r. cbn [world_of].
    destruct (pausedFrame_core p dt w1) as (Pwm & Pcb & Pba & _ & _ & Pct).
    split; [rewrite Pwm, Bwm; apply no_calls|].
    split; [unfold boss_flag_inv in *; now rewrite Pcb, Pba|].
    split; [reflexivity|]. split; [intros _; congruence|].
    split; [discriminate|]. intros Hne. now elim Hne. }
  destruct (GamePhase_eqb ph GameOver) eqn:Ego.
  { apply GamePhase_eqb_eq in Ego. rewrite Ego in *. cbn [GamePhase_eqb].
    rewrite andb_false_r. unfold gameOverFrame. cbv zeta.
    match goal with
    | |- context [waveManager_update dt ?x] => set (w0 := x)
    end.
    destruct (waveManager_update_core p dt w0)
      as (Hwm & Hcb & Hba & _ & _ & Hct).
    pose proof (waveManager_update_done dt w0) as Hdone.
    change (waveManager w0) with (waveManager w1) in *.
    change (currentBoss w0) with (currentBoss w1) in *.
    change (isBossActive w0) with (isBossActive w1) in *.
    change (count p w0) with (count p w1) in *.
    split; [rewrite Hwm, Bwm; apply one_call|].
    split; [unfold boss_flag_inv in *; now rewrite Hcb, Hba|].
    split.
    - intros Hw. rewrite <- Bwm in Hw. destruct (Hdone Hw) as [w'' ->].
      reflexivity.
    - split; [intros _; congruence|]. split; [discriminate|].
      intros _ _. exists []. split; [constructor|].
      rewrite run_one. cbn [WaveManager.step snd]. now rewrite Hwm, Bwm. }
  destruct (GamePhase_eqb ph LevelUp) eqn:Elu.
  { apply GamePhase_eqb_eq in Elu. rewrite Elu in *. cbn [GamePhase_eqb].
    rewrite andb_false_r. unfold levelUpFrame. cbv zeta.
    match goal with
    | |- context [waveManager_update dt ?x] => set (w0 := x)
    end.
    destruct (waveManager_update_core p dt w0)
      as (Hwm & Hcb & Hba & _ & _ & Hct).
    pose proof (waveManager_update_done dt w0) as Hdone.
    change (waveManager w0) with (waveManager w1) in *.
    change (currentBoss w0) with (currentBoss w1) in *.
    change (isBossActive w0) with (isBossActive w1) in *.
    change (count p w0) with (count p w1) in *.
    split; [rewrite Hwm, Bwm; apply one_call|].
    split; [unfold boss_flag_inv in *; now rewrite Hcb, Hba|].
    split.
    - intros Hw. rewrite <- Bwm in Hw. destruct (Hdone Hw) as [w'' ->].
      reflexivity.
    - split; [intros _; congruence|]. split; [discriminate|].
      intros _ _. exists []. split; [constructor|].
      rewrite run_one. cbn [WaveManager.step snd]. now rewrite Hwm, Bwm. }
  set (w2 := if _ >=? _ then _ else _).
  assert (same_core p w2 w1 /\ store w2 = store w1 /\
          isMuted w2 = isMuted w1) as (Hc2 & Hst2 & Hmu2).
  { unfold w2. destruct (_ >=? _).
    - split; [now apply saveCurrentSessionStats_core|].
      split; reflexivity.
    - split; [apply same_core_refl|]. split; reflexivity. }
  pose proof (same_core_trans p _ _ _ Hc2 Hb)
    as (Cwm & Ccb & Cba & _ & _ & Cct).
  assert (GameStateManager.checkPlayerDeath w2
          = Qle_bool (health (store w)) 0 && GamePhase_eqb ph Playing)
    as Hcheck.
  { unfold GameStateManager.checkPlayerDeath.
    now rewrite Hst2, Hhp, Hph. }
  rewrite Hcheck.
  destruct (Qle_bool (health (store w)) 0 && GamePhase_eqb ph Playing).
  - cbn [world_of].
    destruct (handlePlayerDeath_same now w2) as (Dwm & Dcb & Dba).
    split; [rewrite Dwm, Cwm; apply no_calls|].
    split; [unfold boss_flag_inv in *; now rewrite Dcb, Dba, Ccb, Cba|].
    split; [reflexivity|]. split; [discriminate|]. split.
    + intros _. exists w2.
      split; [exact (same_core_trans p _ _ _ Hc2 Hb)|].
      split; [congruence|reflexivity].
    + discriminate.
  - destruct (playingFrame_calls p dt now rnd w2 Hp)
      as ((ops & Hops & Hrun) & Hct & Hinv & Hdone).
    split.
    { exists (WaveManager.Update dt :: ops).
      split; [constructor; [exact I|exact Hops]|now rewrite Hrun, Cwm]. }
    split.
    { intros Hi. apply Hinv. unfold boss_flag_inv in *.
      now rewrite Ccb, Cba. }
    split; [intros Hw; apply Hdone; now rewrite Cwm|].
    split; [intros _; congruence|]. split; [discriminate|].
    intros _ _. exists ops. split; [exact Hops|now rewrite Hrun, Cwm].
Qed.

Lemma run_app ops1 ops2 (s : WaveManager.t) :
  snd (WaveManager.run (ops1 ++ ops2) s)
  = snd (WaveManager.run ops2 (snd (WaveManager.run ops1 s))).
Proof.
  revert s. induction ops1 as [|o ops1 IH]; intros s; [reflexivity|].
  rewrite <- app_comm_cons, !run_cons. cbn [snd]. apply IH.
Qed.

Lemma driven_not_reset ops :
  Forall drivenByFrame ops ->
  Forall (fun o => o <> WaveManager.Reset) ops.
Proof.
  intros H. eapply List.Forall_impl; [|exact H].
  intros o Ho ->. exact Ho.
Qed.

Lemma no_effect_endOfRun : endOfRun (fun _ => false).
Proof. split; reflexivity. Qed.

Lemma updates_calls fs rnd w :
  let w' := world_of (updates fs rnd w) in
  (exists ops,
     Forall drivenByFrame ops /\
     waveManager w' = snd (WaveManager.run ops (waveManager w))) /\
  (boss_flag_inv w -> boss_flag_inv w') /\
  (1 <= WaveManager.currentWave (waveManager w) ->
   updates fs rnd w = Done w').
Proof.
  cbv zeta. revert w. induction fs as [|[dt now] fs IH]; intros w.
  - cbn. split; [apply no_calls|]. split; auto.
  - cbn [updates].
    destruct (update_calls (fun _ => false) dt now rnd w
                no_effect_endOfRun)
      as ((ops & Hops & Hrun) & Hinv & Hdone & _).
    destruct (update dt now rnd w) as [w1|w1] eqn:Hup;
      cbn [andThen world_of] in *.
    + destruct (IH w1) as ((ops' & Hops' & Hrun') & Hinv' & Hdone').
      split.
      { exists (ops ++ ops'). split; [now apply Forall_app|].
        now rewrite run_app, <- Hrun. }
      split; [auto|].
      intros Hw. apply Hdone'. rewrite Hrun.
      pose proof (run_wave_mono ops (waveManager w)
                    (driven_not_reset ops Hops)). lia.
    + split; [eauto|]. split; [exact Hinv|].
      intros Hw. specialize (Hdone Hw). discriminate.
Qed.

(** X14.  Over any number of frames the orchestrator changes the wave
    director only through calls of [update] and of [spawnEnemies] with
    the position of the player: it never reports the defeat of a boss
    to it and never resets it. *)
Theorem frames_drive_wave_director
    (fs : list (Q * Z)) (rnd : Rand) (w : World) :
  exists ops,
    Forall drivenByFrame ops /\
    ~ In WaveManager.OnBossDefeated ops /\ ~ In WaveManager.Reset ops /\
    waveManager (world_of (updates fs rnd w))
    = snd (WaveManager.run ops (waveManager w)).
Proof.
  destruct (updates_calls fs rnd w) as ((ops & Hops & Hrun) & _).
  exists ops. split; [exact Hops|].
  rewrite List.Forall_forall in Hops.
  split; [|split]; [intros Hin; exact (Hops _ Hin) ..|exact Hrun].
Qed.

Lemma boss_fight_step o (s : WaveManager.t) :
  drivenByFrame o -> WaveManager.isBossActive s = true ->
  fst (WaveManager.step o s) = [] /\
  WaveManager.isBossActive (snd (WaveManager.step o s)) = true /\
  WaveManager.currentWave (snd (WaveManager.step o s))
  = WaveManager.currentWave s.
Proof.
  intros Ho Ha. destruct o as [dt|cw ch c pos r| |]; try contradiction.
  - cbn [WaveManager.step fst snd].
    destruct (update_flags dt s) as (Hw & _ & _ & Hact).
    split; [reflexivity|]. split; [now rewrite Hact|exact Hw].
  - cbn [WaveManager.step].
    apply isBossActive_iff in Ha as (Hb & Hsp & Hd).
    rewrite spawnEnemies_boss_fight by assumption. cbn [fst snd].
    split; [reflexivity|]. split; [|reflexivity].
    apply isBossActive_iff. auto.
Qed.

Lemma boss_fight_run ops (s : WaveManager.t) :
  Forall drivenByFrame ops -> WaveManager.isBossActive s = true ->
  fst (WaveManager.run ops s) = [] /\
  WaveManager.isBossActive (snd (WaveManager.run ops s)) = true /\
  WaveManager.currentWave (snd (WaveManager.run ops s))
  = WaveManager.currentWave s.
Proof.
  intros Hops. revert s.
  induction Hops as [|o ops Ho Hops IH]; intros s Ha.
  - cbn. auto.
  - rewrite run_cons. cbn [fst snd].
    destruct (boss_fight_step o s Ho Ha) as (He & Ha1 & Hw1).
    destruct (IH _ Ha1) as (He' & Ha' & Hw').
    rewrite He, He'. split; [reflexivity|]. split; [exact Ha'|congruence].
Qed.

(** X15.  Once the boss of a wave is in play, frames never end that
    wave: whatever happens to the boss, after any number of frames the
    wave director still counts the boss as active and still is in the
    same wave, because the orchestrator never calls [onBossDefeated] on
    it. *)
Theorem boss_wave_never_ends
    (fs : list (Q * Z)) (rnd : Rand) (w : World) :
  WaveManager.isBossActive (waveManager w) = true ->
  let w' := world_of (updates fs rnd w) in
  WaveManager.isBossActive (waveManager w') = true /\
  WaveManager.bossDefeated (waveManager w') = false /\
  WaveManager.currentWave (waveManager w')
  = WaveManager.currentWave (waveManager w).
Proof.
  intros Ha. cbv zeta.
  destruct (updates_calls fs rnd w) as ((ops & Hops & ->) & _).
  destruct (boss_fight_run ops _ Hops Ha) as (_ & Ha' & Hw').
  split; [exact Ha'|]. split; [|exact Hw'].
  apply isBossActive_iff in Ha' as (_ & _ & Hd). exact Hd.
Qed.

(** X16.  No frame is left by an exception: from a world whose wave
    director is in wave 1 or later, any number of frames complete, and
    the wave number never falls. *)
Theorem frames_never_throw (fs : list (Q * Z)) (rnd : Rand) (w : World) :
  1 <= WaveManager.currentWave (waveManager w) ->
  exists w',
    updates fs rnd w = Done w' /\
    WaveManager.currentWave (waveManager w)
    <= WaveManager.currentWave (waveManager w').
Proof.
  intros Hw.
  destruct (updates_calls fs rnd w) as ((ops & Hops & Hrun) & _ & Hdone).
  exists (world_of (updates fs rnd w)). split; [now apply Hdone|].
  rewrite Hrun. apply run_wave_mono. now apply driven_not_reset.
Qed.

(** *** The records of a run *)

Lemma update_count p dt now rnd w :
  endOfRun p ->
  (forall w2,
     count p (handlePlayerDeath now w2) = S (count p w2)) ->
  count p (world_of (update dt now rnd w))
  = (count p w + if dies now w then 1 else 0)%nat.
Proof.
  intros Hp Hdeath.
  destruct (update_calls p dt now rnd w Hp)
    as (_ & _ & _ & Hno & Hyes & _).
  destruct (dies now w).
  - destruct (Hyes eq_refl) as (w2 & (_ & _ & _ & _ & _ & Hct) & _ & ->).
    rewrite Hdeath, Hct. lia.
  - rewrite (Hno eq_refl). lia.
Qed.

(** X17.  A frame records the run, records its end and awards the
    currency exactly when the player has no health left and the frame
    finds the game being played; every other frame, whatever its phase,
    records none of them. *)
Theorem run_recorded_only_on_death dt now rnd (w : World) :
  let w' := world_of (update dt now rnd w) in
  let n := if dies now w then 1%nat else 0%nat in
  count isRecordRun w' = (count isRecordRun w + n)%nat /\
  count isRecordRunEnd w' = (count isRecordRunEnd w + n)%nat /\
  count isAddCurrency w' = (count isAddCurrency w + n)%nat.
Proof.
  cbv zeta.
  split; [|split]; (apply update_count; [split; reflexivity|]);
    intros w2;
    destruct (handlePlayerDeath_effects now w2)
      as ((r & a & b & c & d & e & f & n & Hl) & _);
    unfold count; rewrite Hl, List.filter_app, List.length_app;
    destruct (isMuted w2); simpl; lia.
Qed.

(** *** The boss the orchestrator holds *)

Lemma spawnDebugBoss_flag bossType rnd w :
  boss_flag_inv (spawnDebugBoss bossType rnd w).
Proof. unfold spawnDebugBoss. cbv zeta. split; [discriminate|reflexivity]. Qed.

(** X18.  The orchestrator's flag for an active boss and the boss it
    holds agree: if the flag is set exactly when there is a current
    boss, this is still so after any number of frames, after the debug
    summon of a boss, and after any number of frames that follow the
    summon. *)
Theorem boss_flag_matches_current_boss
    (fs : list (Q * Z)) (rnd : Rand) (bossType : BossType) (w : World) :
  boss_flag_inv w ->
  boss_flag_inv (world_of (updates fs rnd w)) /\
  boss_flag_inv (spawnDebugBoss bossType rnd w) /\
  boss_flag_inv
    (world_of (updates fs rnd (spawnDebugBoss bossType rnd w))).
Proof.
  intros Hinv. split; [now apply updates_calls|].
  split; [apply spawnDebugBoss_flag|].
  apply updates_calls, spawnDebugBoss_flag.
Qed.

(** *** The pause key held down *)

Lemma beginFrame_pause_held now w :
  pause (InputManager.getInput false (inputManager w)) = true ->
  (lastPauseState (gameStateManager w) = false /\
   phase (store w) = Playing) \/
  (lastPauseState (gameStateManager w) = true /\
   phase (store w) = Paused) ->
  let w1 := snd (beginFrame now w) in
  fst (beginFrame now w) = Paused /\
  lastPauseState (gameStateManager w1) = true /\
  gsm_gameStartTime (gameStateManager w1)
  = gsm_gameStartTime (gameStateManager w).
Proof.
  intros Hpause Hcase. cbv zeta.
  unfold beginFrame, GameStateManager.handlePauseInput.
  rewrite Hpause.
  destruct Hcase as [[Hl Hph]|[Hl Hph]]; rewrite Hl, Hph;
    cbn [andb negb GamePhase_eqb].
  - unfold GameStateManager.saveCurrentSessionStats. rewrite Hph.
    cbn [andb negb GamePhase_eqb]. cbv zeta.
    cbn [store set_store GameStateManager.set_lastPause
         set_gameStateManager Store_pause set_phase phase
         GamePhase_eqb orb andb fst snd].
    rewrite andb_false_r. repeat split.
  - cbv zeta.
    cbn [store set_store GameStateManager.set_lastPause
         set_gameStateManager].
    rewrite Hph. cbn [GamePhase_eqb orb andb fst snd].
    rewrite andb_false_r. repeat split.
Qed.

Lemma paused_frame_holds dt now rnd w :
  pause (InputManager.getInput false (inputManager w)) = true ->
  (lastPauseState (gameStateManager w) = false /\
   phase (store w) = Playing) \/
  (lastPauseState (gameStateManager w) = true /\
   phase (store w) = Paused) ->
  exists w1,
    update dt now rnd w = Done w1 /\
    pause (InputManager.getInput false (inputManager w1)) = true /\
    lastPauseState (gameStateManager w1) = true /\
    phase (store w1) = Paused /\
    waveManager w1 = waveManager w.
Proof.
  intros Hpause Hcase.
  destruct (beginFrame_pause_held now w Hpause Hcase) as (Hph & Hl & _).
  destruct (beginFrame_frame now w)
    as (Hst & _ & _ & Him & Hwm & _).
  rewrite Hph in Hst, Him.
  exists (pausedFrame dt (snd (beginFrame now w))).
  split; [now apply update_paused|].
  destruct (pausedFrame_frame dt (snd (beginFrame now w)))
    as (_ & Pwm & Pim & Pst & _).
  rewrite Pim, Pst, Pwm, Him, pause_input_after_begin.
  split; [exact Hpause|]. split; [|split; [exact Hst|exact Hwm]].
  unfold pausedFrame. cbv zeta.
  destruct (Player_fireWeapon dt _) as [ps e]. exact Hl.
Qed.

(** X19.  A pause key that is held down pauses the game once: from a
    game being played, after one frame or after many with the key still
    down, the phase is [paused], not toggled back and forth, every frame
    has completed, and the wave director is as it was. *)
Theorem held_pause_key_pauses_once
    (fs : list (Q * Z)) (rnd : Rand) (w : World) :
  pause (InputManager.getInput false (inputManager w)) = true ->
  lastPauseState (gameStateManager w) = false ->
  phase (store w) = Playing ->
  fs <> [] ->
  exists w',
    updates fs rnd w = Done w' /\
    phase (store w') = Paused /\
    waveManager w' = waveManager w.
Proof.
  intros Hpause Hl Hph Hfs.
  assert (forall fs w,
            pause (InputManager.getInput false (inputManager w)) = true ->
            lastPauseState (gameStateManager w) = true ->
            phase (store w) = Paused ->
            exists w',
              updates fs rnd w = Done w' /\
              phase (store w') = Paused /\
              waveManager w' = waveManager w) as Hstay.
  { clear. induction fs as [|[dt now] fs IH]; intros w Hpause Hl Hph.
    - exists w. now repeat split.
    - destruct (paused_frame_holds dt now rnd w Hpause
                  (or_intror (conj Hl Hph)))
        as (w1 & Hup & Hp1 & Hl1 & Hph1 & Hwm1).
      destruct (IH w1 Hp1 Hl1 Hph1) as (w' & Hups & Hph' & Hwm').
      exists w'. cbn [updates]. rewrite Hup. cbn [andThen].
      split; [exact Hups|]. split; [exact Hph'|congruence]. }
  destruct fs as [|[dt now] fs]; [contradiction|].
  destruct (paused_frame_holds dt now rnd w Hpause
              (or_introl (conj Hl Hph)))
    as (w1 & Hup & Hp1 & Hl1 & Hph1 & Hwm1).
  destruct (Hstay fs w1 Hp1 Hl1 Hph1) as (w' & Hups & Hph' & Hwm').
  exists w'. cbn [updates]. rewrite Hup. cbn [andThen].
  split; [exact Hups|]. split; [exact Hph'|congruence].
Qed.

(** *** The announcement of a boss *)

(** X20.  On a boss wave the warning announces the boss that the wave
    director is going to spawn: [handleBossWarning], called with the
    number of the wave, completes and publishes the name and the
    description of the very type that [spawnBoss] gives its boss. *)
Theorem boss_warning_names_spawned_boss
    cw ch pos (rnd : Rand) (s : WaveManager.t) (w : World) :
  1 <= WaveManager.currentWave s -> WaveManager.isBossWave s = true ->
  exists ty,
    boss_type (WaveManager.spawnBoss cw ch pos rnd s) = Some ty /\
    GameStateManager.handleBossWarning (WaveManager.currentWave s) w
    = Done (set_store
              (Store_triggerBossWarning
                 (fst (GameStateManager.bossInfo ty))
                 (snd (GameStateManager.bossInfo ty)) (store w)) w).
Proof.
  intros Hw Hb.
  destruct (isBossWave_multiple s Hw Hb) as (k & Hk & Hwk).
  destruct (boss_type_defined k Hk) as [ty Hty].
  exists ty. rewrite handleBossWarning_index.
  unfold WaveManager.spawnBoss. cbn [boss_type].
  rewrite Hwk, Hty. split; reflexivity.
Qed.

Lemma bossIndex_floor (wave : Z) :
  WaveManager.bossIndex wave = Z.rem (wave / 5 - 1) 3.
Proof.
  unfold WaveManager.bossIndex. f_equal.
  unfold WaveManager.bossSpawnInterval, Qminus, Qdiv, Qplus, Qmult,
    Qopp, Qinv, inject_Z, Qfloor.
  cbn [Qnum Qden].
  change (Z.pos (1 * 5 * 1)) with 5. change (Z.pos (1 * 5)) with 5.
  replace (wave * 1 * 1 + - (1) * 5) with (wave + -1 * 5) by lia.
  rewrite Z.div_add by lia. lia.
Qed.

(** X21.  [handleBossWarning] finds a boss to announce for every wave
    from the fifth on, and for no wave from 0 to 4: there the index is
    [-1], no boss type is selected, and reading the name of the missing
    entry raises an exception before anything is published. *)
Theorem boss_warning_needs_wave_five (wave : Z) (w : World) :
  (5 <= wave ->
   exists ty,
     GameStateManager.handleBossWarning wave w
     = Done (set_store
               (Store_triggerBossWarning
                  (fst (GameStateManager.bossInfo ty))
                  (snd (GameStateManager.bossInfo ty)) (store w)) w)) /\
  (0 <= wave < 5 ->
   GameStateManager.handleBossWarning wave w = Thrown w).
Proof.
  rewrite handleBossWarning_index, bossIndex_floor. split.
  - intros Hw.
    assert (1 <= wave / 5) as Hq
      by (apply Z.div_le_lower_bound; lia).
    rewrite Z.rem_mod_nonneg by lia.
    pose proof (Z.mod_pos_bound (wave / 5 - 1) 3 ltac:(lia)) as Hm.
    unfold WaveManager.js_index.
    destruct (_ <? 0) eqn:Hneg; [apply Z.ltb_lt in Hneg; lia|].
    destruct (nth_error WaveManager.bossTypes _) as [ty|] eqn:E;
      [eauto|].
    apply nth_error_None in E. simpl in E. lia.
  - intros Hw. rewrite Z.div_small by lia. reflexivity.
Qed.

(** *** The wave clock outside the pause *)

(** X22.  Only the pause and the death of the player keep a frame from
    the wave director: in every frame that does not find the phase
    [paused] and in which the player does not die, the orchestrator
    calls [update] of the wave director with the time step of the frame,
    and after it nothing but [spawnEnemies].  The phase need not be
    [playing] for that: the frames of the phases [ready], [ended] and
    [characterSelect] advance the wave clock as well. *)
Theorem wave_clock_runs_outside_pause dt now rnd (w : World) :
  fst (beginFrame now w) <> Paused -> dies now w = false ->
  exists ops,
    Forall drivenByFrame ops /\
    waveManager (world_of (update dt now rnd w))
    = snd (WaveManager.run (WaveManager.Update dt :: ops)
             (waveManager w)).
Proof.
  intros Hne Halive.
  destruct (update_calls (fun _ => false) dt now rnd w no_effect_endOfRun)
    as (_ & _ & _ & _ & _ & Hrun).
  exact (Hrun Hne Halive).
Qed.

(** *** The end of the run *)

Lemma runTimers_due now w t :
  In t (timers w) -> t <= now ->
  phase (store (runTimers now w)) = Ended /\
  log (runTimers now w) = log w.
Proof.
  intros Hin Hle. unfold runTimers. cbv zeta.
  assert (In t (List.filter (fun t => t <=? now) (timers w))) as Hdue.
  { apply List.filter_In. split; [exact Hin|]. now apply Z.leb_le. }
  cbn [store log set_timers].
  revert Hdue. generalize (List.filter (fun t => t <=? now) (timers w)).
  intros due Hdue.
  assert (forall (due : list Z) w0,
            log (foldl (fun w _ => set_store (Store_end (store w)) w)
                   w0 due) = log w0 /\
            (due <> [] ->
             phase (store (foldl (fun w _ =>
                                    set_store (Store_end (store w)) w)
                             w0 due)) = Ended)) as Hfold.
  { clear. intros due. induction due as [|d due IH]; intros w0.
    - split; [reflexivity|congruence].
    - cbn [foldl]. destruct (IH (set_store (Store_end (store w0)) w0))
        as [Hlog Hph].
      split; [exact Hlog|]. intros _.
      destruct due as [|d' due]; [reflexivity|].
      apply Hph. discriminate. }
  destruct (Hfold due w) as [Hlog Hph].
  split; [|exact Hlog]. apply Hph. intros ->. contradiction.
Qed.

Lemma beginFrame_phase_kept now w :
  phase (store w) <> Playing -> phase (store w) <> Paused ->
  fst (beginFrame now w) = phase (store w).
Proof.
  intros Hpl Hpa. unfold beginFrame, GameStateManager.handlePauseInput.
  destruct (GamePhase_eqb (phase (store w)) Playing) eqn:E1;
    [apply GamePhase_eqb_eq in E1; contradiction|].
  destruct (GamePhase_eqb (phase (store w)) Paused) eqn:E2;
    [apply GamePhase_eqb_eq in E2; contradiction|].
  destruct (_ && _); reflexivity.
Qed.

Lemma frame_count p currentTime now rnd w t :
  endOfRun p -> In t (timers w) -> t <= now ->
  count p (world_of (frame currentTime now rnd w)) = count p w.
Proof.
  intros Hp Hin Hle. unfold frame. cbv zeta.
  destruct (runTimers_due now w t Hin Hle) as [Hph Hlog].
  match goal with
  | |- context [update ?dt now rnd ?x] =>
      set (d := dt); set (w1 := x)
  end.
  assert (phase (store w1) = Ended) as Hph1 by exact Hph.
  assert (count p w1 = count p w) as Hct1
    by (apply count_set_log_same; exact Hlog).
  assert (dies now w1 = false) as Halive.
  { unfold dies. rewrite beginFrame_phase_kept, Hph1;
      [apply andb_false_r| |]; rewrite Hph1; discriminate. }
  destruct (update_calls p d now rnd w1 Hp) as (_ & _ & _ & Hno & _).
  specialize (Hno Halive).
  destruct (update d now rnd w1) as [w2|w2]; cbn [andThen world_of] in *.
  - unfold render. cbn [world_of].
    rewrite <- Hct1, <- Hno. reflexivity.
  - now rewrite Hno.
Qed.

(** X23.  The timer that the death of the player sets puts an end to
    the recording: a frame at whose start such a timer is due finds the
    phase [ended], and records no run, no end of a run and awards no
    currency, whatever the health of the player. *)
Theorem end_timer_stops_recording
    currentTime now rnd (w : World) (t : Z) :
  In t (timers w) -> t <= now ->
  let w' := world_of (frame currentTime now rnd w) in
  phase (store (runTimers now w)) = Ended /\
  count isRecordRun w' = count isRecordRun w /\
  count isRecordRunEnd w' = count isRecordRunEnd w /\
  count isAddCurrency w' = count isAddCurrency w.
Proof.
  intros Hin Hle. cbv zeta.
  split; [apply (runTimers_due now w t Hin Hle)|].
  split; [|split]; apply (frame_count _ currentTime now rnd w t);
    auto; split; reflexivity.
Qed.

End OrchestratorMore.

(** * Runs of the further properties *)

Section WaveRunsMore.

#[local] Existing Instances plainMath.
Import WaveManager WaveRuns WaveTrace.

Lemma cap_of_wave_on_wave_five :
  reachableByCalls (snd (run toWave5 init)) /\
  currentWave (snd (run toWave5 init)) = 5 /\
  maxActiveEnemies (snd (run toWave5 init)) = 45.
Proof.
  assert (reachableByCalls (snd (run toWave5 init))) as Hr
    by (apply run_reachableByCalls, reachableByCalls_init).
  destruct (cap_of_wave _ Hr) as [_ Hm].
  split; [exact Hr|]. split; [vm_compute; reflexivity|].
  rewrite Hm. vm_compute. reflexivity.
Defined.

Lemma spawnInterval_on_wave_five :
  reachableByCalls (snd (run toWave5 init)) /\
  spawnInterval (snd (run toWave5 init)) = intervalOfWave 5 /\
  (intervalOfWave 5 < intervalOfWave 1)%Q.
Proof.
  assert (reachableByCalls (snd (run toWave5 init))) as Hr
    by (apply run_reachableByCalls, reachableByCalls_init).
  pose proof (spawnInterval_of_wave _ Hr) as Hi.
  split; [exact Hr|]. split; [|vm_compute; reflexivity].
  rewrite Hi. f_equal.
Defined.

Lemma boss_spawn_follows_warning_on_wave_five :
  let s :=
    snd (run (toWave5 ++ [SpawnEnemies 800 600 25 None halves]) init) in
  reachableByCalls s /\ bossSpawned s = true /\
  bossWarningTriggered s = true.
Proof.
  cbv zeta.
  assert (reachableByCalls
            (snd (run (toWave5 ++ [SpawnEnemies 800 600 25 None halves])
                    init))) as Hr
    by (apply run_reachableByCalls, reachableByCalls_init).
  assert (bossSpawned
            (snd (run (toWave5 ++ [SpawnEnemies 800 600 25 None halves])
                    init)) = true) as Hsp
    by (vm_compute; reflexivity).
  split; [exact Hr|]. split; [exact Hsp|].
  exact (boss_spawn_follows_warning _ Hr Hsp).
Defined.


Lemma regular_spawns_apart_at_start :
  let s := fst (update 2 init) in
  let ops := [Update (1 # 2); SpawnEnemies 800 600 1 None halves;
              Update (1 # 4); SpawnEnemies 800 600 1 None halves] in
  let s' := snd (fst (spawnEnemies 800 600 0 None halves s)) in
  reachableByCalls s /\
  length (regularsOf (fst (fst (spawnEnemies 800 600 0 None halves s))))
  = 1%nat /\
  atSpawns (fun s => spawnTimer s < 1)%Q ops s' /\
  (1 <= spawnTimer s)%Q /\ spawnTimer s' = 0%Q /\
  regularsOf (fst (run ops s')) = [].
Proof.
  cbv zeta.
  assert (reachableByCalls (fst (update 2 init))) as Hr
    by exact (reachableByCalls_step (Update 2) init reachableByCalls_init).
  assert (regularsOf
            (fst (fst (spawnEnemies 800 600 0 None halves
                         (fst (update 2 init))))) <> []) as Hsp
    by (vm_compute; discriminate).
  assert (atSpawns (fun s => spawnTimer s < 1)%Q
            [Update (1 # 2); SpawnEnemies 800 600 1 None halves;
             Update (1 # 4); SpawnEnemies 800 600 1 None halves]
            (snd (fst (spawnEnemies 800 600 0 None halves
                         (fst (update 2 init)))))) as Hat
    by (vm_compute; repeat split).
  split; [exact Hr|]. split; [vm_compute; reflexivity|].
  split; [exact Hat|].
  exact (regular_spawns_a_second_apart 800 600 0 None halves _ _
           Hr Hsp Hat).
Defined.


Lemma first_wave_lasts_thirty_seconds :
  let ops := [Update 10; SpawnEnemies 800 600 0 None halves;
              Update 19; SpawnEnemies 800 600 1 None halves] in
  Forall (fun o => o <> Reset) ops /\
  atSpawns (fun s => waveStartTime s < waveDuration)%Q ops init /\
  currentWave (snd (run ops init)) = 1.
Proof.
  cbv zeta.
  assert (Forall (fun o : op => o <> Reset)
            [Update 10; SpawnEnemies 800 600 0 None halves;
             Update 19; SpawnEnemies 800 600 1 None halves]) as Hops
    by (repeat constructor; discriminate).
  assert (atSpawns (fun s => waveStartTime s < waveDuration)%Q
            [Update 10; SpawnEnemies 800 600 0 None halves;
             Update 19; SpawnEnemies 800 600 1 None halves] init) as Hat
    by (vm_compute; repeat split).
  split; [exact Hops|]. split; [exact Hat|].
  exact (wave_ends_only_after_wave_duration _ init Hops Hat).
Defined.

Lemma boss_countdown_over_on_wave_five :
  let s := snd (run toWave5 init) in
  isBossWave s = true /\ bossSpawned s = false /\
  (getTimeUntilBoss s == 0)%Q /\
  bossesOf (fst (fst (spawnEnemies 800 600 25 None halves s)))
  = [spawnBoss 800 600 None halves s].
Proof.
  cbv zeta.
  assert (isBossWave (snd (run toWave5 init)) = true) as Hb
    by (vm_compute; reflexivity).
  assert (bossSpawned (snd (run toWave5 init)) = false) as Hsp
    by (vm_compute; reflexivity).
  assert (getTimeUntilBoss (snd (run toWave5 init)) == 0)%Q as Hz
    by (vm_compute; reflexivity).
  destruct (boss_countdown_zero_iff_spawn 800 600 25 None halves _
              Hb Hsp) as [Hiff _].
  split; [exact Hb|]. split; [exact Hsp|]. split; [exact Hz|].
  apply Hiff, Hz.
Defined.

End WaveRunsMore.

Section AdapterRunsMore.

Import InputManager.

Lemma held_W_is_ignored_and_released :
  let s := addEventListeners init in
  let es := [KeyDown "KeyW"; SetPaused false; ClearMovementKeys] in
  ignoreUntilRelease s = ∅ /\
  "KeyW" ∈ ignoreUntilRelease (handleAll es s) /\
  "KeyW" ∈ movementKeys /\
  pressed "KeyW" (handleAll es s) = false.
Proof.
  cbv zeta.
  assert (ignoreUntilRelease (addEventListeners init) = ∅) as He
    by reflexivity.
  assert ("KeyW" ∈ ignoreUntilRelease
            (handleAll [KeyDown "KeyW"; SetPaused false; ClearMovementKeys]
               (addEventListeners init))) as Hk.
  { apply clearMovementKeys_ignore;
      [unfold movementKeys; set_solver|vm_compute; reflexivity]. }
  destruct (ignored_keys_are_released_movement_keys _ _ _ He Hk)
    as [Hm Hp].
  split; [exact He|]. split; [exact Hk|]. split; [exact Hm|exact Hp].
Defined.

Lemma escape_registers_while_paused :
  let s := addEventListeners init in
  let es := [KeyDown "KeyW"; SetPaused true; ClearMovementKeys] in
  ignoreUntilRelease s = ∅ /\ listenersAttached s = true /\
  "Escape" ∉ movementKeys /\
  isPaused (handleAll es s) = true /\
  pressed "Escape" (handle (KeyDown "Escape") (handleAll es s)) = true.
Proof.
  cbv zeta.
  assert (ignoreUntilRelease (addEventListeners init) = ∅) as He
    by reflexivity.
  assert (listenersAttached (addEventListeners init) = true) as Hl
    by reflexivity.
  assert ("Escape" ∉ movementKeys) as Hc
    by (unfold movementKeys; set_solver).
  split; [exact He|]. split; [exact Hl|]. split; [exact Hc|].
  split; [vm_compute; reflexivity|].
  exact (other_keys_always_register _ _ _ He Hl Hc).
Defined.

End AdapterRunsMore.

Section LoopRunsMore.

Import GameLoopController LoopTrace.

Lemma game_time_of_three_frames :
  let s := {| lastTime := 0 |} in
  let ts := [16; 32; 1032]%Q in
  ascending (lastTime s) ts /\
  length (updateSteps (snd (runLoop ts s))) = 3%nat /\
  Forall (fun dt => 0 <= dt /\ dt <= 2 # 100)%Q
    (updateSteps (snd (runLoop ts s))) /\
  lastTime (fst (runLoop ts s)) = 1032%Q.
Proof.
  cbv zeta.
  assert (ascending (lastTime {| lastTime := 0 |}) [16; 32; 1032]%Q)
    as Hasc by (vm_compute; repeat split; discriminate).
  pose proof (game_time_never_runs_backwards _ _ Hasc)
    as (Hlen & Hall & Hlast).
  split; [exact Hasc|]. split; [exact Hlen|]. split; [exact Hall|].
  exact Hlast.
Defined.

End LoopRunsMore.

Section EngineRunsMore.

#[local] Existing Instances plainMath traceOpaque traceGame.
Import EngineTrace.

Lemma boss_wave_never_ends_on_wave_five :
  let w := set_waveManager WaveRuns.bossFight Worlds.playing in
  let fs := [((16 # 1000)%Q, 1000); ((16 # 1000)%Q, 1016);
     ((16 # 1000)%Q, 1032)] in
  WaveManager.isBossActive (waveManager w) = true /\
  WaveManager.isBossActive
    (waveManager (world_of (GameEngine.updates fs halves w))) = true /\
  WaveManager.currentWave
    (waveManager (world_of (GameEngine.updates fs halves w))) = 5.
Proof.
  cbv zeta.
  assert (WaveManager.isBossActive
            (waveManager
               (set_waveManager WaveRuns.bossFight Worlds.playing))
          = true) as Ha by reflexivity.
  destruct (boss_wave_never_ends
              [((16 # 1000)%Q, 1000); ((16 # 1000)%Q, 1016);
     ((16 # 1000)%Q, 1032)]
              halves _ Ha) as (Ha' & _ & Hw').
  split; [exact Ha|]. split; [exact Ha'|exact Hw'].
Defined.

Lemma frames_never_throw_from_the_start :
  let fs := [((16 # 1000)%Q, 1000); ((16 # 1000)%Q, 1016)] in
  1 <= WaveManager.currentWave (waveManager Worlds.playing) /\
  exists w', GameEngine.updates fs halves Worlds.playing = Done w'.
Proof.
  cbv zeta.
  assert (1 <= WaveManager.currentWave (waveManager Worlds.playing))
    as Hw by (vm_compute; discriminate).
  destruct (frames_never_throw
              [((16 # 1000)%Q, 1000); ((16 # 1000)%Q, 1016)] halves
              Worlds.playing Hw) as (w' & Hdone & _).
  split; [exact Hw|]. exists w'. exact Hdone.
Defined.

Lemma boss_flag_of_a_new_game :
  let fs := [((16 # 1000)%Q, 1000); ((16 # 1000)%Q, 1016)] in
  boss_flag_inv Worlds.playing /\
  boss_flag_inv (world_of (GameEngine.updates fs halves Worlds.playing)) /\
  boss_flag_inv (GameEngine.spawnDebugBoss vampire_lord halves
                   Worlds.playing).
Proof.
  cbv zeta.
  assert (boss_flag_inv Worlds.playing) as Hinv.
  { split; [discriminate|]. intros Hb. now elim Hb. }
  destruct (boss_flag_matches_current_boss
              [((16 # 1000)%Q, 1000); ((16 # 1000)%Q, 1016)] halves
              vampire_lord Worlds.playing Hinv) as (Hf & Hd & _).
  split; [exact Hinv|]. split; [exact Hf|exact Hd].
Defined.

Lemma held_escape_pauses_once :
  let w := Worlds.worldOf Playing Playing 100 ["Escape"] in
  let fs := [((16 # 1000)%Q, 1000); ((16 # 1000)%Q, 1016);
     ((16 # 1000)%Q, 1032)] in
  pause (InputManager.getInput false (inputManager w)) = true /\
  lastPauseState (gameStateManager w) = false /\
  phase (store w) = Playing /\
  exists w',
    GameEngine.updates fs halves w = Done w' /\
    phase (store w') = Paused /\
    waveManager w' = waveManager w.
Proof.
  cbv zeta.
  assert (pause (InputManager.getInput false
                   (inputManager
                      (Worlds.worldOf Playing Playing 100 ["Escape"])))
          = true) as Hp by (vm_compute; reflexivity).
  split; [exact Hp|]. split; [reflexivity|]. split; [reflexivity|].
  apply (held_pause_key_pauses_once
           [((16 # 1000)%Q, 1000); ((16 # 1000)%Q, 1016);
     ((16 # 1000)%Q, 1032)]
           halves (Worlds.worldOf Playing Playing 100 ["Escape"]) Hp);
    [reflexivity|reflexivity|discriminate].
Defined.

Lemma necromancer_announced_on_wave_five :
  1 <= WaveManager.currentWave WaveRuns.bossFight /\
  WaveManager.isBossWave WaveRuns.bossFight = true /\
  exists ty,
    boss_type (WaveManager.spawnBoss 800 600 None halves WaveRuns.bossFight)
    = Some ty /\
    ty = necromancer /\
    GameStateManager.handleBossWarning 5 Worlds.playing
    = Done (set_store
              (Store_triggerBossWarning
                 (fst (GameStateManager.bossInfo ty))
                 (snd (GameStateManager.bossInfo ty))
                 (store Worlds.playing)) Worlds.playing).
Proof.
  assert (1 <= WaveManager.currentWave WaveRuns.bossFight) as Hw
    by (vm_compute; discriminate).
  assert (WaveManager.isBossWave WaveRuns.bossFight = true) as Hb
    by reflexivity.
  destruct (boss_warning_names_spawned_boss 800 600 None halves
              WaveRuns.bossFight Worlds.playing Hw Hb)
    as (ty & Hty & Hdone).
  split; [exact Hw|]. split; [exact Hb|].
  exists ty. split; [exact Hty|]. split; [|exact Hdone].
  vm_compute in Hty. congruence.
Defined.

Lemma wave_clock_runs_in_the_menu :
  let w := Worlds.worldOf Ready Ready 100 [] in
  fst (GameEngine.beginFrame 1000 w) = Ready /\
  dies 1000 w = false /\
  exists ops,
    Forall drivenByFrame ops /\
    waveManager (world_of (GameEngine.update (16 # 1000)%Q 1000 halves w))
    = snd (WaveManager.run (WaveManager.Update (16 # 1000)%Q :: ops)
             (waveManager w)).
Proof.
  cbv zeta.
  assert (fst (GameEngine.beginFrame 1000
                 (Worlds.worldOf Ready Ready 100 [])) = Ready) as Hph
    by (vm_compute; reflexivity).
  assert (dies 1000 (Worlds.worldOf Ready Ready 100 []) = false) as Ha
    by (vm_compute; reflexivity).
  split; [exact Hph|]. split; [exact Ha|].
  apply wave_clock_runs_outside_pause; [|exact Ha].
  rewrite Hph. discriminate.
Defined.

Lemma end_timer_stops_recording_at_1050 :
  let w := set_timers [1050] Worlds.dying in
  In 1050 (timers w) /\
  GameStateManager.checkPlayerDeath w = true /\
  phase (store (GameEngine.runTimers 1050 w)) = Ended /\
  GameEngine.count GameEngine.isRecordRun
    (world_of (GameEngine.frame 1050 1050 halves w))
  = GameEngine.count GameEngine.isRecordRun w.
Proof.
  cbv zeta.
  assert (In 1050 (timers (set_timers [1050] Worlds.dying))) as Hin
    by (left; reflexivity).
  destruct (end_timer_stops_recording 1050%Q 1050 halves
              (set_timers [1050] Worlds.dying) 1050 Hin
              ltac:(vm_compute; discriminate)) as (Hph & Hrun & _).
  split; [exact Hin|]. split; [vm_compute; reflexivity|].
  split; [exact Hph|exact Hrun].
Defined.

End EngineRunsMore.
